(** * Pricing, coupons, inventory and order cancellation of the ShopEase backend

    A shallow embedding of the Mongoose models [Cart], [Coupon], [Product]
    and [Order] and of the controllers that drive them, followed by the
    properties of the pricing and order life cycle.

    Conventions of the embedding:
    - a JavaScript [Number] is an exact rational ([Q]) in the models and the
      controllers, which leaves the binary64 rounding of the arithmetic
      operators out.  Numeric results are compared with [==] ([Qeq]), the
      counterpart of JavaScript's numeric equality.  [Binary64] replays the
      pricing arithmetic on binary64 numbers, for the inputs on which the
      rounding decides a sign or a cent;
    - an [ObjectId] is its string form; [a.toString() === b.toString()] is
      equality of these strings;
    - a [Date] is its millisecond time stamp ([Z]); the clock ([Date.now()],
      [new Date()]) is an explicit argument [now];
    - a Mongoose collection is a finite map from the document key to the
      document; [await doc.save()] returns the document as the pre-save hook
      leaves it and the controller writes it back to the collection.  The
      schema validators that run before a save are written out in
      [syncCart], [updatePaymentStatus] and [Order.create], where the handler
      itself can build a document that fails them; the other handlers are
      modelled on requests that pass the validators;
    - schema fields that no modelled function reads or writes are left out. *)

From Stdlib Require Import QArith Qround Lqa ZArith Ascii String List Lia.
From Stdlib Require Floats Uint63.
From stdpp Require Import base option list gmap strings.

Open Scope Q_scope.

(** ** JavaScript primitives *)

Definition ObjectId := string.

Module JS.

(** [x > y], [x < y], [x >= y] and [x <= y] on numbers. *)
Definition gt (x y : Q) : bool := negb (Qle_bool x y).
Definition lt (x y : Q) : bool := negb (Qle_bool y x).
Definition ge (x y : Q) : bool := Qle_bool y x.
Definition le (x y : Q) : bool := Qle_bool x y.

(** Truthiness of a nullable number: [null] and [0] are falsy. *)
Definition truthyNumber (n : option Q) : bool :=
  match n with
  | Some q => negb (Qeq_bool q 0)
  | None => false
  end.

(** Truthiness of a nullable string: [null] and the empty string are falsy. *)
Definition truthyString (s : option string) : bool :=
  match s with
  | Some EmptyString => false
  | Some _ => true
  | None => false
  end.

(** [Math.max(a, b)] and [Math.min(a, b)]. *)
Definition Math_max (a b : Q) : Q := if Qle_bool a b then b else a.
Definition Math_min (a b : Q) : Q := if Qle_bool a b then a else b.

(** [Math.round(x)]: the nearest integer, ties towards plus infinity. *)
Definition Math_round (x : Q) : Q := inject_Z (Qfloor (x + (1 # 2))).

(** [s || fallback] on a nullable string. *)
Definition orElse (s : option string) (fallback : string) : string :=
  match s with
  | Some v => if truthyString s then v else fallback
  | None => fallback
  end.

(** [s.toUpperCase()] on the ASCII letters. *)
Definition upperAscii (c : ascii) : ascii :=
  let n := Ascii.nat_of_ascii c in
  if ((97 <=? n) && (n <=? 122))%nat then Ascii.ascii_of_nat (n - 32) else c.

Fixpoint toUpperCase (s : string) : string :=
  match s with
  | EmptyString => EmptyString
  | String c rest => String (upperAscii c) (toUpperCase rest)
  end.

End JS.

Inductive DiscountType := percentage | fixed.

#[global] Instance DiscountType_eq_dec : EqDecision DiscountType.
Proof. solve_decision. Defined.

(** A message is a template literal: string pieces and interpolated numbers
    (the decimal rendering of a number is left to the reader of the message). *)
Inductive Fragment :=
| Str (s : string)
| Num (n : Q).

Definition Message := list Fragment.

Definition text (s : string) : Message := [Str s].

(** ** models/Product.js *)

Module Product.

(** [inventorySchema] *)
Record InventoryRecord := mkInventory {
  sku : string;
  quantity : Q;
  lowStockThreshold : Q
}.

(** [productSchema] *)
Record t := mk {
  _id : ObjectId;
  price : Q;
  isActive : bool;
  inventory : list InventoryRecord;
  totalQuantity : Q;
  salesCount : Q
}.

Definition set_quantity (q : Q) (inv : InventoryRecord) : InventoryRecord :=
  {| sku := sku inv; quantity := q; lowStockThreshold := lowStockThreshold inv |}.

Definition set_inventory (l : list InventoryRecord) (this : t) : t :=
  {| _id := _id this; price := price this; isActive := isActive this;
     inventory := l; totalQuantity := totalQuantity this;
     salesCount := salesCount this |}.

Definition set_totalQuantity (q : Q) (this : t) : t :=
  {| _id := _id this; price := price this; isActive := isActive this;
     inventory := inventory this; totalQuantity := q;
     salesCount := salesCount this |}.

Definition set_salesCount (q : Q) (this : t) : t :=
  {| _id := _id this; price := price this; isActive := isActive this;
     inventory := inventory this; totalQuantity := totalQuantity this;
     salesCount := q |}.

(** [this.inventory.reduce((sum, inv) => sum + inv.quantity, 0)] *)
Definition sumQuantity (l : list InventoryRecord) : Q :=
  fold_left (fun sum inv => sum + quantity inv) l 0.

(** [this.inventory.find(inv => inv.sku === sku)], with the index of the
    record found so that the caller can write to it. *)
Definition findSku (s : string) (l : list InventoryRecord)
  : option (nat * InventoryRecord) :=
  list_find (fun inv => sku inv = s) l.

(** The pre-save hook: [totalQuantity] is recomputed when the inventory
    path is modified. *)
Definition save (inventoryModified : bool) (this : t) : t :=
  if inventoryModified
  then set_totalQuantity (sumQuantity (inventory this)) this
  else this.

Definition isInStock (this : t) : bool := JS.gt (totalQuantity this) 0.

Definition isVariantInStock (this : t) (s : string) : bool :=
  match findSku s (inventory this) with
  | Some (_, item) => JS.gt (quantity item) 0
  | None => false
  end.

(** [updateStock(sku, quantity)]: the decrement after a purchase. *)
Definition updateStock (this : t) (s : string) (qty : Q) : t :=
  match findSku s (inventory this) with
  | Some (i, item) =>
      let item' := set_quantity (JS.Math_max 0 (quantity item - qty)) item in
      let this1 := set_inventory (<[i := item']> (inventory this)) this in
      let this2 := set_totalQuantity (sumQuantity (inventory this1)) this1 in
      save true this2
  | None => this
  end.

(** What [find] reads for a SKU: the quantity of the first record that carries
    it, if any. *)
Definition stockOf (this : t) (s : string) : option Q :=
  match findSku s (inventory this) with
  | Some (_, item) => Some (quantity item)
  | None => None
  end.

Definition hasSku (this : t) (s : string) : bool :=
  match findSku s (inventory this) with
  | Some _ => true
  | None => false
  end.

(** The cached total is the sum of the inventory quantities. *)
Definition totalConsistent (this : t) : Prop :=
  totalQuantity this = sumQuantity (inventory this).

End Product.

(** ** models/Cart.js *)

(** The [coupon] sub-document of [cartSchema]. *)
Module CartCoupon.

Record t := mk {
  code : option string;
  discount : Q;
  discountType : DiscountType
}.

End CartCoupon.

Module Cart.

(** [cartItemSchema] *)
Record CartItem := mkItem {
  _id : ObjectId;
  product : ObjectId;
  sku : string;
  quantity : Q;
  price : Q;
  variantDetails : gmap string string;
  addedAt : Z
}.

(** [cartSchema] *)
Record t := mk {
  user : ObjectId;
  items : list CartItem;
  coupon : CartCoupon.t;
  subtotal : Q;
  discount : Q;
  tax : Q;
  shipping : Q;
  total : Q;
  lastUpdated : Z
}.

Definition set_itemQuantity (q : Q) (item : CartItem) : CartItem :=
  {| _id := _id item; product := product item; sku := sku item;
     quantity := q; price := price item;
     variantDetails := variantDetails item; addedAt := addedAt item |}.

Definition set_items (l : list CartItem) (this : t) : t :=
  {| user := user this; items := l; coupon := coupon this;
     subtotal := subtotal this; discount := discount this; tax := tax this;
     shipping := shipping this; total := total this;
     lastUpdated := lastUpdated this |}.

Definition set_coupon (c : CartCoupon.t) (this : t) : t :=
  {| user := user this; items := items this; coupon := c;
     subtotal := subtotal this; discount := discount this; tax := tax this;
     shipping := shipping this; total := total this;
     lastUpdated := lastUpdated this |}.

Definition set_lastUpdated (now : Z) (this : t) : t :=
  {| user := user this; items := items this; coupon := coupon this;
     subtotal := subtotal this; discount := discount this; tax := tax this;
     shipping := shipping this; total := total this;
     lastUpdated := now |}.

(** [{ code: null, discount: 0, discountType: 'percentage' }] *)
Definition noCoupon : CartCoupon.t :=
  {| CartCoupon.code := None; CartCoupon.discount := 0;
     CartCoupon.discountType := percentage |}.

(** [new Cart({ user })]: the schema defaults. *)
Definition new (u : ObjectId) (now : Z) : t :=
  {| user := u; items := []; coupon := noCoupon;
     subtotal := 0; discount := 0; tax := 0; shipping := 0; total := 0;
     lastUpdated := now |}.

(** [this.items.reduce((sum, item) => sum + item.price * item.quantity, 0)] *)
Definition sumItems (l : list CartItem) : Q :=
  fold_left (fun sum item => sum + price item * quantity item) l 0.

(** [calculateTotals()] *)
Definition calculateTotals (this : t) : t :=
  let subtotal := sumItems (items this) in
  let discount :=
    if JS.truthyString (CartCoupon.code (coupon this)) then
      match CartCoupon.discountType (coupon this) with
      | percentage => (subtotal * CartCoupon.discount (coupon this)) / 100
      | fixed => CartCoupon.discount (coupon this)
      end
    else 0 in
  let tax := (subtotal - discount) * 0.08 in
  let shipping := if JS.gt subtotal 50 then 0 else 5.99 in
  let total := subtotal - discount + tax + shipping in
  {| user := user this; items := items this; coupon := coupon this;
     subtotal := subtotal; discount := discount; tax := tax;
     shipping := shipping; total := total;
     lastUpdated := lastUpdated this |}.

(** [cartSchema.pre('save')] followed by the write. *)
Definition save (this : t) (now : Z) : t :=
  set_lastUpdated now (calculateTotals this).

(** [this.items.id(itemId)] *)
Definition itemById (itemId : ObjectId) (l : list CartItem)
  : option (nat * CartItem) :=
  list_find (fun item => _id item = itemId) l.

(** [this.items.pull(itemId)] *)
Definition pull (itemId : ObjectId) (l : list CartItem) : list CartItem :=
  filter (fun item => _id item <> itemId) l.

(** [addItem(product, sku, quantity, variantDetails)]; [freshId] is the
    [_id] Mongoose gives to a pushed sub-document. *)
Definition addItem (this : t) (p : Product.t) (s : string) (qty : Q)
    (details : option (gmap string string)) (freshId : ObjectId) (now : Z) : t :=
  let this1 :=
    match list_find (fun item => product item = Product._id p /\ sku item = s)
                    (items this) with
    | Some (existingItemIndex, item) =>
        set_items
          (<[existingItemIndex := set_itemQuantity (quantity item + qty) item]>
             (items this)) this
    | None =>
        set_items
          (items this ++
             [ {| _id := freshId; product := Product._id p; sku := s;
                  quantity := qty; price := Product.price p;
                  variantDetails := default ∅ details; addedAt := now |} ])
          this
    end in
  save (calculateTotals this1) now.

(** [updateItemQuantity(itemId, quantity)]; [None] is the [null] returned
    when the cart holds no such item, in which case nothing is written. *)
Definition updateItemQuantity (this : t) (itemId : ObjectId) (qty : Q)
    (now : Z) : option t :=
  match itemById itemId (items this) with
  | Some (i, item) =>
      let this1 :=
        if JS.le qty 0
        then set_items (pull itemId (items this)) this
        else set_items (<[i := set_itemQuantity qty item]> (items this)) this in
      Some (save (calculateTotals this1) now)
  | None => None
  end.

(** [removeItem(itemId)] *)
Definition removeItem (this : t) (itemId : ObjectId) (now : Z) : t :=
  save (calculateTotals (set_items (pull itemId (items this)) this)) now.

(** [clearCart()] *)
Definition clearCart (this : t) (now : Z) : t :=
  save (calculateTotals (set_coupon noCoupon (set_items [] this))) now.

(** [applyCoupon(code, discount, discountType)] *)
Definition applyCoupon (this : t) (c : option string) (d : Q)
    (ty : DiscountType) (now : Z) : t :=
  save (calculateTotals
          (set_coupon {| CartCoupon.code := c; CartCoupon.discount := d;
                         CartCoupon.discountType := ty |} this))
       now.

(** [removeCoupon()] *)
Definition removeCoupon (this : t) (now : Z) : t :=
  save (calculateTotals (set_coupon noCoupon this)) now.

(** [getItemCount()] and [isEmpty()] *)
Definition getItemCount (this : t) : Q :=
  fold_left (fun count item => count + quantity item) (items this) 0.

Definition isEmpty (this : t) : bool :=
  match items this with [] => true | _ => false end.



(** The stored totals satisfy the pricing equations. *)
Definition totalsConsistent (this : t) : Prop :=
  subtotal this = sumItems (items this) /\
  total this = subtotal this - discount this + tax this + shipping this.


End Cart.

(** ** models/Coupon.js *)

Module Coupon.

(** An entry of [usedBy]. *)
Record Usage := mkUsage {
  user : ObjectId;
  count : Q;
  lastUsed : Z
}.

Record UsageLimit := mkLimit {
  total : option Q;
  perUser : option Q
}.

Inductive ApplyTo := all | products | categories.

#[global] Instance ApplyTo_eq_dec : EqDecision ApplyTo.
Proof. solve_decision. Defined.

(** [couponSchema] *)
Record t := mk {
  code : string;
  discountType : DiscountType;
  discountValue : Q;
  minimumPurchase : Q;
  maximumDiscount : option Q;
  usageLimit : UsageLimit;
  usageCount : Q;
  usedBy : list Usage;
  applicableProducts : list ObjectId;
  applicableCategories : list ObjectId;
  startDate : Z;
  endDate : Z;
  isActive : bool;
  applyTo : ApplyTo;
  updatedAt : Z
}.

(** The [min: [0, ...]] validators of [usageLimit.total] and
    [usageLimit.perUser]; [null], the default, passes. *)
Definition validLimit (n : option Q) : bool :=
  match n with
  | Some q => JS.ge q 0
  | None => true
  end.

Definition validateUsageLimit (l : UsageLimit) : bool :=
  validLimit (total l) && validLimit (perUser l).

Inductive Validity :=
| Valid
| Invalid (reason : Message).

Inductive UserCheck :=
| CanUse
| CannotUse (reason : Message).

Inductive DiscountResult :=
| Applicable (discount finalTotal : Q)
| NotApplicable (reason : Message).

(** [limit && count >= limit] *)
Definition limitReached (limit : option Q) (n : Q) : bool :=
  match limit with
  | Some l => JS.truthyNumber limit && JS.ge n l
  | None => false
  end.

(** [isValid()] *)
Definition isValid (this : t) (now : Z) : Validity :=
  if negb (isActive this) then Invalid (text "Coupon is inactive")
  else if (now <? startDate this)%Z then Invalid (text "Coupon not yet active")
  else if (now >? endDate this)%Z then Invalid (text "Coupon has expired")
  else if limitReached (total (usageLimit this)) (usageCount this)
       then Invalid (text "Usage limit reached")
  else Valid.

(** [this.usedBy.find(u => u.user.toString() === userId.toString())] *)
Definition findUsage (userId : ObjectId) (l : list Usage)
  : option (nat * Usage) :=
  list_find (fun u => user u = userId) l.

(** [canUserUse(userId)] *)
Definition canUserUse (this : t) (userId : ObjectId) : UserCheck :=
  let userUsage := findUsage userId (usedBy this) in
  if JS.truthyNumber (perUser (usageLimit this)) then
    match userUsage, perUser (usageLimit this) with
    | Some (_, u), Some l =>
        if JS.ge (count u) l
        then CannotUse (text "Per-user limit reached")
        else CanUse
    | _, _ => CanUse
    end
  else CanUse.

(** [ids.some(id => allowed.some(a => a.toString() === id.toString()))] *)
Definition someApplicable (ids allowed : list ObjectId) : bool :=
  existsb (fun id => existsb (fun a => bool_decide (a = id)) allowed) ids.

(** The discount before it is rounded. *)
Definition rawDiscount (this : t) (subtotal : Q) : Q :=
  match discountType this with
  | percentage =>
      let discount := (subtotal * discountValue this) / 100 in
      match maximumDiscount this with
      | Some m =>
          if JS.truthyNumber (maximumDiscount this)
          then JS.Math_min discount m
          else discount
      | None => discount
      end
  | fixed => discountValue this
  end.

(** [calculateDiscount(subtotal, productIds = [], categoryIds = [])]; a
    caller that leaves an argument out passes the empty list. *)
Definition calculateDiscount (this : t) (subtotal : Q)
    (productIds categoryIds : list ObjectId) : DiscountResult :=
  if bool_decide (applyTo this = products)
     && (0 <? length (applicableProducts this))%nat
     && negb (someApplicable productIds (applicableProducts this))
  then NotApplicable (text "Coupon not applicable to these products")
  else if bool_decide (applyTo this = categories)
     && (0 <? length (applicableCategories this))%nat
     && negb (someApplicable categoryIds (applicableCategories this))
  then NotApplicable (text "Coupon not applicable to these categories")
  else if JS.lt subtotal (minimumPurchase this)
  then NotApplicable [Str "Minimum purchase of $";
                      Num (minimumPurchase this); Str " required"]
  else
    let discount := rawDiscount this subtotal in
    Applicable (JS.Math_round (discount * 100) / 100) (subtotal - discount).

Definition set_count (n : Q) (now : Z) (u : Usage) : Usage :=
  {| user := user u; count := n; lastUsed := now |}.

(** [recordUsage(userId)], saved at time [now]. *)
Definition recordUsage (this : t) (userId : ObjectId) (now : Z) : t :=
  let usedBy' :=
    match findUsage userId (usedBy this) with
    | Some (userIndex, u) =>
        <[userIndex := set_count (count u + 1) now u]> (usedBy this)
    | None =>
        usedBy this ++ [ {| user := userId; count := 1; lastUsed := now |} ]
    end in
  {| code := code this; discountType := discountType this;
     discountValue := discountValue this;
     minimumPurchase := minimumPurchase this;
     maximumDiscount := maximumDiscount this;
     usageLimit := usageLimit this;
     usageCount := usageCount this + 1;
     usedBy := usedBy';
     applicableProducts := applicableProducts this;
     applicableCategories := applicableCategories this;
     startDate := startDate this; endDate := endDate this;
     isActive := isActive this; applyTo := applyTo this;
     updatedAt := now |}.

(** The sum of the per-user counts and the count recorded for one user
    (0 for a user without an entry). *)
Definition sumCounts (l : list Usage) : Q :=
  fold_right (fun u acc => count u + acc) 0 l.

Definition countOf (userId : ObjectId) (l : list Usage) : Q :=
  match findUsage userId l with
  | Some (_, u) => count u
  | None => 0
  end.

Definition usageConsistent (this : t) : Prop :=
  usageCount this == sumCounts (usedBy this).

End Coupon.

(** ** models/Order.js *)

(** [timelineEventSchema] *)
Module TimelineEvent.

Record t := mk {
  status : string;
  description : Message;
  updatedBy : option ObjectId;
  timestamp : Z
}.

End TimelineEvent.

Module Order.

Inductive Status :=
| pending | processing | shipped | delivered | cancelled | refunded | returned.

Definition statusName (s : Status) : string :=
  match s with
  | pending => "pending"
  | processing => "processing"
  | shipped => "shipped"
  | delivered => "delivered"
  | cancelled => "cancelled"
  | refunded => "refunded"
  | returned => "returned"
  end.

(** [orderItemSchema] *)
Record OrderItem := mkItem {
  product : ObjectId;
  sku : string;
  price : Q;
  quantity : Q
}.

(** [orderSchema] *)
Record t := mk {
  _id : ObjectId;
  user : ObjectId;
  items : list OrderItem;
  status : Status;
  timeline : list TimelineEvent.t;
  updatedAt : Z
}.

(** The pre-save hook on a document that is already stored. *)
Definition save (this : t) (now : Z) : t :=
  {| _id := _id this; user := user this; items := items this;
     status := status this; timeline := timeline this; updatedAt := now |}.

(** [cancel(reason, updatedBy)] *)
Definition cancel (this : t) (reason : string) (by_ : ObjectId) (now : Z) : t :=
  save
    {| _id := _id this; user := user this; items := items this;
       status := cancelled;
       timeline :=
         timeline this ++
           [ {| TimelineEvent.status := "cancelled";
                TimelineEvent.description :=
                  [Str "Order cancelled. Reason: "; Str reason];
                TimelineEvent.updatedBy := Some by_;
                TimelineEvent.timestamp := now |} ];
       updatedAt := updatedAt this |}
    now.

End Order.

(** ** The collections and the replies of the HTTP handlers *)

(** The collections: carts by owner (the unique index on [user]), coupons by
    code (the unique index on [code]), products and orders by [_id]. *)
Record DB := mkDB {
  carts : gmap ObjectId Cart.t;
  products : gmap ObjectId Product.t;
  coupons : gmap string Coupon.t;
  orders : gmap ObjectId Order.t
}.

Definition set_carts (m : gmap ObjectId Cart.t) (db : DB) : DB :=
  {| carts := m; products := products db; coupons := coupons db;
     orders := orders db |}.

Definition set_products (m : gmap ObjectId Product.t) (db : DB) : DB :=
  {| carts := carts db; products := m; coupons := coupons db;
     orders := orders db |}.

Definition set_orders (m : gmap ObjectId Order.t) (db : DB) : DB :=
  {| carts := carts db; products := products db; coupons := coupons db;
     orders := m |}.

(** [res.status(n).json({ success, message, data })], or an exception that
    [asyncHandler] passes on to the error middleware. *)
Inductive Reply (A : Type) :=
| Json (status : nat) (success : bool) (message : Message) (data : option A)
| Thrown.

Arguments Json {A} status success message data.
Arguments Thrown {A}.

Definition fail {A : Type} (status : nat) (message : Message) : Reply A :=
  Json status false message None.

Definition ok {A : Type} (message : Message) (data : A) : Reply A :=
  Json 200 true message (Some data).

(** ** controllers/cart.controller.js *)

Module CartController.

Definition onlyInStock (q : Q) : Message :=
  [Str "Only "; Num q; Str " items available in stock"].

(** [exports.addItem] *)
Definition addItem (db : DB) (userId productId : ObjectId) (s : string)
    (qty : Q) (details : option (gmap string string))
    (freshId : ObjectId) (now : Z) : DB * Reply Cart.t :=
  match products db !! productId with
  | None => (db, fail 404 (text "Product not found"))
  | Some product =>
    if negb (Product.isActive product)
    then (db, fail 404 (text "Product not found"))
    else
      match Product.findSku s (Product.inventory product) with
      | None => (db, fail 404 (text "Product variant not found"))
      | Some (_, inventoryItem) =>
        if JS.lt (Product.quantity inventoryItem) qty
        then (db, fail 400 (onlyInStock (Product.quantity inventoryItem)))
        else
          let cart := default (Cart.new userId now) (carts db !! userId) in
          let stored (items' : list Cart.CartItem) :=
            let saved := Cart.save (Cart.set_items items' cart) now in
            (set_carts (<[userId := saved]> (carts db)) db,
             ok (text "Item added to cart") saved) in
          match list_find
                  (fun item => Cart.product item = productId /\ Cart.sku item = s)
                  (Cart.items cart) with
          | Some (existingItemIndex, item) =>
              let newQuantity := Cart.quantity item + qty in
              if JS.lt (Product.quantity inventoryItem) newQuantity
              then (db, fail 400 (onlyInStock (Product.quantity inventoryItem)))
              else
                stored (<[existingItemIndex :=
                            Cart.set_itemQuantity newQuantity item]>
                          (Cart.items cart))
          | None =>
              stored
                (Cart.items cart ++
                   [ {| Cart._id := freshId; Cart.product := productId;
                        Cart.sku := s; Cart.quantity := qty;
                        Cart.price := Product.price product;
                        Cart.variantDetails := default ∅ details;
                        Cart.addedAt := now |} ])
          end
      end
  end.

(** [exports.updateItemQuantity] *)
Definition updateItemQuantity (db : DB) (userId itemId : ObjectId) (qty : Q)
    (now : Z) : DB * Reply Cart.t :=
  match carts db !! userId with
  | None => (db, fail 404 (text "Cart not found"))
  | Some cart =>
    match Cart.itemById itemId (Cart.items cart) with
    | None => (db, fail 404 (text "Cart item not found"))
    | Some (i, cartItem) =>
      match products db !! Cart.product cartItem with
      | None => (db, Thrown)
      | Some product =>
        let inventoryItem :=
          Product.findSku (Cart.sku cartItem) (Product.inventory product) in
        let refusal :=
          match inventoryItem with
          | Some (_, inv) =>
              if JS.lt (Product.quantity inv) qty
              then Some (onlyInStock (Product.quantity inv))
              else None
          | None => None
          end in
        match refusal with
        | Some m => (db, fail 400 m)
        | None =>
          let items' :=
            if JS.le qty 0
            then Cart.pull itemId (Cart.items cart)
            else <[i := Cart.set_itemQuantity qty cartItem]> (Cart.items cart) in
          let saved := Cart.save (Cart.set_items items' cart) now in
          (set_carts (<[userId := saved]> (carts db)) db,
           ok (text "Cart updated") saved)
        end
      end
    end
  end.

(** [exports.removeItem] *)
Definition removeItem (db : DB) (userId itemId : ObjectId) (now : Z)
  : DB * Reply Cart.t :=
  match carts db !! userId with
  | None => (db, fail 404 (text "Cart not found"))
  | Some cart =>
      let saved :=
        Cart.save (Cart.set_items (Cart.pull itemId (Cart.items cart)) cart) now in
      (set_carts (<[userId := saved]> (carts db)) db,
       ok (text "Item removed from cart") saved)
  end.

(** [exports.clearCart] *)
Definition clearCart (db : DB) (userId : ObjectId) (now : Z)
  : DB * Reply Cart.t :=
  match carts db !! userId with
  | None => (db, fail 404 (text "Cart not found"))
  | Some cart =>
      let saved :=
        Cart.save (Cart.set_coupon Cart.noCoupon (Cart.set_items [] cart)) now in
      (set_carts (<[userId := saved]> (carts db)) db,
       ok (text "Cart cleared") saved)
  end.

(** [exports.applyCoupon]; the data of the reply is the updated cart and
    the discount the coupon computed. *)
Definition applyCoupon (db : DB) (userId : ObjectId) (code : string) (now : Z)
  : DB * Reply (Cart.t * Q) :=
  match carts db !! userId with
  | None => (db, fail 404 (text "Cart not found"))
  | Some cart =>
    if (length (Cart.items cart) =? 0)%nat
    then (db, fail 400 (text "Cannot apply coupon to empty cart"))
    else
      match coupons db !! JS.toUpperCase code with
      | None => (db, fail 404 (text "Invalid coupon code"))
      | Some coupon =>
        match Coupon.isValid coupon now with
        | Coupon.Invalid reason => (db, fail 400 reason)
        | Coupon.Valid =>
          match Coupon.canUserUse coupon userId with
          | Coupon.CannotUse reason => (db, fail 400 reason)
          | Coupon.CanUse =>
            let productIds := map Cart.product (Cart.items cart) in
            match Coupon.calculateDiscount coupon (Cart.subtotal cart)
                    productIds [] with
            | Coupon.NotApplicable reason => (db, fail 400 reason)
            | Coupon.Applicable discount _ =>
              let saved :=
                Cart.save
                  (Cart.set_coupon
                     {| CartCoupon.code := Some (Coupon.code coupon);
                        CartCoupon.discount := Coupon.discountValue coupon;
                        CartCoupon.discountType := Coupon.discountType coupon |}
                     cart)
                  now in
              (set_carts (<[userId := saved]> (carts db)) db,
               ok (text "Coupon applied successfully") (saved, discount))
            end
          end
        end
      end
  end.

(** [exports.removeCoupon] *)
Definition removeCoupon (db : DB) (userId : ObjectId) (now : Z)
  : DB * Reply Cart.t :=
  match carts db !! userId with
  | None => (db, fail 404 (text "Cart not found"))
  | Some cart =>
      let saved := Cart.save (Cart.set_coupon Cart.noCoupon cart) now in
      (set_carts (<[userId := saved]> (carts db)) db,
       ok (text "Coupon removed") saved)
  end.

(** The mutating requests of the cart routes. *)
Inductive Request :=
| AddItem (productId : ObjectId) (s : string) (qty : Q)
          (details : option (gmap string string)) (freshId : ObjectId)
| UpdateItemQuantity (itemId : ObjectId) (qty : Q)
| RemoveItem (itemId : ObjectId)
| ClearCart
| ApplyCoupon (code : string)
| RemoveCoupon.

(** The collections after the request of user [userId] at time [now]. *)
Definition handle (req : Request) (userId : ObjectId) (now : Z) (db : DB) : DB :=
  match req with
  | AddItem productId s qty details freshId =>
      fst (addItem db userId productId s qty details freshId now)
  | UpdateItemQuantity itemId qty =>
      fst (updateItemQuantity db userId itemId qty now)
  | RemoveItem itemId => fst (removeItem db userId itemId now)
  | ClearCart => fst (clearCart db userId now)
  | ApplyCoupon code => fst (applyCoupon db userId code now)
  | RemoveCoupon => fst (removeCoupon db userId now)
  end.

End CartController.

(** ** controllers/product.controller.js *)

Module ProductController.

(** [exports.updateStock]: the admin sets the quantity of one SKU; the data
    of the reply is [{ sku, quantity, totalQuantity }]. *)
Definition updateStock (db : DB) (id : ObjectId) (s : string) (qty : Q)
  : DB * Reply (string * Q * Q) :=
  match products db !! id with
  | None => (db, fail 404 (text "Product not found"))
  | Some product =>
    match Product.findSku s (Product.inventory product) with
    | None => (db, fail 404 (text "Inventory item not found"))
    | Some (i, inventoryItem) =>
      let inventoryItem' := Product.set_quantity qty inventoryItem in
      let p1 :=
        Product.set_inventory
          (<[i := inventoryItem']> (Product.inventory product)) product in
      let p2 :=
        Product.set_totalQuantity
          (Product.sumQuantity (Product.inventory p1)) p1 in
      let saved := Product.save true p2 in
      (set_products (<[id := saved]> (products db)) db,
       ok (text "Stock updated successfully")
          (s, Product.quantity inventoryItem', Product.totalQuantity saved))
    end
  end.

End ProductController.

(** ** controllers/order.controller.js *)

Module OrderController.

(** [createOrder], one turn of the loop under "Update product stock": the
    product is read, decremented and saved, then its [salesCount] is raised
    and it is saved again.  [None] when the product is gone and the handler
    throws. *)
Definition updateProductStock (ps : gmap ObjectId Product.t)
    (item : Cart.CartItem) : option (gmap ObjectId Product.t) :=
  match ps !! Cart.product item with
  | Some product =>
      let p1 := Product.updateStock product (Cart.sku item) (Cart.quantity item) in
      let p2 :=
        Product.set_salesCount (Product.salesCount p1 + Cart.quantity item) p1 in
      Some (<[Cart.product item := Product.save false p2]> ps)
  | None => None
  end.

(** [createOrder], the whole loop; it stops at the first exception. *)
Fixpoint updateProductStocks (ps : gmap ObjectId Product.t)
    (items : list Cart.CartItem) : option (gmap ObjectId Product.t) :=
  match items with
  | [] => Some ps
  | item :: rest =>
      match updateProductStock ps item with
      | Some ps' => updateProductStocks ps' rest
      | None => None
      end
  end.

(** [['pending', 'processing'].includes(order.status)] *)
Definition cancellable (s : Order.Status) : bool :=
  match s with
  | Order.pending | Order.processing => true
  | _ => false
  end.

(** [cancelOrder], one turn of the loop under "Restore stock". *)
Definition restoreItem (ps : gmap ObjectId Product.t) (item : Order.OrderItem)
  : gmap ObjectId Product.t :=
  match ps !! Order.product item with
  | Some product =>
    match Product.findSku (Order.sku item) (Product.inventory product) with
    | Some (i, inventoryItem) =>
      let inventoryItem' :=
        Product.set_quantity
          (Product.quantity inventoryItem + Order.quantity item) inventoryItem in
      let p1 :=
        Product.set_inventory
          (<[i := inventoryItem']> (Product.inventory product)) product in
      let p2 :=
        Product.set_totalQuantity
          (Product.sumQuantity (Product.inventory p1)) p1 in
      let p3 :=
        Product.set_salesCount (Product.salesCount p2 - Order.quantity item) p2 in
      <[Order.product item := Product.save true p3]> ps
    | None => ps
    end
  | None => ps
  end.

(** [exports.cancelOrder] *)
Definition cancelOrder (db : DB) (userId orderId : ObjectId)
    (reason : option string) (now : Z) : DB * Reply Order.t :=
  match orders db !! orderId with
  | None => (db, fail 404 (text "Order not found"))
  | Some order =>
    if negb (bool_decide (Order.user order = userId))
    then (db, fail 404 (text "Order not found"))
    else if negb (cancellable (Order.status order))
    then (db, fail 400 [Str "Cannot cancel order with status: ";
                        Str (Order.statusName (Order.status order))])
    else
      let ps := fold_left restoreItem (Order.items order) (products db) in
      let order' :=
        Order.cancel order (JS.orElse reason "Cancelled by customer") userId now in
      (set_orders (<[orderId := order']> (orders db)) (set_products ps db),
       ok (text "Order cancelled successfully") order')
  end.

(** The quantity an order holds of SKU [s] of product [pid], and the quantity
    it holds of product [pid] over the SKUs that [has] accepts. *)
Definition restoredFor (pid : ObjectId) (s : string)
    (items : list Order.OrderItem) : Q :=
  fold_right
    (fun item acc =>
       if bool_decide (Order.product item = pid /\ Order.sku item = s)
       then Order.quantity item + acc else acc)
    0 items.

Definition restoredTotal (pid : ObjectId) (has : string -> bool)
    (items : list Order.OrderItem) : Q :=
  fold_right
    (fun item acc =>
       if bool_decide (Order.product item = pid) && has (Order.sku item)
       then Order.quantity item + acc else acc)
    0 items.

End OrderController.

(** Every product of [ps'] has a consistent cached total, or has the inventory
    and the cached total it had in [ps]. *)
Definition stockWritten (ps ps' : gmap ObjectId Product.t) : Prop :=
  forall (pid : ObjectId) (p' : Product.t),
    ps' !! pid = Some p' ->
    Product.totalConsistent p' \/
    exists p, ps !! pid = Some p /\
              Product.inventory p' = Product.inventory p /\
              Product.totalQuantity p' = Product.totalQuantity p.

(** Every SKU that [p] carries is carried by [p'] with the quantity raised by
    [f], and [p'] carries no other SKU. *)
Definition stockRaised (p p' : Product.t) (f : string -> Q) : Prop :=
  forall s : string,
    match Product.stockOf p s with
    | Some q => exists q', Product.stockOf p' s = Some q' /\ q' == q + f s
    | None => Product.stockOf p' s = None
    end.

(** ** Concrete carts, coupons and collections used by the scenarios *)

Module Examples.

Definition shirt : Product.t :=
  {| Product._id := "p-shirt"; Product.price := 20; Product.isActive := true;
     Product.inventory := [Product.mkInventory "SHIRT-M" 10 10];
     Product.totalQuantity := 10; Product.salesCount := 0 |}.

Definition mug : Product.t :=
  {| Product._id := "p-mug"; Product.price := 15; Product.isActive := true;
     Product.inventory := [Product.mkInventory "MUG-1" 4 10];
     Product.totalQuantity := 4; Product.salesCount := 0 |}.

(** Two lines, $20 x 2 and $15 x 1, then a 10% coupon. *)
Definition twoLines : Cart.t :=
  Cart.addItem
    (Cart.addItem (Cart.new "alice" 0) shirt "SHIRT-M" 2 None "i1" 1)
    mug "MUG-1" 1 None "i2" 2.

Definition twoLinesTenPercent : Cart.t :=
  Cart.applyCoupon twoLines (Some "TEN") 10 percentage 3.

Definition pen : Product.t :=
  {| Product._id := "p-pen"; Product.price := 10; Product.isActive := true;
     Product.inventory := [Product.mkInventory "PEN-B" 7 10];
     Product.totalQuantity := 7; Product.salesCount := 0 |}.

(** A flat $20 coupon without a minimum purchase. *)
Definition big20 : Coupon.t :=
  {| Coupon.code := "BIG20"; Coupon.discountType := fixed;
     Coupon.discountValue := 20; Coupon.minimumPurchase := 0;
     Coupon.maximumDiscount := None;
     Coupon.usageLimit := Coupon.mkLimit None None;
     Coupon.usageCount := 0; Coupon.usedBy := [];
     Coupon.applicableProducts := []; Coupon.applicableCategories := [];
     Coupon.startDate := 0; Coupon.endDate := 1000;
     Coupon.isActive := true; Coupon.applyTo := Coupon.all;
     Coupon.updatedAt := 0 |}.

(** Both usage limits are 0; the coupon was used five times, three of them
    by Bob. *)
Definition zeroLimit : Coupon.t :=
  {| Coupon.code := "ZERO"; Coupon.discountType := percentage;
     Coupon.discountValue := 10; Coupon.minimumPurchase := 0;
     Coupon.maximumDiscount := None;
     Coupon.usageLimit := Coupon.mkLimit (Some 0) (Some 0);
     Coupon.usageCount := 5;
     Coupon.usedBy := [Coupon.mkUsage "bob" 3 1; Coupon.mkUsage "carol" 2 2];
     Coupon.applicableProducts := []; Coupon.applicableCategories := [];
     Coupon.startDate := 0; Coupon.endDate := 1000;
     Coupon.isActive := true; Coupon.applyTo := Coupon.all;
     Coupon.updatedAt := 0 |}.

(** Scoped to products, with an empty allow-list. *)
Definition productsNoList : Coupon.t :=
  {| Coupon.code := "NOLIST"; Coupon.discountType := percentage;
     Coupon.discountValue := 10; Coupon.minimumPurchase := 0;
     Coupon.maximumDiscount := None;
     Coupon.usageLimit := Coupon.mkLimit None None;
     Coupon.usageCount := 0; Coupon.usedBy := [];
     Coupon.applicableProducts := []; Coupon.applicableCategories := [];
     Coupon.startDate := 0; Coupon.endDate := 1000;
     Coupon.isActive := true; Coupon.applyTo := Coupon.products;
     Coupon.updatedAt := 0 |}.

(** A flat coupon of an eighth of a dollar. *)
Definition eighth : Coupon.t :=
  {| Coupon.code := "EIGHTH"; Coupon.discountType := fixed;
     Coupon.discountValue := 0.125; Coupon.minimumPurchase := 0;
     Coupon.maximumDiscount := None;
     Coupon.usageLimit := Coupon.mkLimit None None;
     Coupon.usageCount := 0; Coupon.usedBy := [];
     Coupon.applicableProducts := []; Coupon.applicableCategories := [];
     Coupon.startDate := 0; Coupon.endDate := 1000;
     Coupon.isActive := true; Coupon.applyTo := Coupon.all;
     Coupon.updatedAt := 0 |}.

(** The seeded [WELCOME20]: 20% off from $50, at most $100, once per user. *)
Definition welcome20 : Coupon.t :=
  {| Coupon.code := "WELCOME20"; Coupon.discountType := percentage;
     Coupon.discountValue := 20; Coupon.minimumPurchase := 50;
     Coupon.maximumDiscount := Some 100;
     Coupon.usageLimit := Coupon.mkLimit (Some 1000) (Some 1);
     Coupon.usageCount := 0; Coupon.usedBy := [];
     Coupon.applicableProducts := []; Coupon.applicableCategories := [];
     Coupon.startDate := 0; Coupon.endDate := 1000;
     Coupon.isActive := true; Coupon.applyTo := Coupon.all;
     Coupon.updatedAt := 0 |}.

(** Bob holds one pen ($10 x 1). *)
Definition shop : DB :=
  {| carts :=
       {[ "bob" := Cart.addItem (Cart.new "bob" 0) pen "PEN-B" 1 None "i1" 1 ]};
     products := {[ "p-pen" := pen; "p-shirt" := shirt; "p-mug" := mug ]};
     coupons := {[ "BIG20" := big20 ]};
     orders := ∅ |}.

(** Bob's pending order of two shirts and one mug; five shirts and one mug
    were sold so far. *)
Definition bobsOrder : Order.t :=
  {| Order._id := "o1"; Order.user := "bob";
     Order.items := [Order.mkItem "p-shirt" "SHIRT-M" 20 2;
                     Order.mkItem "p-mug" "MUG-1" 15 1];
     Order.status := Order.pending;
     Order.timeline :=
       [TimelineEvent.mk "pending" (text "Order placed successfully") None 10];
     Order.updatedAt := 10 |}.

Definition afterCheckout : DB :=
  {| carts := ∅;
     products :=
       {[ "p-shirt" := Product.set_salesCount 5 shirt;
          "p-mug" := Product.set_salesCount 1 mug ]};
     coupons := ∅;
     orders :=
       {[ "o1" := bobsOrder;
          "o2" := Order.mk "o2" "bob" [] Order.delivered [] 10 ]} |}.

(** Alice holds the two lines and [WELCOME20] is on offer. *)
Definition welcomeShop : DB :=
  {| carts := {[ "alice" := twoLines ]};
     products := {[ "p-shirt" := shirt; "p-mug" := mug ]};
     coupons := {[ "WELCOME20" := welcome20 ]};
     orders := ∅ |}.

End Examples.

(** ** Further methods and handlers

    The functions below complete the models and controllers above.  A save
    that a schema validator would reject makes the handler throw; the
    validators are written out where a handler can itself build a document
    that fails them. *)

Module JSMath.

(** [Math.ceil(x)] *)
Definition Math_ceil (x : Q) : Q := inject_Z (Qceiling x).

End JSMath.

(** *** models/Coupon.js: [getStats] *)

Module CouponStats.

Record t := mk {
  totalUsage : Q;
  uniqueUsers : nat;
  remainingUses : option Q;
  isExpired : bool;
  daysUntilExpiry : Q
}.

(** [1000 * 60 * 60 * 24] *)
Definition msPerDay : Q := 1000 * 60 * 60 * 24.

(** [getStats()]; the method reads the clock twice, [now1] for [isExpired]
    and [now2] for [daysUntilExpiry]. *)
Definition getStats (this : Coupon.t) (now1 now2 : Z) : t :=
  {| totalUsage := Coupon.usageCount this;
     uniqueUsers := length (Coupon.usedBy this);
     remainingUses :=
       match Coupon.total (Coupon.usageLimit this) with
       | Some l =>
           if JS.truthyNumber (Some l)
           then Some (l - Coupon.usageCount this)
           else None
       | None => None
       end;
     isExpired := (now1 >? Coupon.endDate this)%Z;
     daysUntilExpiry :=
       JSMath.Math_ceil (inject_Z (Coupon.endDate this - now2) / msPerDay) |}.

End CouponStats.

(** *** controllers/coupon.controller.js: [validateCoupon] *)

Module CouponController.

(** The data of a successful reply. *)
Record Quote := mkQuote {
  code : string;
  discountType : DiscountType;
  discountValue : Q;
  discount : Q;
  finalTotal : Q
}.

(** [exports.validateCoupon]; [productIds] is [None] when the body leaves it
    out, and [calculateDiscount] then takes its default. *)
Definition validateCoupon (db : DB) (userId : ObjectId) (code0 : string)
    (subtotal : Q) (productIds : option (list ObjectId)) (now : Z)
  : Reply Quote :=
  match coupons db !! JS.toUpperCase code0 with
  | None => fail 404 (text "Invalid coupon code")
  | Some coupon =>
    match Coupon.isValid coupon now with
    | Coupon.Invalid reason => fail 400 reason
    | Coupon.Valid =>
      match Coupon.canUserUse coupon userId with
      | Coupon.CannotUse reason => fail 400 reason
      | Coupon.CanUse =>
        match Coupon.calculateDiscount coupon subtotal (default [] productIds) [] with
        | Coupon.NotApplicable reason => fail 400 reason
        | Coupon.Applicable d f =>
            ok (text "Coupon is valid")
               {| code := Coupon.code coupon;
                  discountType := Coupon.discountType coupon;
                  discountValue := Coupon.discountValue coupon;
                  discount := d;
                  finalTotal := f |}
        end
      end
    end
  end.

End CouponController.

(** *** contexts/CartContext.tsx: the totals of the guest cart *)

Module GuestCart.

(** [calculateCartTotals(cart)] *)
Definition calculateCartTotals (cart : Cart.t) : Cart.t :=
  let subtotal := Cart.sumItems (Cart.items cart) in
  let discount := 0 in
  let tax := subtotal * 0.08 in
  let shipping := if JS.gt subtotal 50 then 0 else 5.99 in
  let total := subtotal - discount + tax + shipping in
  {| Cart.user := Cart.user cart; Cart.items := Cart.items cart;
     Cart.coupon := Cart.coupon cart;
     Cart.subtotal := subtotal; Cart.discount := discount; Cart.tax := tax;
     Cart.shipping := shipping; Cart.total := total;
     Cart.lastUpdated := Cart.lastUpdated cart |}.

End GuestCart.

(** *** controllers/cart.controller.js: [syncCart] *)

Module CartSync.

(** An entry of [req.body.items]; [assignedId] is the [_id] Mongoose gives to
    the sub-document made from the entry. *)
Record Entry := mkEntry {
  productId : ObjectId;
  sku : string;
  quantity : Q;
  variantDetails : option (gmap string string);
  assignedId : ObjectId
}.

(** The validators of [cartItemSchema]: [quantity] at least 1 and [price] at
    least 0. *)
Definition validItem (item : Cart.CartItem) : bool :=
  JS.ge (Cart.quantity item) 1 && JS.ge (Cart.price item) 0.

(** One turn of the loop: the line pushed to [validItems], if any. *)
Definition syncEntry (ps : gmap ObjectId Product.t) (now : Z) (e : Entry)
  : option Cart.CartItem :=
  match ps !! productId e with
  | Some product =>
      if Product.isActive product then
        match Product.findSku (sku e) (Product.inventory product) with
        | Some (_, inventoryItem) =>
            if JS.gt (Product.quantity inventoryItem) 0 then
              Some {| Cart._id := assignedId e;
                      Cart.product := productId e;
                      Cart.sku := sku e;
                      Cart.quantity :=
                        JS.Math_min (quantity e) (Product.quantity inventoryItem);
                      Cart.price := Product.price product;
                      Cart.variantDetails := default ∅ (variantDetails e);
                      Cart.addedAt := now |}
            else None
        | None => None
        end
      else None
  | None => None
  end.

(** [exports.syncCart] *)
Definition syncCart (db : DB) (userId : ObjectId) (entries : list Entry)
    (now : Z) : DB * Reply Cart.t :=
  let cart := default (Cart.new userId now) (carts db !! userId) in
  let validItems := omap (syncEntry (products db) now) entries in
  if forallb validItem validItems then
    let saved := Cart.save (Cart.set_items validItems cart) now in
    (set_carts (<[userId := saved]> (carts db)) db,
     ok (text "Cart synced") saved)
  else (db, Thrown).

End CartSync.

(** *** models/Product.js: [getDiscountPercentage] *)

Module ProductPrice.

(** [getDiscountPercentage()], as a function of the paths [comparePrice] and
    [price] that it reads. *)
Definition getDiscountPercentage (comparePrice price : Q) : Q :=
  if JS.gt comparePrice price
  then JS.Math_round (((comparePrice - price) / comparePrice) * 100)
  else 0.

End ProductPrice.

(** *** models/Order.js: payment, pricing and the remaining methods *)

(** [paymentSchema] *)
Module Payment.

Inductive Method := card | paypal | cod | bank_transfer.

Inductive Status := pending | completed | failed | refunded | partially_refunded.

Definition statusName (s : Status) : string :=
  match s with
  | pending => "pending"
  | completed => "completed"
  | failed => "failed"
  | refunded => "refunded"
  | partially_refunded => "partially_refunded"
  end.

(** The [enum] validator of [payment.status]. *)
Definition parseStatus (s : string) : option Status :=
  if bool_decide (s = "pending"%string) then Some pending
  else if bool_decide (s = "completed"%string) then Some completed
  else if bool_decide (s = "failed"%string) then Some failed
  else if bool_decide (s = "refunded"%string) then Some refunded
  else if bool_decide (s = "partially_refunded"%string) then Some partially_refunded
  else None.

Record t := mk {
  method : Method;
  status : Status;
  transactionId : option string;
  paidAt : option Z;
  refundedAt : option Z;
  refundAmount : Q
}.

End Payment.

(** The [pricing] path of [orderSchema]. *)
Module Pricing.

Record t := mk {
  subtotal : Q;
  discount : Q;
  couponCode : option string;
  tax : Q;
  shipping : Q;
  total : Q
}.

End Pricing.

(** The paths [payment] and [pricing] of an order, which [Order.t] leaves
    out.  An order document is a pair of an [Order.t] and an
    [OrderDetails.t]. *)
Module OrderDetails.

Record t := mk {
  payment : Payment.t;
  pricing : Pricing.t
}.

End OrderDetails.

Module OrderMethods.

(** [updateStatus(status, description, updatedBy)] *)
Definition updateStatus (this : Order.t) (status : Order.Status)
    (description : option string) (by_ : ObjectId) (now : Z) : Order.t :=
  Order.save
    {| Order._id := Order._id this; Order.user := Order.user this;
       Order.items := Order.items this;
       Order.status := status;
       Order.timeline :=
         Order.timeline this ++
           [ {| TimelineEvent.status := Order.statusName status;
                TimelineEvent.description :=
                  match description with
                  | Some d =>
                      if JS.truthyString description then [Str d]
                      else [Str "Order status updated to ";
                            Str (Order.statusName status)]
                  | None => [Str "Order status updated to ";
                             Str (Order.statusName status)]
                  end;
                TimelineEvent.updatedBy := Some by_;
                TimelineEvent.timestamp := now |} ];
       Order.updatedAt := Order.updatedAt this |}
    now.

(** [processRefund(amount, reason)] *)
Definition processRefund (this : Order.t * OrderDetails.t) (amount : Q)
    (reason : string) (now : Z) : Order.t * OrderDetails.t :=
  let (order, details) := this in
  let payment := OrderDetails.payment details in
  let full := JS.ge amount (Pricing.total (OrderDetails.pricing details)) in
  let payment' :=
    {| Payment.method := Payment.method payment;
       Payment.status :=
         if full then Payment.refunded else Payment.partially_refunded;
       Payment.transactionId := Payment.transactionId payment;
       Payment.paidAt := Payment.paidAt payment;
       Payment.refundedAt := Some now;
       Payment.refundAmount := amount |} in
  let order' :=
    Order.save
      {| Order._id := Order._id order; Order.user := Order.user order;
         Order.items := Order.items order;
         Order.status := if full then Order.refunded else Order.status order;
         Order.timeline :=
           Order.timeline order ++
             [ {| TimelineEvent.status := "refunded";
                  TimelineEvent.description :=
                    [Str "Refund processed: $"; Num amount;
                     Str ". Reason: "; Str reason];
                  TimelineEvent.updatedBy := None;
                  TimelineEvent.timestamp := now |} ];
         Order.updatedAt := Order.updatedAt order |}
      now in
  (order', OrderDetails.mk payment' (OrderDetails.pricing details)).

End OrderMethods.

(** The collections with the whole order documents: [orderDetails] holds, by
    [_id], the paths of each order that [orders] leaves out. *)
Record Backend := mkBackend {
  store : DB;
  orderDetails : gmap ObjectId OrderDetails.t
}.

(** [Order.findById(id)] *)
Definition findOrder (b : Backend) (id : ObjectId)
  : option (Order.t * OrderDetails.t) :=
  match orders (store b) !! id, orderDetails b !! id with
  | Some order, Some details => Some (order, details)
  | _, _ => None
  end.

(** The write of [order.save()]. *)
Definition saveOrder (b : Backend) (id : ObjectId)
    (doc : Order.t * OrderDetails.t) : Backend :=
  {| store := set_orders (<[id := fst doc]> (orders (store b))) (store b);
     orderDetails := <[id := snd doc]> (orderDetails b) |}.

(** *** controllers/order.controller.js: the admin routes and [createOrder] *)

Module OrderAdmin.

(** [exports.updateOrderStatus]; the route lets only the seven status names
    through ([validateOrderStatus]). *)
Definition updateOrderStatus (b : Backend) (id : ObjectId)
    (status : Order.Status) (description : option string) (adminId : ObjectId)
    (now : Z) : Backend * Reply (Order.t * OrderDetails.t) :=
  match findOrder b id with
  | None => (b, fail 404 (text "Order not found"))
  | Some (order, details) =>
      let doc :=
        (OrderMethods.updateStatus order status description adminId now, details) in
      (saveOrder b id doc, ok (text "Order status updated") doc)
  end.

(** [exports.processRefund] *)
Definition processRefund (b : Backend) (id : ObjectId) (amount : Q)
    (reason : string) (now : Z) : Backend * Reply (Order.t * OrderDetails.t) :=
  match findOrder b id with
  | None => (b, fail 404 (text "Order not found"))
  | Some (order, details) =>
      if JS.gt amount (Pricing.total (OrderDetails.pricing details))
      then (b, fail 400 (text "Refund amount cannot exceed order total"))
      else
        let doc := OrderMethods.processRefund (order, details) amount reason now in
        (saveOrder b id doc, ok (text "Refund processed successfully") doc)
  end.

(** [exports.updatePaymentStatus]; a status outside the enum fails the
    validator at [save] and the handler throws. *)
Definition updatePaymentStatus (b : Backend) (id : ObjectId) (status : string)
    (transactionId : option string) (now : Z)
  : Backend * Reply (Order.t * OrderDetails.t) :=
  match findOrder b id with
  | None => (b, fail 404 (text "Order not found"))
  | Some (order, details) =>
      match Payment.parseStatus status with
      | None => (b, Thrown)
      | Some status' =>
          let payment := OrderDetails.payment details in
          let payment' :=
            {| Payment.method := Payment.method payment;
               Payment.status := status';
               Payment.transactionId :=
                 if JS.truthyString transactionId then transactionId
                 else Payment.transactionId payment;
               Payment.paidAt :=
                 if bool_decide (status = "completed"%string) then Some now
                 else Payment.paidAt payment;
               Payment.refundedAt := Payment.refundedAt payment;
               Payment.refundAmount := Payment.refundAmount payment |} in
          let doc :=
            (Order.save order now,
             OrderDetails.mk payment' (OrderDetails.pricing details)) in
          (saveOrder b id doc, ok (text "Payment status updated") doc)
      end
  end.

(** The requests of the admin routes modelled here and of the owner's
    cancellation. *)
Inductive Request :=
| UpdateOrderStatus (status : Order.Status) (description : option string)
| ProcessRefund (amount : Q) (reason : string)
| UpdatePaymentStatus (status : string) (transactionId : option string)
| CancelOrder (reason : option string).

(** The collections after request [req] of [actor] on order [id]. *)
Definition handle (req : Request) (actor id : ObjectId) (now : Z) (b : Backend)
  : Backend :=
  match req with
  | UpdateOrderStatus status description =>
      fst (updateOrderStatus b id status description actor now)
  | ProcessRefund amount reason => fst (processRefund b id amount reason now)
  | UpdatePaymentStatus status transactionId =>
      fst (updatePaymentStatus b id status transactionId now)
  | CancelOrder reason =>
      {| store := fst (OrderController.cancelOrder (store b) actor id reason now);
         orderDetails := orderDetails b |}
  end.

End OrderAdmin.

(** [Order.create(doc)] *)
Module NewOrder.

(** The object that [createOrder] passes to [Order.create], on the paths
    modelled here, together with [orderNumber], a path of [orderSchema] that
    the object does not set. *)
Record t := mk {
  orderNumber : option string;
  user : ObjectId;
  items : list Order.OrderItem;
  paymentMethod : string;
  pricing : Pricing.t
}.


(** The validators of [orderSchema] on these paths: [orderNumber] is
    required, so an absent or empty string fails; the [quantity] of an item is
    at least 1 and its [sku] is required; [payment.method] is one of the four
    names.  The validators of the paths left out (the addresses, the name of
    an item) can only reject more documents. *)
Definition validItem (item : Order.OrderItem) : bool :=
  JS.ge (Order.quantity item) 1 && JS.truthyString (Some (Order.sku item)).



End NewOrder.

Module Checkout.


(** [createOrder], the loop under "Update product stock" with the products as
    it leaves them: a product that is gone makes the handler throw after the
    writes of the turns before ([false]). *)
Fixpoint takeStock (ps : gmap ObjectId Product.t) (items : list Cart.CartItem)
  : gmap ObjectId Product.t * bool :=
  match items with
  | [] => (ps, true)
  | item :: rest =>
      match OrderController.updateProductStock ps item with
      | Some ps' => takeStock ps' rest
      | None => (ps, false)
      end
  end.


Section WithNames.

(** [product.name], a path of [productSchema] that [Product.t] leaves out. *)
Variable productName : Product.t -> string.




End WithNames.

End Checkout.

(** What every modelled route keeps of an order document: the timeline only
    grows at its end, by at most one entry, and items, owner and pricing stay. *)
Definition orderExtends (old new : Order.t * OrderDetails.t) : Prop :=
  Order.timeline (fst old) `prefix_of` Order.timeline (fst new) /\
  (length (Order.timeline (fst new)) <= S (length (Order.timeline (fst old))))%nat /\
  Order.items (fst new) = Order.items (fst old) /\
  Order.user (fst new) = Order.user (fst old) /\
  OrderDetails.pricing (snd new) = OrderDetails.pricing (snd old).

(** ** Further concrete collections *)

Module Samples.

Definition desk : Product.t :=
  {| Product._id := "p-desk"; Product.price := 500; Product.isActive := true;
     Product.inventory := [Product.mkInventory "DESK-1" 3 1];
     Product.totalQuantity := 3; Product.salesCount := 0 |}.

(** Dana holds two desks ($500 x 2) and [WELCOME20] is on offer. *)
Definition bulkShop : DB :=
  {| carts :=
       {[ "dana" := Cart.addItem (Cart.new "dana" 0) desk "DESK-1" 2 None "i1" 1 ]};
     products := {[ "p-desk" := desk ]};
     coupons := {[ "WELCOME20" := Examples.welcome20 ]};
     orders := ∅ |}.

(** Bob's delivered order of $40, paid by card; the shirts it took are in
    [Examples.afterCheckout]. *)
Definition paidDetails : OrderDetails.t :=
  {| OrderDetails.payment :=
       {| Payment.method := Payment.card; Payment.status := Payment.completed;
          Payment.transactionId := Some "tx-1"; Payment.paidAt := Some 12%Z;
          Payment.refundedAt := None; Payment.refundAmount := 0 |};
     OrderDetails.pricing :=
       {| Pricing.subtotal := 40; Pricing.discount := 0;
          Pricing.couponCode := None; Pricing.tax := 3.2;
          Pricing.shipping := 5.99; Pricing.total := 49.19 |} |}.

(** Ten percent off, without a cap. *)
Definition tenPercent : Coupon.t :=
  {| Coupon.code := "TEN"; Coupon.discountType := percentage;
     Coupon.discountValue := 10; Coupon.minimumPurchase := 0;
     Coupon.maximumDiscount := None;
     Coupon.usageLimit := Coupon.mkLimit None None;
     Coupon.usageCount := 0; Coupon.usedBy := [];
     Coupon.applicableProducts := []; Coupon.applicableCategories := [];
     Coupon.startDate := 0; Coupon.endDate := 1000;
     Coupon.isActive := true; Coupon.applyTo := Coupon.all;
     Coupon.updatedAt := 0 |}.

(** Ten percent off, with [maximumDiscount] stored as 0. *)
Definition zeroCap : Coupon.t :=
  {| Coupon.code := "ZEROCAP"; Coupon.discountType := percentage;
     Coupon.discountValue := 10; Coupon.minimumPurchase := 0;
     Coupon.maximumDiscount := Some 0;
     Coupon.usageLimit := Coupon.mkLimit None None;
     Coupon.usageCount := 0; Coupon.usedBy := [];
     Coupon.applicableProducts := []; Coupon.applicableCategories := [];
     Coupon.startDate := 0; Coupon.endDate := 1000;
     Coupon.isActive := true; Coupon.applyTo := Coupon.all;
     Coupon.updatedAt := 0 |}.

(** Bob's pending order of two mugs under a SKU that the product has dropped
    since; one mug was sold so far. *)
Definition staleShop : DB :=
  {| carts := ∅;
     products := {[ "p-mug" := Product.set_salesCount 1 Examples.mug ]};
     coupons := ∅;
     orders :=
       {[ "o3" := Order.mk "o3" "bob" [Order.mkItem "p-mug" "MUG-OLD" 15 2]
                    Order.pending
                    [TimelineEvent.mk "pending" (text "Order placed successfully")
                       None 10]
                    10 ]} |}.

(** Erin's cart is empty and the flat $20 coupon is on offer. *)
Definition emptyCartShop : DB :=
  {| carts := {[ "erin" := Cart.save (Cart.new "erin" 0) 0 ]};
     products := {[ "p-pen" := Examples.pen ]};
     coupons := {[ "BIG20" := Examples.big20 ]};
     orders := ∅ |}.

Definition office : Backend :=
  {| store := Examples.afterCheckout;
     orderDetails := {[ "o1" := paidDetails; "o2" := paidDetails ]} |}.

End Samples.

(** ** The pricing arithmetic on binary64 numbers

    The arithmetic of [calculateTotals], [calculateDiscount] and
    [getDiscountPercentage] once more, on the binary64 numbers that a
    JavaScript [Number] is.  A decimal literal denotes the nearest binary64
    number, as it does in JavaScript. *)

Module Binary64.
Import PrimFloat FloatOps SpecFloat.
#[local] Set Warnings "-inexact-float".
Local Open Scope float_scope.

(** The rational that a finite number is; [None] for the infinities and
    [NaN]. *)
Definition value (x : float) : option Q :=
  match Prim2SF x with
  | S754_zero _ => Some 0%Q
  | S754_finite s m e =>
      let n := if s then Z.neg m else Z.pos m in
      Some (if (0 <=? e)%Z then inject_Z (n * 2 ^ e)
            else (inject_Z n / inject_Z (2 ^ (- e)))%Q)
  | _ => None
  end.

Definition isNaN (x : float) : bool := negb (x =? x).

(** Truthiness of a number: [0], [-0] and [NaN] are falsy. *)
Definition truthy (x : float) : bool := negb (x =? 0) && negb (isNaN x).

(** [Math.min(a, b)]; of the two zeros the negative one is the smaller. *)
Definition Math_min (a b : float) : float :=
  if isNaN a || isNaN b then nan
  else if a <? b then a
  else if b <? a then b
  else if 1 / b <? 1 / a then b else a.

(** [Math.round(x)]: the integer nearest to [x], ties towards plus infinity,
    computed on the exact value of [x].  A number with a non-negative binary
    exponent is an integer already; the zeros, the infinities and [NaN] are
    returned as they are. *)
Definition Math_round (x : float) : float :=
  match Prim2SF x with
  | S754_finite s m e =>
      if (0 <=? e)%Z then x
      else
        let n := if s then Z.neg m else Z.pos m in
        let r := ((2 * n + 2 ^ (- e)) / 2 ^ (- e + 1))%Z in
        let a := of_uint63 (Uint63.of_Z (Z.abs r)) in
        if s then - a else a
  | _ => x
  end.

(** The computed fields of [cartSchema]. *)
Record Totals := mkTotals {
  subtotal : float;
  discount : float;
  tax : float;
  shipping : float;
  total : float
}.

(** [calculateTotals()] of models/Cart.js on the pairs of price and quantity
    of the items; [coupon] holds the discount type and the discount of
    [this.coupon] when its code is set. *)
Definition calculateTotals (items : list (float * float))
    (coupon : option (DiscountType * float)) : Totals :=
  let subtotal := fold_left (fun sum item => sum + fst item * snd item) items 0 in
  let discount :=
    match coupon with
    | Some (percentage, d) => (subtotal * d) / 100
    | Some (fixed, d) => d
    | None => 0
    end in
  let tax := (subtotal - discount) * 0.08 in
  let shipping := if 50 <? subtotal then 0 else 5.99 in
  let total := subtotal - discount + tax + shipping in
  {| subtotal := subtotal; discount := discount; tax := tax;
     shipping := shipping; total := total |}.

(** [calculateDiscount(subtotal)] of models/Coupon.js after its checks: the
    pair of [discount] and [finalTotal]. *)
Definition calculateDiscount (discountType : DiscountType)
    (discountValue : float) (maximumDiscount : option float) (subtotal : float)
  : float * float :=
  let discount :=
    match discountType with
    | percentage =>
        let discount := (subtotal * discountValue) / 100 in
        match maximumDiscount with
        | Some m => if truthy m then Math_min discount m else discount
        | None => discount
        end
    | fixed => discountValue
    end in
  (Math_round (discount * 100) / 100, subtotal - discount).

(** [getDiscountPercentage()] of models/Product.js *)
Definition getDiscountPercentage (comparePrice price : float) : float :=
  if price <? comparePrice
  then Math_round (((comparePrice - price) / comparePrice) * 100)
  else 0.

(** Three items at 8.71 under a coupon of 100 percent. *)
Definition fullCoupon : Totals :=
  calculateTotals [(8.71, 3)] (Some (percentage, 100)).

(** Ten percent, without a cap, of a subtotal of 10.05. *)
Definition tenPercentOf1005 : float * float :=
  calculateDiscount percentage 10 None 10.05.

(** A price of 5.45 marked down from 10. *)
Definition markdownTo545 : float := getDiscountPercentage 10 5.45.

End Binary64.

(** * Properties *)

(** ** Sums written as [reduce] *)

Lemma fold_left_Qplus_shift {A : Type} (f : A -> Q) (l : list A) (a : Q) :
  fold_left (fun sum x => sum + f x) l a
  == a + fold_left (fun sum x => sum + f x) l 0.
Proof.
  revert a. induction l as [|x l IH]; intros a; simpl.
  - ring.
  - rewrite IH. rewrite (IH (0 + f x)). ring.
Qed.

Lemma fold_left_Qplus_nonneg {A : Type} (f : A -> Q) (l : list A) (a : Q) :
  0 <= a -> Forall (fun x => 0 <= f x) l ->
  0 <= fold_left (fun sum x => sum + f x) l a.
Proof.
  revert a. induction l as [|x l IH]; intros a Ha Hl; simpl.
  - exact Ha.
  - inversion Hl as [|? ? Hx Hl']; subst. apply IH; [lra | exact Hl'].
Qed.

(** ** The cart totals *)

Lemma calculateTotals_items (c : Cart.t) :
  Cart.items (Cart.calculateTotals c) = Cart.items c.
Proof. reflexivity. Qed.

Lemma calculateTotals_coupon (c : Cart.t) :
  Cart.coupon (Cart.calculateTotals c) = Cart.coupon c.
Proof. reflexivity. Qed.

Lemma calculateTotals_consistent (c : Cart.t) :
  Cart.totalsConsistent (Cart.calculateTotals c).
Proof. split; reflexivity. Qed.

Lemma calculateTotals_idempotent (c : Cart.t) :
  Cart.calculateTotals (Cart.calculateTotals c) = Cart.calculateTotals c.
Proof. reflexivity. Qed.






(** C3 as stated fails: the subtotal 55 is over the free-shipping threshold
    50, so shipping is 0 and not 5.99, and the total is not 59.45. *)
Lemma scenario_two_lines_claimed_totals_fail :
  ~ (Cart.subtotal Examples.twoLinesTenPercent == 55 /\
     Cart.discount Examples.twoLinesTenPercent == 5.5 /\
     Cart.tax Examples.twoLinesTenPercent == 3.96 /\
     Cart.shipping Examples.twoLinesTenPercent == 5.99 /\
     Cart.total Examples.twoLinesTenPercent == 59.45).
Proof.
  intros (_ & _ & _ & Hship & _). vm_compute in Hship. discriminate Hship.
Qed.

(** C3, amended: for the cart with the lines $20 x 2 and $15 x 1 and a 10%
    coupon, [calculateTotals] stores subtotal 55, discount 5.50, tax
    (55 - 5.5) x 0.08 = 3.96, shipping 0 (55 > 50) and total 53.46. *)
Theorem scenario_two_lines_ten_percent :
  map (fun item => (Cart.price item, Cart.quantity item))
      (Cart.items Examples.twoLinesTenPercent) = [(20, 2); (15, 1)] /\
  Cart.coupon Examples.twoLinesTenPercent
  = CartCoupon.mk (Some "TEN"%string) 10 percentage /\
  Cart.calculateTotals Examples.twoLinesTenPercent = Examples.twoLinesTenPercent /\
  Cart.subtotal Examples.twoLinesTenPercent == 55 /\
  Cart.discount Examples.twoLinesTenPercent == 5.5 /\
  Cart.tax Examples.twoLinesTenPercent == (55 - 5.5) * 0.08 /\
  Cart.tax Examples.twoLinesTenPercent == 3.96 /\
  Cart.shipping Examples.twoLinesTenPercent == 0 /\
  Cart.total Examples.twoLinesTenPercent == 55 - 5.5 + 3.96 + 0 /\
  Cart.total Examples.twoLinesTenPercent == 53.46.
Proof.
  repeat split; vm_compute; reflexivity.
Qed.

(** ** The empty cart *)

Lemma sumItems_nil : Cart.sumItems [] = 0.
Proof. reflexivity. Qed.

Lemma empty_cart_totals (c : Cart.t) :
  Cart.items c = [] ->
  JS.truthyString (CartCoupon.code (Cart.coupon c)) = false ->
  let c' := Cart.calculateTotals c in
  Cart.subtotal c' == 0 /\ Cart.discount c' == 0 /\ Cart.tax c' == 0 /\
  Cart.shipping c' == 5.99 /\ Cart.total c' == 5.99.
Proof.
  intros Hi Hc. unfold Cart.calculateTotals; simpl. rewrite Hi, Hc.
  rewrite sumItems_nil. repeat split; vm_compute; reflexivity.
Qed.

(** C9: after [clearCart] (the model method and the handler store the same
    document), and for any cart without items and without a coupon code, the
    recomputed fields are subtotal 0, discount 0, tax 0, shipping 5.99 and
    total 5.99; the total is the flat shipping fee and not 0. *)
Theorem cleared_cart_totals :
  (forall (c : Cart.t) (now : Z),
      let c' := Cart.clearCart c now in
      Cart.items c' = [] /\ Cart.coupon c' = Cart.noCoupon /\
      Cart.subtotal c' == 0 /\ Cart.discount c' == 0 /\ Cart.tax c' == 0 /\
      Cart.shipping c' == 5.99 /\ Cart.total c' == 5.99 /\
      ~ Cart.total c' == 0) /\
  (forall (db : DB) (u : ObjectId) (c : Cart.t) (now : Z),
      carts db !! u = Some c ->
      carts (fst (CartController.clearCart db u now)) !! u
      = Some (Cart.clearCart c now)) /\
  (forall c : Cart.t,
      Cart.items c = [] ->
      JS.truthyString (CartCoupon.code (Cart.coupon c)) = false ->
      let c' := Cart.calculateTotals c in
      Cart.subtotal c' == 0 /\ Cart.discount c' == 0 /\ Cart.tax c' == 0 /\
      Cart.shipping c' == 5.99 /\ Cart.total c' == 5.99 /\
      ~ Cart.total c' == 0).
Proof.
  split; [|split].
  - intros c now. cbv zeta.
    repeat split; try reflexivity; try (vm_compute; reflexivity).
    vm_compute. discriminate.
  - intros db u c now H. unfold CartController.clearCart. rewrite H. simpl.
    rewrite lookup_insert_eq. reflexivity.
  - intros c Hi Hc. cbv zeta.
    destruct (empty_cart_totals c Hi Hc) as (Hs & Hd & Ht & Hsh & Htot).
    repeat split; try assumption.
    intros H0. rewrite Htot in H0. vm_compute in H0. discriminate H0.
Qed.

Lemma cleared_cart_totals_witness :
  Cart.items (Cart.new "alice" 0) = [] /\
  Cart.total (Cart.calculateTotals (Cart.new "alice" 0)) == 5.99.
Proof.
  split; [reflexivity|].
  exact (proj1 (proj2 (proj2 (proj2 (proj2
    (proj2 (proj2 cleared_cart_totals) (Cart.new "alice" 0)
       eq_refl eq_refl)))))).
Defined.

(** ** The sign of the tax *)




(** On binary64 numbers a percentage coupon is no safer: for three items at
    8.71 the subtotal is 26.130000000000003, the discount of a coupon of 100
    percent is 26.130000000000006, and the tax is negative. *)
Example binary64_full_coupon_gives_negative_tax :
  PrimFloat.ltb (Binary64.subtotal Binary64.fullCoupon)
    (Binary64.discount Binary64.fullCoupon) = true /\
  PrimFloat.ltb (Binary64.tax Binary64.fullCoupon) PrimFloat.zero = true /\
  exists q, Binary64.value (Binary64.tax Binary64.fullCoupon) = Some q /\ q < 0.
Proof.
  split; [vm_compute; reflexivity|]. split; [vm_compute; reflexivity|].
  eexists. split; [vm_compute; reflexivity|]. vm_compute. reflexivity.
Qed.

(** ** Comparisons and rounding *)

Lemma JS_lt_true (x y : Q) : JS.lt x y = true <-> x < y.
Proof.
  unfold JS.lt. rewrite negb_true_iff. split.
  - intros H. apply Qnot_le_lt. intros Hle.
    apply Qle_bool_iff in Hle. congruence.
  - intros H. destruct (Qle_bool y x) eqn:E; [|reflexivity].
    apply Qle_bool_iff in E. exfalso. exact (Qlt_not_le _ _ H E).
Qed.

Lemma JS_lt_false (x y : Q) : JS.lt x y = false <-> y <= x.
Proof.
  unfold JS.lt. rewrite negb_false_iff. apply Qle_bool_iff.
Qed.

Lemma JS_ge_true (x y : Q) : JS.ge x y = true <-> y <= x.
Proof. unfold JS.ge. apply Qle_bool_iff. Qed.

Lemma JS_gt_true (x y : Q) : JS.gt x y = true <-> y < x.
Proof.
  unfold JS.gt. rewrite negb_true_iff. split.
  - intros H. apply Qnot_le_lt. intros Hle. apply Qle_bool_iff in Hle. congruence.
  - intros H. destruct (Qle_bool x y) eqn:E; [|reflexivity].
    apply Qle_bool_iff in E. exfalso. exact (Qlt_not_le _ _ H E).
Qed.

Lemma truthyNumber_zero (q : Q) : q == 0 -> JS.truthyNumber (Some q) = false.
Proof.
  intros H. unfold JS.truthyNumber. apply negb_false_iff.
  apply Qeq_bool_iff. exact H.
Qed.

Lemma truthyNumber_nonzero (q : Q) :
  ~ q == 0 -> JS.truthyNumber (Some q) = true.
Proof.
  intros H. unfold JS.truthyNumber. apply negb_true_iff.
  destruct (Qeq_bool q 0) eqn:E; [|reflexivity].
  apply Qeq_bool_iff in E. contradiction.
Qed.

Lemma Math_max_lower (a b : Q) : a <= JS.Math_max a b.
Proof.
  unfold JS.Math_max. destruct (Qle_bool a b) eqn:E.
  - apply Qle_bool_iff. exact E.
  - apply Qle_refl.
Qed.

Lemma Math_min_spec (a b : Q) :
  JS.Math_min a b <= a /\ JS.Math_min a b <= b /\
  (JS.Math_min a b = a \/ JS.Math_min a b = b).
Proof.
  unfold JS.Math_min. destruct (Qle_bool a b) eqn:E.
  - apply Qle_bool_iff in E. repeat split; [apply Qle_refl | exact E | left; reflexivity].
  - assert (b < a).
    { apply Qnot_le_lt. intros H. apply Qle_bool_iff in H. congruence. }
    repeat split; [apply Qlt_le_weak; assumption | apply Qle_refl | right; reflexivity].
Qed.

(** Rounding to cents moves a value by at most half a cent. *)
Lemma round_to_cents_bounds (x : Q) :
  let r := JS.Math_round (x * 100) / 100 in
  x - (1 # 200) < r /\ r <= x + (1 # 200).
Proof.
  cbv zeta. unfold JS.Math_round.
  pose proof (Qfloor_le (x * 100 + (1 # 2))) as Hle.
  pose proof (Qlt_floor (x * 100 + (1 # 2))) as Hlt.
  rewrite inject_Z_plus in Hlt. change (inject_Z 1) with 1 in Hlt.
  set (k := inject_Z (Qfloor (x * 100 + (1 # 2)))) in *.
  split.
  - apply Qlt_shift_div_l; [reflexivity | lra].
  - apply Qle_shift_div_r; [reflexivity | lra].
Qed.

(** ** Usage limits *)

(** C10: a total usage limit of 0 is skipped by [isValid], whatever the usage
    count, and a per-user limit of 0 is skipped by [canUserUse]; the schema
    validators accept 0 for both fields.  A non-zero limit that the count has
    reached does invalidate the coupon. *)
Theorem zero_usage_limit_means_unlimited :
  (forall (c : Coupon.t) (now : Z) (l : Q),
      Coupon.total (Coupon.usageLimit c) = Some l -> l == 0 ->
      Coupon.isActive c = true ->
      (Coupon.startDate c <= now <= Coupon.endDate c)%Z ->
      Coupon.isValid c now = Coupon.Valid) /\
  (forall (c : Coupon.t) (userId : ObjectId) (l : Q),
      Coupon.perUser (Coupon.usageLimit c) = Some l -> l == 0 ->
      Coupon.canUserUse c userId = Coupon.CanUse) /\
  Coupon.validateUsageLimit (Coupon.mkLimit (Some 0) (Some 0)) = true /\
  (forall (c : Coupon.t) (now : Z) (l : Q),
      Coupon.total (Coupon.usageLimit c) = Some l -> ~ l == 0 ->
      l <= Coupon.usageCount c ->
      Coupon.isActive c = true ->
      (Coupon.startDate c <= now <= Coupon.endDate c)%Z ->
      Coupon.isValid c now = Coupon.Invalid (text "Usage limit reached")).
Proof.
  split; [|split; [|split]].
  - intros c now l Hl H0 Hact [Hs He]. unfold Coupon.isValid.
    rewrite Hact; simpl.
    assert (E1 : (now <? Coupon.startDate c)%Z = false) by (apply Z.ltb_ge; lia).
    assert (E2 : (now >? Coupon.endDate c)%Z = false).
    { rewrite Z.gtb_ltb. apply Z.ltb_ge. lia. }
    rewrite E1, E2. unfold Coupon.limitReached. rewrite Hl.
    rewrite (truthyNumber_zero l H0). reflexivity.
  - intros c userId l Hl H0. unfold Coupon.canUserUse. rewrite Hl.
    rewrite (truthyNumber_zero l H0). reflexivity.
  - reflexivity.
  - intros c now l Hl Hnz Hreach Hact [Hs He]. unfold Coupon.isValid.
    rewrite Hact; simpl.
    assert (E1 : (now <? Coupon.startDate c)%Z = false) by (apply Z.ltb_ge; lia).
    assert (E2 : (now >? Coupon.endDate c)%Z = false).
    { rewrite Z.gtb_ltb. apply Z.ltb_ge. lia. }
    rewrite E1, E2. unfold Coupon.limitReached. rewrite Hl.
    rewrite (truthyNumber_nonzero l Hnz).
    assert (E3 : JS.ge (Coupon.usageCount c) l = true) by (apply JS_ge_true; exact Hreach).
    rewrite E3. reflexivity.
Qed.

Lemma zero_usage_limit_means_unlimited_witness :
  Coupon.isValid Examples.zeroLimit 10 = Coupon.Valid /\
  Coupon.canUserUse Examples.zeroLimit "bob" = Coupon.CanUse.
Proof.
  split.
  - refine (proj1 zero_usage_limit_means_unlimited Examples.zeroLimit 10%Z 0
              eq_refl _ eq_refl _).
    + reflexivity.
    + simpl; lia.
  - refine (proj1 (proj2 zero_usage_limit_means_unlimited) Examples.zeroLimit
              "bob"%string 0 eq_refl _).
    reflexivity.
Defined.

(** ** Writing to the element that [find] returned *)

Section KeyedFind.
Context {A K : Type} `{EqDecision K} (key : A -> K).

(** The written element keeps its key: the same index is found again. *)
Lemma find_insert_same (l : list A) (k : K) (i : nat) (x y : A) :
  list_find (fun z => key z = k) l = Some (i, x) ->
  key y = k ->
  list_find (fun z => key z = k) (<[i := y]> l) = Some (i, y).
Proof.
  intros Hf Hy. apply list_find_Some in Hf as (Hi & Hx & Hbefore).
  apply list_find_Some. split; [|split].
  - apply list_lookup_insert_eq. eapply lookup_lt_Some; exact Hi.
  - exact Hy.
  - intros j z Hj Hlt. rewrite list_lookup_insert_ne in Hj by lia.
    eapply Hbefore; eassumption.
Qed.

(** A search for another key does not see the write. *)
Lemma find_insert_other (l : list A) (k : K) (i : nat) (x y : A) :
  l !! i = Some x -> key x <> k -> key y <> k ->
  list_find (fun z => key z = k) (<[i := y]> l)
  = list_find (fun z => key z = k) l.
Proof.
  revert i. induction l as [|a l IH]; intros i Hi Hx Hy; [reflexivity|].
  destruct i as [|i]; simpl in *.
  - injection Hi as ->.
    destruct (decide (key y = k)); [contradiction|].
    destruct (decide (key x = k)); [contradiction|]. reflexivity.
  - destruct (decide (key a = k)); [reflexivity|].
    rewrite (IH i Hi Hx Hy). reflexivity.
Qed.

(** A search for another key does not see an element appended for [k]. *)
Lemma find_app_other (l : list A) (k : K) (y : A) :
  key y <> k ->
  list_find (fun z => key z = k) (l ++ [y])
  = list_find (fun z => key z = k) l.
Proof.
  intros Hy. induction l as [|a l IH]; simpl.
  - destruct (decide (key y = k)); [contradiction|reflexivity].
  - destruct (decide (key a = k)); [reflexivity|]. rewrite IH. reflexivity.
Qed.

(** An element appended for a key that was absent is the one found. *)
Lemma find_app_new (l : list A) (k : K) (y : A) :
  list_find (fun z => key z = k) l = None ->
  key y = k ->
  list_find (fun z => key z = k) (l ++ [y]) = Some (length l, y).
Proof.
  intros Hn Hy. induction l as [|a l IH]; simpl in *.
  - destruct (decide (key y = k)); [reflexivity|contradiction].
  - destruct (decide (key a = k)); [discriminate|].
    destruct (list_find _ l); [discriminate|].
    rewrite IH by reflexivity. reflexivity.
Qed.

End KeyedFind.

(** ** Coupon usage *)

Lemma sumCounts_app (l1 l2 : list Coupon.Usage) :
  Coupon.sumCounts (l1 ++ l2) == Coupon.sumCounts l1 + Coupon.sumCounts l2.
Proof.
  induction l1 as [|u l1 IH]; simpl.
  - ring.
  - rewrite IH. ring.
Qed.

Lemma sumCounts_insert (l : list Coupon.Usage) (i : nat) (e y : Coupon.Usage) :
  l !! i = Some e ->
  Coupon.sumCounts (<[i := y]> l)
  == Coupon.sumCounts l - Coupon.count e + Coupon.count y.
Proof.
  revert i. induction l as [|a l IH]; intros i Hi; [discriminate|].
  destruct i as [|i]; simpl in *.
  - injection Hi as ->. ring.
  - rewrite (IH i Hi). ring.
Qed.

(** C7: [recordUsage] raises [usageCount] by 1 and upserts the entry of the
    user: the count of an existing entry rises by 1 and no entry is added,
    a user without an entry gets one with count 1 at the end, and the entries
    of the other users keep their counts.  So when [usageCount] was the sum of
    the per-user counts it still is. *)
Theorem recordUsage_preserves_usage_sum (c : Coupon.t) (userId : ObjectId)
    (now : Z) :
  Coupon.usageConsistent c ->
  let c' := Coupon.recordUsage c userId now in
  Coupon.usageCount c' = Coupon.usageCount c + 1 /\
  Coupon.countOf userId (Coupon.usedBy c')
  = Coupon.countOf userId (Coupon.usedBy c) + 1 /\
  (is_Some (Coupon.findUsage userId (Coupon.usedBy c)) ->
   length (Coupon.usedBy c') = length (Coupon.usedBy c)) /\
  (Coupon.findUsage userId (Coupon.usedBy c) = None ->
   Coupon.usedBy c' = Coupon.usedBy c ++ [Coupon.mkUsage userId 1 now]) /\
  (forall other : ObjectId,
      other <> userId ->
      Coupon.countOf other (Coupon.usedBy c')
      = Coupon.countOf other (Coupon.usedBy c)) /\
  Coupon.sumCounts (Coupon.usedBy c') == Coupon.sumCounts (Coupon.usedBy c) + 1 /\
  Coupon.usageConsistent c'.
Proof.
  intros Hinv. cbv zeta.
  unfold Coupon.usageConsistent, Coupon.recordUsage, Coupon.countOf,
    Coupon.findUsage in *; simpl.
  destruct (list_find (fun u => Coupon.user u = userId) (Coupon.usedBy c))
    as [[i e]|] eqn:Hf.
  - pose proof Hf as Hf'. apply list_find_Some in Hf' as (Hi & He & _).
    assert (Hsum : Coupon.sumCounts
                     (<[i := Coupon.set_count (Coupon.count e + 1) now e]>
                        (Coupon.usedBy c))
                   == Coupon.sumCounts (Coupon.usedBy c) + 1).
    { rewrite (sumCounts_insert _ i e _ Hi). simpl. ring. }
    split; [reflexivity|]. split.
    { rewrite (find_insert_same Coupon.user _ userId i e
                 (Coupon.set_count (Coupon.count e + 1) now e) Hf He).
      reflexivity. }
    split; [intros _; apply length_insert|].
    split; [discriminate|].
    split.
    { intros other Hne.
      rewrite (find_insert_other Coupon.user _ other i e _ Hi); [reflexivity| |];
        simpl; congruence. }
    split; [exact Hsum|]. rewrite Hsum, Hinv. reflexivity.
  - assert (Hsum : Coupon.sumCounts
                     (Coupon.usedBy c ++ [Coupon.mkUsage userId 1 now])
                   == Coupon.sumCounts (Coupon.usedBy c) + 1).
    { rewrite sumCounts_app. simpl. ring. }
    split; [reflexivity|]. split.
    { rewrite (find_app_new Coupon.user _ userId
                 (Coupon.mkUsage userId 1 now) Hf eq_refl).
      reflexivity. }
    split; [intros [? ?]; discriminate|].
    split; [reflexivity|].
    split.
    { intros other Hne.
      rewrite (find_app_other Coupon.user _ other); [reflexivity|].
      simpl; congruence. }
    split; [exact Hsum|]. rewrite Hsum, Hinv. reflexivity.
Qed.

Lemma recordUsage_preserves_usage_sum_witness :
  Coupon.usageConsistent Examples.big20 /\
  Coupon.usageConsistent
    (Coupon.recordUsage (Coupon.recordUsage Examples.big20 "bob" 7) "bob" 8).
Proof.
  assert (H0 : Coupon.usageConsistent Examples.big20) by reflexivity.
  split; [exact H0|].
  apply (recordUsage_preserves_usage_sum
           (Coupon.recordUsage Examples.big20 "bob" 7) "bob" 8%Z).
  apply (recordUsage_preserves_usage_sum Examples.big20 "bob" 7%Z H0).
Defined.

(** ** The discount of a coupon *)

Lemma someApplicable_true (ids allowed : list ObjectId) :
  Coupon.someApplicable ids allowed = true <->
  exists id, In id ids /\ In id allowed.
Proof.
  unfold Coupon.someApplicable. rewrite existsb_exists. split.
  - intros (id & Hid & H). apply existsb_exists in H as (a & Ha & Heq).
    apply bool_decide_eq_true in Heq. subst a. eauto.
  - intros (id & Hid & Ha). exists id. split; [exact Hid|].
    apply existsb_exists. exists id. split; [exact Ha|].
    apply bool_decide_eq_true. reflexivity.
Qed.

(** The scope test of [calculateDiscount]: the coupon is restricted to a
    non-empty allow-list and none of the given references is on it. *)
Lemma scope_excludes (scope wanted : Coupon.ApplyTo) (ids allowed : list ObjectId) :
  bool_decide (scope = wanted) && (0 <? length allowed)%nat
    && negb (Coupon.someApplicable ids allowed) = true
  <-> scope = wanted /\ allowed <> [] /\
      forall id, In id ids -> ~ In id allowed.
Proof.
  rewrite !andb_true_iff, bool_decide_eq_true, Nat.ltb_lt, negb_true_iff.
  split.
  - intros [[Hs Hlen] Hnone]. split; [exact Hs|]. split.
    + intros ->. simpl in Hlen. lia.
    + intros id Hid Ha.
      assert (Coupon.someApplicable ids allowed = true)
        by (apply someApplicable_true; eauto).
      congruence.
  - intros (Hs & Hne & Hnone). split; [split; [exact Hs|]|].
    + destruct allowed; [contradiction | simpl; lia].
    + destruct (Coupon.someApplicable ids allowed) eqn:E; [|reflexivity].
      apply someApplicable_true in E as (id & Hid & Ha).
      exfalso. exact (Hnone id Hid Ha).
Qed.

(** C5 as stated fails in three ways.  A coupon scoped to products whose
    allow-list is empty is applicable although no given product is on the
    list; the discount returned is rounded to cents, so a flat coupon of 0.125
    returns 0.13; and a [maximumDiscount] that is set to 0 caps nothing, so
    ten percent of 100 returns 10 and not 0. *)
Lemma calculateDiscount_claimed_cases_fail :
  (Coupon.applyTo Examples.productsNoList = Coupon.products /\
   (forall id, In id ["p-pen"%string] ->
               ~ In id (Coupon.applicableProducts Examples.productsNoList)) /\
   exists discount finalTotal,
     Coupon.calculateDiscount Examples.productsNoList 100 ["p-pen"%string] []
     = Coupon.Applicable discount finalTotal /\ discount == 10) /\
  (Coupon.discountType Examples.eighth = fixed /\
   Coupon.discountValue Examples.eighth == 0.125 /\
   exists discount finalTotal,
     Coupon.calculateDiscount Examples.eighth 100 [] []
     = Coupon.Applicable discount finalTotal /\
     discount == 0.13 /\ ~ discount == Coupon.discountValue Examples.eighth) /\
  (Coupon.discountType Samples.zeroCap = percentage /\
   Coupon.maximumDiscount Samples.zeroCap = Some 0 /\
   exists discount finalTotal,
     Coupon.calculateDiscount Samples.zeroCap 100 [] []
     = Coupon.Applicable discount finalTotal /\
     discount == 10 /\ ~ discount <= 0).
Proof.
  split; [|split].
  - split; [reflexivity|]. split; [intros id _ []|].
    eexists _, _. split; [vm_compute; reflexivity|]. reflexivity.
  - split; [reflexivity|]. split; [reflexivity|].
    eexists _, _. split; [vm_compute; reflexivity|].
    split; [reflexivity|]. vm_compute. discriminate.
  - split; [reflexivity|]. split; [reflexivity|].
    eexists _, _. split; [vm_compute; reflexivity|].
    split; [reflexivity|]. vm_compute. intros H. apply H. reflexivity.
Qed.

(** C5, amended: [calculateDiscount] is not applicable when the scope is
    [products], the allow-list is non-empty and no given product is on it
    (symmetrically for [categories]), and not applicable when the subtotal is
    under the minimum purchase.  Otherwise it is applicable; the discount it
    returns is a whole number of cents at most half a cent away from the raw
    discount, and the final total is the subtotal minus the raw discount.
    The raw discount is subtotal x discountValue / 100 for a percentage
    coupon, capped at [maximumDiscount] when that is set and not 0, and
    [discountValue] for a fixed coupon.  Which of two neighbouring cents is
    returned when the raw discount lies half-way between them is left open:
    the code rounds the floating-point product of the raw discount and 100. *)
Theorem calculateDiscount_cases (c : Coupon.t) (subtotal : Q)
    (productIds categoryIds : list ObjectId) :
  let noProduct :=
    Coupon.applyTo c = Coupon.products /\ Coupon.applicableProducts c <> [] /\
    forall id, In id productIds -> ~ In id (Coupon.applicableProducts c) in
  let noCategory :=
    Coupon.applyTo c = Coupon.categories /\ Coupon.applicableCategories c <> [] /\
    forall id, In id categoryIds -> ~ In id (Coupon.applicableCategories c) in
  let percent := subtotal * Coupon.discountValue c / 100 in
  (noProduct ->
   Coupon.calculateDiscount c subtotal productIds categoryIds
   = Coupon.NotApplicable (text "Coupon not applicable to these products")) /\
  (noCategory ->
   Coupon.calculateDiscount c subtotal productIds categoryIds
   = Coupon.NotApplicable (text "Coupon not applicable to these categories")) /\
  (subtotal < Coupon.minimumPurchase c ->
   exists reason,
     Coupon.calculateDiscount c subtotal productIds categoryIds
     = Coupon.NotApplicable reason) /\
  (~ noProduct -> ~ noCategory -> Coupon.minimumPurchase c <= subtotal ->
   exists raw discount,
     Coupon.calculateDiscount c subtotal productIds categoryIds
     = Coupon.Applicable discount (subtotal - raw) /\
     (exists cents : Z, discount * 100 == inject_Z cents) /\
     raw - (1 # 200) <= discount <= raw + (1 # 200) /\
     match Coupon.discountType c, Coupon.maximumDiscount c with
     | fixed, _ => raw = Coupon.discountValue c
     | percentage, None => raw = percent
     | percentage, Some m =>
         (m == 0 -> raw = percent) /\
         (~ m == 0 ->
          raw <= percent /\ raw <= m /\ (raw = percent \/ raw = m))
     end).
Proof.
  cbv zeta. unfold Coupon.calculateDiscount.
  pose proof (scope_excludes (Coupon.applyTo c) Coupon.products productIds
                (Coupon.applicableProducts c)) as HP.
  pose proof (scope_excludes (Coupon.applyTo c) Coupon.categories categoryIds
                (Coupon.applicableCategories c)) as HC.
  destruct (bool_decide (Coupon.applyTo c = Coupon.products)
            && (0 <? length (Coupon.applicableProducts c))%nat
            && negb (Coupon.someApplicable productIds (Coupon.applicableProducts c)))
    eqn:EP.
  { assert (HPt := proj1 HP eq_refl).
    split; [reflexivity|]. split.
    - intros (Hcat & _). destruct HPt as (Hprod & _). congruence.
    - split; [eauto|]. intros Hno. contradiction. }
  assert (HnP : ~ (Coupon.applyTo c = Coupon.products /\
                   Coupon.applicableProducts c <> [] /\
                   forall id, In id productIds ->
                              ~ In id (Coupon.applicableProducts c))).
  { intros H. apply HP in H. discriminate. }
  split; [intros H; contradiction|].
  destruct (bool_decide (Coupon.applyTo c = Coupon.categories)
            && (0 <? length (Coupon.applicableCategories c))%nat
            && negb (Coupon.someApplicable categoryIds
                       (Coupon.applicableCategories c)))
    eqn:EC.
  { assert (HCt := proj1 HC eq_refl).
    split; [reflexivity|]. split; [eauto|]. intros _ Hno. contradiction. }
  assert (HnC : ~ (Coupon.applyTo c = Coupon.categories /\
                   Coupon.applicableCategories c <> [] /\
                   forall id, In id categoryIds ->
                              ~ In id (Coupon.applicableCategories c))).
  { intros H. apply HC in H. discriminate. }
  split; [intros H; contradiction|].
  destruct (JS.lt subtotal (Coupon.minimumPurchase c)) eqn:EM.
  { split; [eauto|]. intros _ _ Hmin. apply JS_lt_true in EM.
    exfalso. exact (Qlt_not_le _ _ EM Hmin). }
  split.
  { intros Hlt. apply JS_lt_true in Hlt. congruence. }
  intros _ _ _. exists (Coupon.rawDiscount c subtotal).
  eexists. split; [reflexivity|]. split.
  { exists (Qfloor (Coupon.rawDiscount c subtotal * 100 + (1 # 2))).
    unfold JS.Math_round. field. }
  split.
  { pose proof (round_to_cents_bounds (Coupon.rawDiscount c subtotal)) as [Hlo Hhi].
    split; [apply Qlt_le_weak; exact Hlo | exact Hhi]. }
  unfold Coupon.rawDiscount.
  destruct (Coupon.discountType c); [|reflexivity].
  destruct (Coupon.maximumDiscount c) as [m|]; [|reflexivity].
  split.
  - intros H0. rewrite (truthyNumber_zero m H0). reflexivity.
  - intros Hnz. rewrite (truthyNumber_nonzero m Hnz).
    apply Math_min_spec.
Qed.

Lemma calculateDiscount_cases_witness :
  exists raw discount,
    Coupon.calculateDiscount Examples.welcome20 1000 [] []
    = Coupon.Applicable discount (1000 - raw) /\
    raw == 100 /\ 99 < discount < 101.
Proof.
  destruct (proj2 (proj2 (proj2
    (calculateDiscount_cases Examples.welcome20 1000 [] []))))
    as (raw & discount & Heq & _ & Hnear & _ & Hcap).
  - intros (H & _). discriminate H.
  - intros (H & _). discriminate H.
  - vm_compute. discriminate.
  - assert (Hraw : raw == 100).
    { assert (Hnz : ~ 100 == 0) by (vm_compute; discriminate).
      destruct (Hcap Hnz) as (Hle1 & Hle2 & [Hr|Hr]).
      + rewrite Hr in Hle2. vm_compute in Hle2. exfalso. apply Hle2. reflexivity.
      + rewrite Hr. reflexivity. }
    exists raw, discount. split; [exact Heq|]. split; [exact Hraw|].
    rewrite Hraw in Hnear. split; lra.
Defined.

(** Half-way between two cents the exact rounding and the rounding of the
    code differ: ten percent of 10.05 is 1.005, which rounds to 1.01, while on
    binary64 numbers the product of the raw discount and 100 is
    100.49999999999999 and the discount returned is 1.  Both are a whole
    number of cents half a cent away from 1.005. *)
Example binary64_discount_half_way_between_cents :
  (exists discount finalTotal,
      Coupon.calculateDiscount Samples.tenPercent 10.05 [] []
      = Coupon.Applicable discount finalTotal /\ discount == 1.01) /\
  (exists q, Binary64.value (fst Binary64.tenPercentOf1005) = Some q /\ q == 1).
Proof.
  split.
  - eexists _, _. split; [vm_compute; reflexivity | reflexivity].
  - eexists. split; [vm_compute; reflexivity | reflexivity].
Qed.

(** ** Applying a coupon to the cart *)

(** A refused [applyCoupon] writes nothing. *)
Lemma applyCoupon_refusal_keeps_collections (db : DB) (userId : ObjectId)
    (code : string) (now : Z) :
  match snd (CartController.applyCoupon db userId code now) with
  | Json _ true _ _ => True
  | _ => fst (CartController.applyCoupon db userId code now) = db
  end.
Proof.
  unfold CartController.applyCoupon.
  destruct (carts db !! userId) as [cart|]; [|reflexivity].
  destruct (length (Cart.items cart) =? 0)%nat; [reflexivity|].
  destruct (coupons db !! JS.toUpperCase code) as [coupon|]; [|reflexivity].
  destruct (Coupon.isValid coupon now); [|reflexivity].
  destruct (Coupon.canUserUse coupon userId); [|reflexivity].
  destruct (Coupon.calculateDiscount _ _ _ _); simpl; [exact I || reflexivity | reflexivity].
Qed.

(** [applyCoupon] validates only: the coupon collection, and with it every
    usage count, is as before. *)
Lemma applyCoupon_keeps_coupons (db : DB) (userId : ObjectId) (code : string)
    (now : Z) :
  coupons (fst (CartController.applyCoupon db userId code now)) = coupons db.
Proof.
  unfold CartController.applyCoupon.
  destruct (carts db !! userId) as [cart|]; [|reflexivity].
  destruct (length (Cart.items cart) =? 0)%nat; [reflexivity|].
  destruct (coupons db !! JS.toUpperCase code) as [coupon|]; [|reflexivity].
  destruct (Coupon.isValid coupon now); [|reflexivity].
  destruct (Coupon.canUserUse coupon userId); [|reflexivity].
  destruct (Coupon.calculateDiscount _ _ _ _); simpl; [reflexivity | reflexivity].
Qed.

(** C8 as stated fails on an empty cart: Erin's cart holds no line, the flat
    coupon passes [isValid], [canUserUse] and [calculateDiscount] on her cart,
    and yet [applyCoupon] stores nothing and answers with a reason that none
    of the three checks gave. *)
Lemma applyCoupon_refuses_empty_cart :
  exists (cart : Cart.t) (coupon : Coupon.t) (discount finalTotal : Q),
    carts Samples.emptyCartShop !! "erin" = Some cart /\
    Cart.items cart = [] /\
    coupons Samples.emptyCartShop !! JS.toUpperCase "big20" = Some coupon /\
    Coupon.isValid coupon 5 = Coupon.Valid /\
    Coupon.canUserUse coupon "erin" = Coupon.CanUse /\
    Coupon.calculateDiscount coupon (Cart.subtotal cart)
      (map Cart.product (Cart.items cart)) []
    = Coupon.Applicable discount finalTotal /\
    CartController.applyCoupon Samples.emptyCartShop "erin" "big20" 5
    = (Samples.emptyCartShop,
       fail 400 (text "Cannot apply coupon to empty cart")).
Proof.
  eexists _, _, _, _.
  split; [vm_compute; reflexivity|]. split; [reflexivity|].
  split; [vm_compute; reflexivity|]. split; [reflexivity|].
  split; [reflexivity|]. split; [vm_compute; reflexivity|].
  vm_compute. reflexivity.
Qed.

(** C8, amended: [applyCoupon] refuses a user without a cart (404), then an
    empty cart (400, "Cannot apply coupon to empty cart"), then a code that
    names no coupon (404), and writes nothing.  On a stored cart with at least
    one line and a known code it runs [isValid], then [canUserUse], then
    [calculateDiscount] on the stored subtotal and the products of the cart.
    The first check that fails decides the reply, which carries its reason,
    and the collections are left as they were.  When all pass, the cart is
    stored with the coupon {code, discountValue, discountType}, the same items
    and recomputed totals, and the reply carries the stored cart and the
    discount. *)
Theorem applyCoupon_checks_in_order (db : DB) (userId : ObjectId)
    (code : string) (now : Z) :
  let result := CartController.applyCoupon db userId code now in
  match carts db !! userId with
  | None => result = (db, fail 404 (text "Cart not found"))
  | Some cart =>
    let productIds := map Cart.product (Cart.items cart) in
    (Cart.items cart = [] ->
     result = (db, fail 400 (text "Cannot apply coupon to empty cart"))) /\
    (Cart.items cart <> [] ->
     match coupons db !! JS.toUpperCase code with
     | None => result = (db, fail 404 (text "Invalid coupon code"))
     | Some coupon =>
       (forall reason,
           Coupon.isValid coupon now = Coupon.Invalid reason ->
           result = (db, fail 400 reason)) /\
       (Coupon.isValid coupon now = Coupon.Valid ->
        forall reason,
          Coupon.canUserUse coupon userId = Coupon.CannotUse reason ->
          result = (db, fail 400 reason)) /\
       (Coupon.isValid coupon now = Coupon.Valid ->
        Coupon.canUserUse coupon userId = Coupon.CanUse ->
        forall reason,
          Coupon.calculateDiscount coupon (Cart.subtotal cart) productIds []
          = Coupon.NotApplicable reason ->
          result = (db, fail 400 reason)) /\
       (Coupon.isValid coupon now = Coupon.Valid ->
        Coupon.canUserUse coupon userId = Coupon.CanUse ->
        forall discount finalTotal,
          Coupon.calculateDiscount coupon (Cart.subtotal cart) productIds []
          = Coupon.Applicable discount finalTotal ->
          exists saved,
            result = (set_carts (<[userId := saved]> (carts db)) db,
                      ok (text "Coupon applied successfully") (saved, discount)) /\
            Cart.coupon saved
            = CartCoupon.mk (Some (Coupon.code coupon))
                (Coupon.discountValue coupon) (Coupon.discountType coupon) /\
            Cart.items saved = Cart.items cart /\
            Cart.user saved = Cart.user cart /\
            Cart.calculateTotals saved = saved /\
            Cart.subtotal saved = Cart.sumItems (Cart.items saved) /\
            Cart.total saved
            = Cart.subtotal saved - Cart.discount saved + Cart.tax saved
              + Cart.shipping saved)
     end)
  end.
Proof.
  cbv zeta. unfold CartController.applyCoupon.
  destruct (carts db !! userId) as [cart|]; [|reflexivity].
  split.
  { intros Hitems. rewrite Hitems. reflexivity. }
  intros Hitems.
  assert (Hlen : (length (Cart.items cart) =? 0)%nat = false).
  { destruct (Cart.items cart); [contradiction | reflexivity]. }
  rewrite Hlen.
  destruct (coupons db !! JS.toUpperCase code) as [coupon|]; [|reflexivity].
  split; [|split; [|split]].
  - intros reason Hv. rewrite Hv. reflexivity.
  - intros Hv reason Hu. rewrite Hv, Hu. reflexivity.
  - intros Hv Hu reason Hd. rewrite Hv, Hu, Hd. reflexivity.
  - intros Hv Hu discount finalTotal Hd. rewrite Hv, Hu, Hd.
    eexists. split; [reflexivity|]. repeat split.
Qed.

Lemma applyCoupon_checks_in_order_witness :
  exists (saved : Cart.t) (discount : Q),
    CartController.applyCoupon Examples.shop "bob" "big20" 5
    = (set_carts (<["bob"%string := saved]> (carts Examples.shop)) Examples.shop,
       ok (text "Coupon applied successfully") (saved, discount)) /\
    discount == 20 /\
    Cart.coupon saved = CartCoupon.mk (Some "BIG20"%string) 20 fixed.
Proof.
  pose proof (applyCoupon_checks_in_order Examples.shop "bob" "big20" 5%Z) as H.
  cbv zeta in H.
  change (carts Examples.shop !! "bob"%string)
    with (Some (Cart.addItem (Cart.new "bob" 0) Examples.pen "PEN-B" 1 None "i1" 1))
    in H.
  destruct H as [_ H].
  assert (Hitems : Cart.items
                     (Cart.addItem (Cart.new "bob" 0) Examples.pen "PEN-B" 1 None
                        "i1" 1) <> []) by (vm_compute; discriminate).
  specialize (H Hitems).
  change (coupons Examples.shop !! JS.toUpperCase "big20")
    with (Some Examples.big20) in H.
  destruct H as (_ & _ & _ & H).
  edestruct (H eq_refl eq_refl) as (saved & Hres & Hc & _).
  - vm_compute. reflexivity.
  - exists saved. eexists. split; [exact Hres|]. split; [reflexivity | exact Hc].
Defined.

(** ** The inventory ledger *)

Lemma stockWritten_refl (ps : gmap ObjectId Product.t) : stockWritten ps ps.
Proof. intros pid p' H. right. exists p'. auto. Qed.

Lemma stockWritten_trans (ps1 ps2 ps3 : gmap ObjectId Product.t) :
  stockWritten ps1 ps2 -> stockWritten ps2 ps3 -> stockWritten ps1 ps3.
Proof.
  intros H12 H23 pid p3 H3.
  destruct (H23 pid p3 H3) as [Hc|(p2 & H2 & Hi & Ht)]; [left; exact Hc|].
  destruct (H12 pid p2 H2) as [Hc|(p1 & H1 & Hi' & Ht')].
  - left. unfold Product.totalConsistent in *. congruence.
  - right. exists p1. split; [exact H1|]. split; congruence.
Qed.

Lemma stockWritten_insert (ps : gmap ObjectId Product.t) (pid : ObjectId)
    (p p' : Product.t) :
  ps !! pid = Some p ->
  Product.totalConsistent p' \/
  (Product.inventory p' = Product.inventory p /\
   Product.totalQuantity p' = Product.totalQuantity p) ->
  stockWritten ps (<[pid := p']> ps).
Proof.
  intros Hp H k q Hk. destruct (decide (pid = k)) as [->|Hne].
  - rewrite lookup_insert_eq in Hk. injection Hk as <-.
    destruct H as [Hc|[Hi Ht]]; [left; exact Hc|].
    right. exists p. auto.
  - rewrite lookup_insert_ne in Hk by exact Hne. right. exists q. auto.
Qed.

Lemma updateStock_total (p : Product.t) (s : string) (qty : Q) :
  Product.totalConsistent (Product.updateStock p s qty) \/
  Product.updateStock p s qty = p.
Proof.
  unfold Product.updateStock.
  destruct (Product.findSku s (Product.inventory p)) as [[i item]|].
  - left. reflexivity.
  - right. reflexivity.
Qed.

Lemma updateProductStock_written (ps ps' : gmap ObjectId Product.t)
    (item : Cart.CartItem) :
  OrderController.updateProductStock ps item = Some ps' -> stockWritten ps ps'.
Proof.
  unfold OrderController.updateProductStock.
  destruct (ps !! Cart.product item) as [product|] eqn:Hp; [|discriminate].
  intros H. injection H as <-.
  apply (stockWritten_insert ps _ product _ Hp).
  destruct (updateStock_total product (Cart.sku item) (Cart.quantity item))
    as [Hc|Heq].
  - left. exact Hc.
  - right. simpl. rewrite Heq. auto.
Qed.

Lemma updateProductStocks_written (items : list Cart.CartItem)
    (ps ps' : gmap ObjectId Product.t) :
  OrderController.updateProductStocks ps items = Some ps' -> stockWritten ps ps'.
Proof.
  revert ps. induction items as [|item rest IH]; intros ps H; simpl in H.
  - injection H as <-. apply stockWritten_refl.
  - destruct (OrderController.updateProductStock ps item) as [ps1|] eqn:H1;
      [|discriminate].
    eapply stockWritten_trans;
      [eapply updateProductStock_written; exact H1 | apply IH; exact H].
Qed.

Lemma restoreItem_written (ps : gmap ObjectId Product.t) (item : Order.OrderItem) :
  stockWritten ps (OrderController.restoreItem ps item).
Proof.
  unfold OrderController.restoreItem.
  destruct (ps !! Order.product item) as [product|] eqn:Hp;
    [|apply stockWritten_refl].
  destruct (Product.findSku (Order.sku item) (Product.inventory product))
    as [[i inv]|]; [|apply stockWritten_refl].
  apply (stockWritten_insert ps _ product _ Hp). left. reflexivity.
Qed.

Lemma restoreItems_written (items : list Order.OrderItem)
    (ps : gmap ObjectId Product.t) :
  stockWritten ps (fold_left OrderController.restoreItem items ps).
Proof.
  revert ps. induction items as [|item rest IH]; intros ps; simpl.
  - apply stockWritten_refl.
  - eapply stockWritten_trans; [apply restoreItem_written | apply IH].
Qed.

Lemma cancelOrder_written (db : DB) (userId orderId : ObjectId)
    (reason : option string) (now : Z) :
  stockWritten (products db)
    (products (fst (OrderController.cancelOrder db userId orderId reason now))).
Proof.
  unfold OrderController.cancelOrder.
  destruct (orders db !! orderId) as [order|]; [|apply stockWritten_refl].
  destruct (negb (bool_decide (Order.user order = userId)));
    [apply stockWritten_refl|].
  destruct (negb (OrderController.cancellable (Order.status order)));
    [apply stockWritten_refl|].
  simpl. apply restoreItems_written.
Qed.

Lemma admin_updateStock_written (db : DB) (id : ObjectId) (s : string) (qty : Q) :
  stockWritten (products db)
    (products (fst (ProductController.updateStock db id s qty))).
Proof.
  unfold ProductController.updateStock.
  destruct (products db !! id) as [product|] eqn:Hp; [|apply stockWritten_refl].
  destruct (Product.findSku s (Product.inventory product)) as [[i inv]|];
    [|apply stockWritten_refl].
  simpl. apply (stockWritten_insert _ _ product _ Hp). left. reflexivity.
Qed.

(** C2: the decrement of checkout writes max(0, quantity - requested) to the
    record of the SKU (quantity - requested when the stock suffices, 0 when
    it does not), which is therefore not negative, leaves the other records
    alone and stores the sum of the quantities as [totalQuantity]; and every
    product that the checkout loop, a cancellation or the admin stock update
    writes with a changed inventory has [totalQuantity] equal to the sum of
    the quantities of its inventory records. *)
Theorem inventory_floor_and_total :
  (forall (p : Product.t) (s : string) (qty : Q) (i : nat)
          (item : Product.InventoryRecord),
      Product.findSku s (Product.inventory p) = Some (i, item) ->
      let p' := Product.updateStock p s qty in
      exists item',
        Product.findSku s (Product.inventory p') = Some (i, item') /\
        Product.inventory p' = <[i := item']> (Product.inventory p) /\
        Product.sku item' = s /\
        Product.quantity item' = JS.Math_max 0 (Product.quantity item - qty) /\
        (qty <= Product.quantity item ->
         Product.quantity item' = Product.quantity item - qty) /\
        (Product.quantity item < qty -> Product.quantity item' = 0) /\
        0 <= Product.quantity item' /\
        Product.totalQuantity p' = Product.sumQuantity (Product.inventory p')) /\
  (forall (p : Product.t) (s : string) (qty : Q),
      Forall (fun item => 0 <= Product.quantity item) (Product.inventory p) ->
      Forall (fun item => 0 <= Product.quantity item)
             (Product.inventory (Product.updateStock p s qty))) /\
  (forall (ps ps' : gmap ObjectId Product.t) (items : list Cart.CartItem),
      OrderController.updateProductStocks ps items = Some ps' ->
      stockWritten ps ps') /\
  (forall (db : DB) (userId orderId : ObjectId) (reason : option string)
          (now : Z),
      stockWritten (products db)
        (products (fst (OrderController.cancelOrder db userId orderId reason now)))) /\
  (forall (db : DB) (id : ObjectId) (s : string) (qty : Q),
      stockWritten (products db)
        (products (fst (ProductController.updateStock db id s qty)))).
Proof.
  split; [|split; [|split; [|split]]].
  - intros p s qty i item Hf. cbv zeta. unfold Product.updateStock. rewrite Hf.
    simpl.
    pose proof Hf as Hf'. apply list_find_Some in Hf' as (Hi & Hs & _).
    exists (Product.set_quantity
              (JS.Math_max 0 (Product.quantity item - qty)) item).
    split.
    { apply (find_insert_same Product.sku _ s i item); [exact Hf | exact Hs]. }
    split; [reflexivity|]. split; [exact Hs|]. split; [reflexivity|].
    simpl. unfold JS.Math_max.
    destruct (Qle_bool 0 (Product.quantity item - qty)) eqn:E.
    + apply Qle_bool_iff in E. repeat split; try reflexivity; try exact E.
      intros Hlt. exfalso. lra.
    + assert (Hneg : Product.quantity item - qty < 0).
      { apply Qnot_le_lt. intros H. apply Qle_bool_iff in H. congruence. }
      repeat split; try reflexivity; try apply Qle_refl.
      intros Hle. exfalso. lra.
  - intros p s qty Hall. unfold Product.updateStock.
    destruct (Product.findSku s (Product.inventory p)) as [[i item]|];
      [|exact Hall].
    simpl. apply Forall_insert; [exact Hall|]. simpl. apply Math_max_lower.
  - intros ps ps' items. apply updateProductStocks_written.
  - apply cancelOrder_written.
  - apply admin_updateStock_written.
Qed.

Lemma inventory_floor_and_total_witness :
  exists item',
    Product.findSku "MUG-1" (Product.inventory (Product.updateStock Examples.mug "MUG-1" 6))
    = Some (0%nat, item') /\
    Product.quantity item' = 0.
Proof.
  destruct (proj1 inventory_floor_and_total Examples.mug "MUG-1"%string 6 0%nat
              (Product.mkInventory "MUG-1" 4 10) eq_refl)
    as (item' & Hf & _ & _ & _ & _ & Hzero & _).
  exists item'. split; [exact Hf|]. apply Hzero. reflexivity.
Defined.

(** ** Cancelling an order *)

Lemma hasSku_stockOf (p : Product.t) (s : string) :
  Product.hasSku p s
  = match Product.stockOf p s with Some _ => true | None => false end.
Proof.
  unfold Product.hasSku, Product.stockOf.
  destruct (Product.findSku s (Product.inventory p)) as [[i r]|]; reflexivity.
Qed.

Lemma stockRaised_hasSku (p p' : Product.t) (f : string -> Q) (s : string) :
  stockRaised p p' f -> Product.hasSku p' s = Product.hasSku p s.
Proof.
  intros H. rewrite !hasSku_stockOf. specialize (H s).
  destruct (Product.stockOf p s).
  - destruct H as (q' & -> & _). reflexivity.
  - rewrite H. reflexivity.
Qed.

Lemma stockRaised_same (p : Product.t) (f : string -> Q) :
  (forall s q, Product.stockOf p s = Some q -> f s == 0) ->
  stockRaised p p f.
Proof.
  intros Hf s. destruct (Product.stockOf p s) as [q|] eqn:E; [|reflexivity].
  exists q. split; [reflexivity|]. rewrite (Hf s q E). ring.
Qed.

(** One turn of the restore loop, seen from product [pid]. *)
Lemma restoreItem_effect (ps : gmap ObjectId Product.t) (item : Order.OrderItem)
    (pid : ObjectId) (p : Product.t) :
  ps !! pid = Some p ->
  exists p',
    OrderController.restoreItem ps item !! pid = Some p' /\
    stockRaised p p'
      (fun s => if bool_decide (Order.product item = pid /\ Order.sku item = s)
                then Order.quantity item else 0) /\
    Product.salesCount p'
    == Product.salesCount p
       - (if bool_decide (Order.product item = pid)
             && Product.hasSku p (Order.sku item)
          then Order.quantity item else 0).
Proof.
  intros Hp. unfold OrderController.restoreItem.
  destruct (decide (Order.product item = pid)) as [Heq|Hne].
  - rewrite Heq, Hp.
    destruct (Product.findSku (Order.sku item) (Product.inventory p))
      as [[i r]|] eqn:Hf.
    + pose proof Hf as Hf'. apply list_find_Some in Hf' as (Hi & Hr & _).
      eexists. split; [apply lookup_insert_eq|]. split.
      * intros s. unfold Product.stockOf, Product.findSku in *. simpl.
        destruct (decide (Order.sku item = s)) as [Hs|Hs].
        -- subst s. rewrite Hf.
           rewrite (find_insert_same Product.sku _ (Order.sku item) i r
                      (Product.set_quantity
                         (Product.quantity r + Order.quantity item) r) Hf Hr).
           eexists. split; [reflexivity|]. simpl.
           rewrite bool_decide_eq_true_2 by auto. reflexivity.
        -- rewrite (find_insert_other Product.sku _ s i r _ Hi);
             [|congruence|simpl; congruence].
           destruct (list_find (fun z => Product.sku z = s) (Product.inventory p))
             as [[j x]|]; [|reflexivity].
           eexists. split; [reflexivity|].
           rewrite bool_decide_eq_false_2 by (intros [_ ?]; contradiction).
           ring.
      * simpl. rewrite bool_decide_eq_true_2 by reflexivity.
        unfold Product.hasSku. rewrite Hf. simpl. reflexivity.
    + exists p. split; [exact Hp|]. split.
      * apply stockRaised_same. intros s q Hq.
        rewrite bool_decide_eq_false_2; [reflexivity|].
        intros [_ Hs]. subst s. unfold Product.stockOf in Hq.
        rewrite Hf in Hq. discriminate.
      * unfold Product.hasSku. rewrite Hf. rewrite andb_false_r. ring.
  - assert (Hkeep : OrderController.restoreItem ps item !! pid = Some p).
    { unfold OrderController.restoreItem.
      destruct (ps !! Order.product item) as [product|]; [|exact Hp].
      destruct (Product.findSku _ _) as [[i r]|]; [|exact Hp].
      rewrite lookup_insert_ne by exact Hne. exact Hp. }
    exists p. split; [exact Hkeep|]. split.
    + apply stockRaised_same. intros s q _.
      rewrite bool_decide_eq_false_2; [reflexivity|].
      intros [? _]. contradiction.
    + rewrite bool_decide_eq_false_2 by exact Hne. simpl. ring.
Qed.

Lemma restoredTotal_ext (pid : ObjectId) (f g : string -> bool)
    (items : list Order.OrderItem) :
  (forall s, f s = g s) ->
  OrderController.restoredTotal pid f items
  = OrderController.restoredTotal pid g items.
Proof.
  intros H. induction items as [|item rest IH]; [reflexivity|].
  simpl. rewrite IH, H. reflexivity.
Qed.

(** The whole restore loop, seen from product [pid]. *)
Lemma restoreItems_effect (items : list Order.OrderItem)
    (ps : gmap ObjectId Product.t) (pid : ObjectId) (p : Product.t) :
  ps !! pid = Some p ->
  exists p',
    fold_left OrderController.restoreItem items ps !! pid = Some p' /\
    stockRaised p p' (fun s => OrderController.restoredFor pid s items) /\
    Product.salesCount p'
    == Product.salesCount p
       - OrderController.restoredTotal pid (Product.hasSku p) items.
Proof.
  revert ps p. induction items as [|item rest IH]; intros ps p Hp; simpl.
  - exists p. split; [exact Hp|]. split.
    + apply stockRaised_same. intros; reflexivity.
    + ring.
  - destruct (restoreItem_effect ps item pid p Hp) as (p1 & H1 & Hst1 & Hsc1).
    destruct (IH _ p1 H1) as (p' & H' & Hst' & Hsc').
    exists p'. split; [exact H'|]. split.
    + intros s. specialize (Hst1 s). 
      destruct (Product.stockOf p s) as [q|].
      * destruct Hst1 as (q1 & Hq1 & Hv1). specialize (Hst' s).
        rewrite Hq1 in Hst'. destruct Hst' as (q' & Hq' & Hv').
        exists q'. split; [exact Hq'|]. rewrite Hv', Hv1.
        destruct (bool_decide _); ring.
      * specialize (Hst' s). rewrite Hst1 in Hst'. exact Hst'.
    + rewrite Hsc', Hsc1.
      rewrite (restoredTotal_ext pid (Product.hasSku p1) (Product.hasSku p))
        by (intros s; eapply stockRaised_hasSku; exact Hst1).
      destruct (bool_decide _ && _); ring.
Qed.

Lemma restoreItems_absent (items : list Order.OrderItem)
    (ps : gmap ObjectId Product.t) (pid : ObjectId) :
  ps !! pid = None ->
  fold_left OrderController.restoreItem items ps !! pid = None.
Proof.
  revert ps. induction items as [|item rest IH]; intros ps Hp; simpl;
    [exact Hp|].
  apply IH. unfold OrderController.restoreItem.
  destruct (ps !! Order.product item) as [product|] eqn:Hq; [|exact Hp].
  destruct (Product.findSku _ _) as [[i r]|]; [|exact Hp].
  rewrite lookup_insert_ne; [exact Hp|]. intros E. rewrite E in Hq. congruence.
Qed.

Lemma cancellable_iff (s : Order.Status) :
  OrderController.cancellable s = true <->
  s = Order.pending \/ s = Order.processing.
Proof.
  destruct s; simpl; split; intros H; auto;
    try discriminate; destruct H; discriminate.
Qed.

(** C6 as stated fails: Bob's pending order holds two mugs under a SKU that
    the product no longer carries.  The cancellation succeeds and the order is
    stored as cancelled, but the loop skips the line: no quantity rises, and
    the [salesCount] of the product is not lowered by the two mugs. *)
Lemma cancelOrder_skips_line_of_missing_sku :
  let db := Samples.staleShop in
  let result := OrderController.cancelOrder db "bob" "o3" None 20 in
  (exists (order : Order.t) (line : Order.OrderItem),
      orders db !! "o3" = Some order /\
      Order.user order = "bob"%string /\
      Order.status order = Order.pending /\
      Order.items order = [line] /\
      Order.product line = "p-mug"%string /\ Order.quantity line == 2) /\
  (exists order' : Order.t,
      snd result = ok (text "Order cancelled successfully") order' /\
      orders (fst result) !! "o3" = Some order' /\
      Order.status order' = Order.cancelled) /\
  products (fst result) = products db /\
  (exists p p' : Product.t,
      products db !! "p-mug" = Some p /\
      products (fst result) !! "p-mug" = Some p' /\
      Product.inventory p' = Product.inventory p /\
      Product.salesCount p' == Product.salesCount p /\
      ~ Product.salesCount p' == Product.salesCount p - 2).
Proof.
  cbv zeta. split; [|split; [|split]].
  - eexists _, _. split; [vm_compute; reflexivity|]. repeat split.
  - eexists. split; [vm_compute; reflexivity|].
    split; [vm_compute; reflexivity | reflexivity].
  - vm_compute. reflexivity.
  - eexists _, _. split; [vm_compute; reflexivity|].
    split; [vm_compute; reflexivity|]. split; [reflexivity|].
    split; [reflexivity|]. vm_compute. discriminate.
Qed.

(** C6, amended: [cancelOrder] on an order of the caller.  From a status other than
    pending and processing the reply is the 400 error that names the status
    and no collection changes, so the order keeps its status.  From pending or
    processing the order is stored with status cancelled and exactly one more
    timeline entry; for every product, each SKU it carries has its quantity
    raised by the quantities of the order lines for that product and SKU, no
    SKU appears or disappears, and [salesCount] is lowered by the quantities
    of the order lines of that product whose SKU it carries.  A line whose
    product or SKU is gone is skipped: it raises no quantity and lowers no
    [salesCount]. *)
Theorem cancelOrder_effect (db : DB) (userId orderId : ObjectId)
    (reason : option string) (now : Z) (order : Order.t) :
  orders db !! orderId = Some order ->
  Order.user order = userId ->
  let result := OrderController.cancelOrder db userId orderId reason now in
  (Order.status order <> Order.pending ->
   Order.status order <> Order.processing ->
   result
   = (db, fail 400 [Str "Cannot cancel order with status: ";
                    Str (Order.statusName (Order.status order))]) /\
   orders (fst result) !! orderId = Some order) /\
  (Order.status order = Order.pending \/ Order.status order = Order.processing ->
   exists (order' : Order.t) (entry : TimelineEvent.t),
     snd result = ok (text "Order cancelled successfully") order' /\
     orders (fst result) = <[orderId := order']> (orders db) /\
     Order.status order' = Order.cancelled /\
     Order.timeline order' = Order.timeline order ++ [entry] /\
     TimelineEvent.status entry = "cancelled"%string /\
     TimelineEvent.updatedBy entry = Some userId /\
     Order.items order' = Order.items order /\
     (forall (pid : ObjectId) (p : Product.t),
         products db !! pid = Some p ->
         exists p',
           products (fst result) !! pid = Some p' /\
           stockRaised p p'
             (fun s => OrderController.restoredFor pid s (Order.items order)) /\
           Product.salesCount p'
           == Product.salesCount p
              - OrderController.restoredTotal pid (Product.hasSku p)
                  (Order.items order)) /\
     (forall pid : ObjectId,
         products db !! pid = None -> products (fst result) !! pid = None)).
Proof.
  intros Horder Huser. cbv zeta. unfold OrderController.cancelOrder.
  rewrite Horder. rewrite bool_decide_eq_true_2 by exact Huser. simpl.
  split.
  - intros Hp1 Hp2.
    assert (Hc : OrderController.cancellable (Order.status order) = false).
    { destruct (OrderController.cancellable (Order.status order)) eqn:E;
        [|reflexivity].
      apply cancellable_iff in E. destruct E; contradiction. }
    rewrite Hc. simpl. split; [reflexivity | exact Horder].
  - intros Hst. apply cancellable_iff in Hst. rewrite Hst. simpl.
    eexists _, _. split; [reflexivity|]. split; [reflexivity|].
    split; [reflexivity|]. split; [reflexivity|]. split; [reflexivity|].
    split; [reflexivity|]. split; [reflexivity|]. split.
    + intros pid p Hp. apply restoreItems_effect. exact Hp.
    + intros pid Hp. apply restoreItems_absent. exact Hp.
Qed.

Lemma cancelOrder_effect_witness :
  (exists order',
      snd (OrderController.cancelOrder Examples.afterCheckout "bob" "o1" None 20)
      = ok (text "Order cancelled successfully") order' /\
      Order.status order' = Order.cancelled /\
      length (Order.timeline order') = 2%nat) /\
  fst (OrderController.cancelOrder Examples.afterCheckout "bob" "o2" None 20)
  = Examples.afterCheckout.
Proof.
  split.
  - destruct (proj2 (cancelOrder_effect Examples.afterCheckout "bob" "o1" None 20%Z
                       Examples.bobsOrder eq_refl eq_refl) (or_introl eq_refl))
      as (order' & entry & Hres & _ & Hst & Htl & _).
    exists order'. split; [exact Hres|]. split; [exact Hst|].
    rewrite Htl. reflexivity.
  - destruct (proj1 (cancelOrder_effect Examples.afterCheckout "bob" "o2" None 20%Z
                       (Order.mk "o2" "bob" [] Order.delivered [] 10)
                       eq_refl eq_refl)) as [Hres _]; [discriminate..|].
    rewrite Hres. reflexivity.
Defined.

(** The scenario of two lines with quantities 2 and 1: both SKUs gain the
    quantity of their line, both products lose it from [salesCount], and the
    cached totals follow. *)
Example cancel_pending_two_lines :
  let db' :=
    fst (OrderController.cancelOrder Examples.afterCheckout "bob" "o1" None 20) in
  (exists p, products db' !! "p-shirt" = Some p /\
             Product.stockOf p "SHIRT-M" = Some 12 /\
             Product.totalQuantity p = 12 /\ Product.salesCount p = 3) /\
  (exists p, products db' !! "p-mug" = Some p /\
             Product.stockOf p "MUG-1" = Some 5 /\
             Product.totalQuantity p = 5 /\ Product.salesCount p = 0) /\
  (exists o, orders db' !! "o1" = Some o /\
             Order.status o = Order.cancelled /\
             length (Order.timeline o) = 2%nat).
Proof.
  cbv zeta. repeat split; eexists; (split; [vm_compute; reflexivity|]);
    repeat split; vm_compute; reflexivity.
Qed.

(** [applyCoupon] records no usage, so a coupon limited to one use per user
    is accepted again on a second request of the same user. *)
Example applyCoupon_twice_is_accepted_twice :
  let first := CartController.applyCoupon Examples.welcomeShop "alice" "welcome20" 5 in
  let second := CartController.applyCoupon (fst first) "alice" "welcome20" 6 in
  Coupon.perUser (Coupon.usageLimit Examples.welcome20) = Some 1 /\
  (exists saved discount,
      snd first = ok (text "Coupon applied successfully") (saved, discount)) /\
  (exists saved discount,
      snd second = ok (text "Coupon applied successfully") (saved, discount)).
Proof.
  cbv zeta. split; [reflexivity|].
  split; eexists _, _; vm_compute; reflexivity.
Qed.

(** * Further properties *)

(** ** Validity of a coupon *)

Lemma limitReached_true (limit : option Q) (n : Q) :
  Coupon.limitReached limit n = true <->
  exists l, limit = Some l /\ ~ l == 0 /\ l <= n.
Proof.
  unfold Coupon.limitReached. destruct limit as [l|].
  - rewrite andb_true_iff, JS_ge_true. split.
    + intros [Ht Hle]. exists l. split; [reflexivity|]. split; [|exact Hle].
      intros H0. rewrite (truthyNumber_zero l H0) in Ht. discriminate.
    + intros (l' & Heq & Hnz & Hle). injection Heq as <-.
      split; [apply truthyNumber_nonzero; exact Hnz | exact Hle].
  - split; [discriminate|]. intros (l & H & _). discriminate.
Qed.

(** X1: [isValid] accepts a coupon exactly when it is active, the clock is inside
    the closed validity window, and no non-zero total limit has been reached
    by the usage count. *)
Theorem isValid_accepts_iff (c : Coupon.t) (now : Z) :
  Coupon.isValid c now = Coupon.Valid <->
  Coupon.isActive c = true /\
  (Coupon.startDate c <= now <= Coupon.endDate c)%Z /\
  (forall l, Coupon.total (Coupon.usageLimit c) = Some l -> ~ l == 0 ->
             Coupon.usageCount c < l).
Proof.
  unfold Coupon.isValid.
  destruct (Coupon.isActive c); simpl.
  2:{ split; [discriminate|]. intros (H & _). discriminate. }
  destruct (now <? Coupon.startDate c)%Z eqn:E1.
  { apply Z.ltb_lt in E1. split; [discriminate|]. intros (_ & [H _] & _). lia. }
  apply Z.ltb_ge in E1.
  destruct (now >? Coupon.endDate c)%Z eqn:E2.
  { rewrite Z.gtb_ltb in E2. apply Z.ltb_lt in E2.
    split; [discriminate|]. intros (_ & [_ H] & _). lia. }
  rewrite Z.gtb_ltb in E2. apply Z.ltb_ge in E2.
  destruct (Coupon.limitReached (Coupon.total (Coupon.usageLimit c))
              (Coupon.usageCount c)) eqn:E3.
  - apply limitReached_true in E3 as (l & Hl & Hnz & Hle).
    split; [discriminate|]. intros (_ & _ & H).
    specialize (H l Hl Hnz). exfalso. exact (Qlt_not_le _ _ H Hle).
  - split; [|reflexivity]. intros _. split; [reflexivity|]. split; [lia|].
    intros l Hl Hnz. apply Qnot_le_lt. intros Hle.
    assert (Coupon.limitReached (Coupon.total (Coupon.usageLimit c))
              (Coupon.usageCount c) = true)
      by (apply limitReached_true; eauto).
    congruence.
Qed.

Lemma isValid_accepts_iff_witness :
  Coupon.isValid Examples.big20 5 = Coupon.Valid.
Proof.
  apply (proj2 (isValid_accepts_iff Examples.big20 5%Z)).
  split; [reflexivity|]. split; [simpl; lia|].
  intros l H. discriminate H.
Defined.

(** ** Usage recorded at checkout and the per-user limit *)

Lemma recordUsage_findUsage_same (c : Coupon.t) (userId : ObjectId) (now : Z) :
  exists i e,
    Coupon.findUsage userId (Coupon.usedBy (Coupon.recordUsage c userId now))
    = Some (i, e) /\
    Coupon.count e = Coupon.countOf userId (Coupon.usedBy c) + 1.
Proof.
  unfold Coupon.recordUsage, Coupon.countOf, Coupon.findUsage; simpl.
  destruct (list_find (fun u => Coupon.user u = userId) (Coupon.usedBy c))
    as [[i e]|] eqn:Hf.
  - pose proof Hf as Hf'. apply list_find_Some in Hf' as (_ & He & _).
    exists i, (Coupon.set_count (Coupon.count e + 1) now e). split.
    + apply (find_insert_same Coupon.user _ userId i e); [exact Hf | exact He].
    + reflexivity.
  - exists (length (Coupon.usedBy c)), (Coupon.mkUsage userId 1 now). split.
    + apply (find_app_new Coupon.user); [exact Hf | reflexivity].
    + reflexivity.
Qed.

Lemma recordUsage_findUsage_other (c : Coupon.t) (userId other : ObjectId)
    (now : Z) :
  other <> userId ->
  Coupon.findUsage other (Coupon.usedBy (Coupon.recordUsage c userId now))
  = Coupon.findUsage other (Coupon.usedBy c).
Proof.
  intros Hne. unfold Coupon.recordUsage, Coupon.findUsage; simpl.
  destruct (list_find (fun u => Coupon.user u = userId) (Coupon.usedBy c))
    as [[i e]|] eqn:Hf.
  - apply list_find_Some in Hf as (Hi & He & _).
    apply (find_insert_other Coupon.user _ other i e); [exact Hi| |];
      simpl; congruence.
  - apply (find_app_other Coupon.user). simpl. congruence.
Qed.

(** X2: After [recordUsage] for a user, a non-zero per-user limit blocks that user
    exactly when the recorded count has reached it, and the verdict for every
    other user is what it was. *)
Theorem recordUsage_then_canUserUse (c : Coupon.t) (userId : ObjectId)
    (now : Z) (l : Q) :
  Coupon.perUser (Coupon.usageLimit c) = Some l -> ~ l == 0 ->
  let c' := Coupon.recordUsage c userId now in
  (l <= Coupon.countOf userId (Coupon.usedBy c) + 1 ->
   Coupon.canUserUse c' userId
   = Coupon.CannotUse (text "Per-user limit reached")) /\
  (Coupon.countOf userId (Coupon.usedBy c) + 1 < l ->
   Coupon.canUserUse c' userId = Coupon.CanUse) /\
  (forall other : ObjectId,
      other <> userId ->
      Coupon.canUserUse c' other = Coupon.canUserUse c other).
Proof.
  intros Hl Hnz. cbv zeta.
  destruct (recordUsage_findUsage_same c userId now) as (i & e & Hf & Hc).
  unfold Coupon.canUserUse.
  change (Coupon.usageLimit (Coupon.recordUsage c userId now))
    with (Coupon.usageLimit c).
  rewrite Hl, (truthyNumber_nonzero l Hnz).
  split; [|split].
  - intros Hle. rewrite Hf.
    assert (E : JS.ge (Coupon.count e) l = true)
      by (apply JS_ge_true; rewrite Hc; exact Hle).
    rewrite E. reflexivity.
  - intros Hlt. rewrite Hf.
    destruct (JS.ge (Coupon.count e) l) eqn:E; [|reflexivity].
    apply JS_ge_true in E. rewrite Hc in E.
    exfalso. exact (Qlt_not_le _ _ Hlt E).
  - intros other Hne. rewrite (recordUsage_findUsage_other c userId other now Hne).
    reflexivity.
Qed.

Lemma recordUsage_then_canUserUse_witness :
  Coupon.canUserUse (Coupon.recordUsage Examples.welcome20 "alice" 9) "alice"
  = Coupon.CannotUse (text "Per-user limit reached") /\
  Coupon.canUserUse (Coupon.recordUsage Examples.welcome20 "alice" 9) "bob"
  = Coupon.CanUse.
Proof.
  assert (Hnz : ~ 1 == 0) by (vm_compute; discriminate).
  destruct (recordUsage_then_canUserUse Examples.welcome20 "alice" 9%Z 1
              eq_refl Hnz) as (Hblocked & _ & Hother).
  split.
  - apply Hblocked. vm_compute. discriminate.
  - rewrite (Hother "bob"%string) by discriminate. reflexivity.
Defined.

(** ** Usage statistics *)

Lemma Math_ceil_nonpos (x : Q) : x <= 0 -> JSMath.Math_ceil x <= 0.
Proof.
  intros H. unfold JSMath.Math_ceil.
  apply Qceiling_resp_le in H. change (Qceiling 0) with 0%Z in H.
  rewrite Zle_Qle in H. exact H.
Qed.

Lemma Math_ceil_nonneg (x : Q) : 0 <= x -> 0 <= JSMath.Math_ceil x.
Proof.
  intros H. unfold JSMath.Math_ceil.
  apply Qle_trans with x; [exact H | apply Qle_ceiling].
Qed.

Lemma remainingUses_unfold (c : Coupon.t) (now1 now2 : Z) :
  CouponStats.remainingUses (CouponStats.getStats c now1 now2)
  = match Coupon.total (Coupon.usageLimit c) with
    | Some l =>
        if JS.truthyNumber (Some l) then Some (l - Coupon.usageCount c) else None
    | None => None
    end.
Proof. reflexivity. Qed.

(** X3: [getStats] and [isValid] tell the same story about the total limit: on an
    active coupon inside its window, [isValid] answers "Usage limit reached"
    exactly when [remainingUses] is a number that is not positive.  A coupon
    reported as expired has no days left, and [recordUsage] lowers
    [remainingUses] by one and raises [totalUsage] by one. *)
Theorem getStats_agrees_with_isValid (c : Coupon.t) (now now1 now2 : Z) :
  Coupon.isActive c = true ->
  (Coupon.startDate c <= now <= Coupon.endDate c)%Z ->
  (now1 <= now2)%Z ->
  let stats := CouponStats.getStats c now1 now2 in
  (Coupon.isValid c now = Coupon.Invalid (text "Usage limit reached") <->
   exists r, CouponStats.remainingUses stats = Some r /\ r <= 0) /\
  (Coupon.isValid c now = Coupon.Valid <->
   forall r, CouponStats.remainingUses stats = Some r -> 0 < r) /\
  (CouponStats.isExpired stats = true -> CouponStats.daysUntilExpiry stats <= 0) /\
  (forall (userId : ObjectId) (t : Z),
      let stats' := CouponStats.getStats (Coupon.recordUsage c userId t) now1 now2 in
      CouponStats.totalUsage stats' = CouponStats.totalUsage stats + 1 /\
      match CouponStats.remainingUses stats with
      | Some r => exists r', CouponStats.remainingUses stats' = Some r' /\
                             r' == r - 1
      | None => CouponStats.remainingUses stats' = None
      end).
Proof.
  intros Hact [Hs He] Hclock. cbv zeta.
  assert (Hvalid : Coupon.isValid c now
                   = if Coupon.limitReached (Coupon.total (Coupon.usageLimit c))
                          (Coupon.usageCount c)
                     then Coupon.Invalid (text "Usage limit reached")
                     else Coupon.Valid).
  { unfold Coupon.isValid. rewrite Hact. simpl.
    assert (E1 : (now <? Coupon.startDate c)%Z = false) by (apply Z.ltb_ge; lia).
    assert (E2 : (now >? Coupon.endDate c)%Z = false).
    { rewrite Z.gtb_ltb. apply Z.ltb_ge. lia. }
    rewrite E1, E2. reflexivity. }
  assert (Hrem : forall r,
             CouponStats.remainingUses (CouponStats.getStats c now1 now2) = Some r
             <-> exists l, Coupon.total (Coupon.usageLimit c) = Some l /\
                           ~ l == 0 /\ r = l - Coupon.usageCount c).
  { intros r. rewrite remainingUses_unfold.
    destruct (Coupon.total (Coupon.usageLimit c)) as [l|].
    - destruct (JS.truthyNumber (Some l)) eqn:Et.
      + split.
        * intros H. injection H as <-. exists l. split; [reflexivity|].
          split; [|reflexivity].
          intros H0. rewrite (truthyNumber_zero l H0) in Et. discriminate.
        * intros (l' & Hl & _ & ->). injection Hl as <-. reflexivity.
      + split; [discriminate|]. intros (l' & Hl & Hnz & _). injection Hl as <-.
        rewrite (truthyNumber_nonzero l Hnz) in Et. discriminate.
    - split; [discriminate|]. intros (l & H & _). discriminate. }
  split; [|split; [|split]].
  - rewrite Hvalid.
    destruct (Coupon.limitReached _ _) eqn:E.
    + apply limitReached_true in E as (l & Hl & Hnz & Hle).
      split; [|reflexivity]. intros _. exists (l - Coupon.usageCount c).
      split; [apply Hrem; eauto | lra].
    + split; [discriminate|]. intros (r & Hr & Hle).
      apply Hrem in Hr as (l & Hl & Hnz & ->).
      assert (Coupon.limitReached (Coupon.total (Coupon.usageLimit c))
                (Coupon.usageCount c) = true).
      { apply limitReached_true. exists l. repeat split; [exact Hl|exact Hnz|lra]. }
      congruence.
  - rewrite Hvalid.
    destruct (Coupon.limitReached _ _) eqn:E.
    + apply limitReached_true in E as (l & Hl & Hnz & Hle).
      split; [discriminate|]. intros H.
      assert (Hpos : 0 < l - Coupon.usageCount c) by (apply H, Hrem; eauto).
      exfalso. lra.
    + split; [|reflexivity]. intros _ r Hr.
      apply Hrem in Hr as (l & Hl & Hnz & ->).
      apply Qnot_le_lt. intros Hle.
      assert (Coupon.limitReached (Coupon.total (Coupon.usageLimit c))
                (Coupon.usageCount c) = true).
      { apply limitReached_true. exists l. repeat split; [exact Hl|exact Hnz|lra]. }
      congruence.
  - unfold CouponStats.getStats; simpl. intros Hexp.
    rewrite Z.gtb_ltb in Hexp. apply Z.ltb_lt in Hexp.
    apply Math_ceil_nonpos.
    assert (Hneg : inject_Z (Coupon.endDate c - now2) <= 0).
    { change 0 with (inject_Z 0). rewrite <- Zle_Qle. lia. }
    apply Qle_shift_div_r; [reflexivity|].
    apply Qle_trans with 0; [exact Hneg | vm_compute; discriminate].
  - intros userId t. split; [reflexivity|].
    rewrite !remainingUses_unfold.
    change (Coupon.usageLimit (Coupon.recordUsage c userId t))
      with (Coupon.usageLimit c).
    change (Coupon.usageCount (Coupon.recordUsage c userId t))
      with (Coupon.usageCount c + 1).
    destruct (Coupon.total (Coupon.usageLimit c)) as [l|]; [|reflexivity].
    destruct (JS.truthyNumber (Some l)); [|reflexivity].
    eexists. split; [reflexivity|]. ring.
Qed.

Lemma getStats_agrees_with_isValid_witness :
  (forall r,
      CouponStats.remainingUses (CouponStats.getStats Examples.welcome20 10 11)
      = Some r -> 0 < r) /\
  Coupon.isValid Examples.welcome20 10 = Coupon.Valid.
Proof.
  destruct (getStats_agrees_with_isValid Examples.welcome20 10 10 11
              eq_refl ltac:(simpl; lia) ltac:(lia)) as (_ & Hiff & _).
  assert (Hv : Coupon.isValid Examples.welcome20 10 = Coupon.Valid) by reflexivity.
  split; [apply Hiff; exact Hv | exact Hv].
Defined.

(** ** Bounds on the discount a coupon quotes *)

Lemma Math_round_le (x y : Q) : x <= y -> JS.Math_round x <= JS.Math_round y.
Proof.
  intros H. unfold JS.Math_round. rewrite <- Zle_Qle.
  apply Qfloor_resp_le. lra.
Qed.

Lemma Math_round_integer (k : Z) : JS.Math_round (inject_Z k) == inject_Z k.
Proof.
  unfold JS.Math_round.
  pose proof (Qfloor_le (inject_Z k + (1 # 2))) as Hle.
  pose proof (Qlt_floor (inject_Z k + (1 # 2))) as Hlt.
  set (z := Qfloor (inject_Z k + (1 # 2))) in *.
  rewrite inject_Z_plus in Hlt. change (inject_Z 1) with 1 in Hlt.
  assert (Hz : z = k).
  { destruct (Z.lt_trichotomy z k) as [H|[H|H]]; [|exact H|]; exfalso.
    - assert (Hq : inject_Z (z + 1) <= inject_Z k) by (rewrite <- Zle_Qle; lia).
      rewrite inject_Z_plus in Hq. change (inject_Z 1) with 1 in Hq. lra.
    - assert (Hq : inject_Z (k + 1) <= inject_Z z) by (rewrite <- Zle_Qle; lia).
      rewrite inject_Z_plus in Hq. change (inject_Z 1) with 1 in Hq. lra. }
  rewrite Hz. reflexivity.
Qed.

Lemma Math_round_nonneg (x : Q) : 0 <= x -> 0 <= JS.Math_round x.
Proof.
  intros H. apply Qle_trans with (JS.Math_round (inject_Z 0)).
  - rewrite Math_round_integer. apply Qle_refl.
  - apply Math_round_le. exact H.
Qed.

Lemma rounded_within_whole_cent_cap (raw m : Q) (cents : Z) :
  m == inject_Z cents / 100 -> raw <= m ->
  JS.Math_round (raw * 100) / 100 <= m.
Proof.
  intros Hcents Hcap.
  apply Qle_shift_div_r; [reflexivity|].
  apply Qle_trans with (JS.Math_round (m * 100)).
  - apply Math_round_le. lra.
  - assert (Hm100 : m * 100 == inject_Z cents) by (rewrite Hcents; field).
    unfold JS.Math_round in *.
    assert (Hfl : Qfloor (m * 100 + (1 # 2)) = Qfloor (inject_Z cents + (1 # 2))).
    { apply Z.le_antisymm; apply Qfloor_resp_le; lra. }
    rewrite Hfl. fold (JS.Math_round (inject_Z cents)).
    rewrite Math_round_integer. lra.
Qed.

Lemma rawDiscount_within_cap (c : Coupon.t) (subtotal m : Q) :
  Coupon.discountType c = percentage ->
  Coupon.maximumDiscount c = Some m -> ~ m == 0 ->
  Coupon.rawDiscount c subtotal <= m.
Proof.
  intros Hty Hm Hnz. unfold Coupon.rawDiscount. rewrite Hty, Hm.
  rewrite (truthyNumber_nonzero m Hnz). apply Math_min_spec.
Qed.

(** What an applicable verdict was computed from. *)
Lemma calculateDiscount_applicable (c : Coupon.t) (subtotal : Q)
    (productIds categoryIds : list ObjectId) (d f : Q) :
  Coupon.calculateDiscount c subtotal productIds categoryIds
  = Coupon.Applicable d f ->
  Coupon.minimumPurchase c <= subtotal /\
  d = JS.Math_round (Coupon.rawDiscount c subtotal * 100) / 100 /\
  f = subtotal - Coupon.rawDiscount c subtotal.
Proof.
  unfold Coupon.calculateDiscount.
  destruct (_ && _ && negb (Coupon.someApplicable productIds _)); [discriminate|].
  destruct (_ && _ && negb (Coupon.someApplicable categoryIds _)); [discriminate|].
  destruct (JS.lt subtotal (Coupon.minimumPurchase c)) eqn:E; [discriminate|].
  intros H. injection H as <- <-. apply JS_lt_false in E. auto.
Qed.

(** X4: A discount that [calculateDiscount] quotes is a whole number of cents
    within half a cent of subtotal - finalTotal, and the subtotal has met the
    minimum purchase.  For a non-negative subtotal and discount value it is
    not negative; for a percentage coupon it is at most half a cent over
    subtotal x discountValue / 100, and never over a non-zero
    [maximumDiscount] that is itself a whole number of cents. *)
Theorem calculateDiscount_quote_bounds (c : Coupon.t) (subtotal : Q)
    (productIds categoryIds : list ObjectId) (d f : Q) :
  Coupon.calculateDiscount c subtotal productIds categoryIds
  = Coupon.Applicable d f ->
  Coupon.minimumPurchase c <= subtotal /\
  (exists cents : Z, d == inject_Z cents / 100) /\
  (subtotal - f - (1 # 200) < d /\ d <= subtotal - f + (1 # 200)) /\
  (0 <= subtotal -> 0 <= Coupon.discountValue c ->
   (forall m, Coupon.maximumDiscount c = Some m -> 0 <= m) ->
   0 <= d) /\
  (Coupon.discountType c = percentage ->
   d <= subtotal * Coupon.discountValue c / 100 + (1 # 200)) /\
  (forall (m : Q) (cents : Z),
      Coupon.discountType c = percentage ->
      Coupon.maximumDiscount c = Some m -> ~ m == 0 ->
      m == inject_Z cents / 100 ->
      d <= m).
Proof.
  intros H. apply calculateDiscount_applicable in H as (Hmin & -> & ->).
  set (raw := Coupon.rawDiscount c subtotal).
  pose proof (round_to_cents_bounds raw) as [Hlo Hhi]. cbv zeta in Hlo, Hhi.
  split; [exact Hmin|]. split.
  { exists (Qfloor (raw * 100 + (1 # 2))). reflexivity. }
  split.
  { split; [|]; lra. }
  assert (Hraw_pct : Coupon.discountType c = percentage ->
                     raw <= subtotal * Coupon.discountValue c / 100).
  { intros Hty. unfold raw, Coupon.rawDiscount. rewrite Hty.
    destruct (Coupon.maximumDiscount c) as [m|]; [|apply Qle_refl].
    destruct (JS.truthyNumber (Some m)); [|apply Qle_refl].
    apply Math_min_spec. }
  split.
  { intros Hs Hv Hm. apply Qle_shift_div_l; [reflexivity|].
    setoid_rewrite Qmult_0_l. apply Math_round_nonneg.
    assert (0 <= raw); [|nra].
    unfold raw, Coupon.rawDiscount.
    assert (Hp : 0 <= subtotal * Coupon.discountValue c / 100).
    { apply Qle_shift_div_l; [reflexivity|]. nra. }
    destruct (Coupon.discountType c); [|exact Hv].
    destruct (Coupon.maximumDiscount c) as [m|]; [|exact Hp].
    destruct (JS.truthyNumber (Some m)); [|exact Hp].
    unfold JS.Math_min. destruct (Qle_bool _ _); [exact Hp | apply Hm; reflexivity]. }
  split.
  { intros Hty. specialize (Hraw_pct Hty). lra. }
  intros m cents Hty Hm Hnz Hcents.
  apply (rounded_within_whole_cent_cap raw m cents Hcents).
  apply rawDiscount_within_cap; assumption.
Qed.

Lemma calculateDiscount_quote_bounds_witness :
  exists d f,
    Coupon.calculateDiscount Examples.welcome20 1000 [] []
    = Coupon.Applicable d f /\ d <= 100.
Proof.
  eexists _, _. split; [vm_compute; reflexivity|].
  refine (proj2 (proj2 (proj2 (proj2 (proj2
    (calculateDiscount_quote_bounds Examples.welcome20 1000 [] [] _ _ _)))))
    100 10000%Z eq_refl eq_refl _ _).
  - vm_compute. reflexivity.
  - vm_compute. discriminate.
  - vm_compute. reflexivity.
Defined.

(** ** Quoting a coupon and applying it *)

(** X5: [validateCoupon], asked about the stored subtotal and the products of a
    stored, non-empty cart, and [applyCoupon] reach the same verdict: the same
    refusal (status and reason) and nothing written, or acceptance with the
    same quoted discount and the quoted coupon stored on the cart. *)
Theorem validateCoupon_agrees_with_applyCoupon (db : DB) (userId : ObjectId)
    (code : string) (now : Z) (cart : Cart.t) :
  carts db !! userId = Some cart ->
  Cart.items cart <> [] ->
  let quote :=
    CouponController.validateCoupon db userId code (Cart.subtotal cart)
      (Some (map Cart.product (Cart.items cart))) now in
  let result := CartController.applyCoupon db userId code now in
  match quote with
  | Json status false reason _ => result = (db, fail status reason)
  | Json _ true _ (Some q) =>
      exists saved,
        snd result
        = ok (text "Coupon applied successfully")
             (saved, CouponController.discount q) /\
        carts (fst result) !! userId = Some saved /\
        Cart.coupon saved
        = CartCoupon.mk (Some (CouponController.code q))
            (CouponController.discountValue q)
            (CouponController.discountType q)
  | _ => False
  end.
Proof.
  intros Hcart Hitems. cbv zeta.
  unfold CouponController.validateCoupon, CartController.applyCoupon.
  rewrite Hcart.
  assert (Hlen : (length (Cart.items cart) =? 0)%nat = false).
  { destruct (Cart.items cart); [contradiction | reflexivity]. }
  rewrite Hlen.
  destruct (coupons db !! JS.toUpperCase code) as [coupon|]; [|reflexivity].
  destruct (Coupon.isValid coupon now); [|reflexivity].
  destruct (Coupon.canUserUse coupon userId); [|reflexivity].
  simpl.
  destruct (Coupon.calculateDiscount coupon (Cart.subtotal cart)
              (map Cart.product (Cart.items cart)) []); [|reflexivity].
  simpl. eexists. split; [reflexivity|]. split; [apply lookup_insert_eq|].
  reflexivity.
Qed.

Lemma validateCoupon_agrees_with_applyCoupon_witness :
  CartController.applyCoupon Examples.welcomeShop "alice" "nosuch" 5
  = (Examples.welcomeShop, fail 404 (text "Invalid coupon code")).
Proof.
  exact (validateCoupon_agrees_with_applyCoupon Examples.welcomeShop "alice"
           "nosuch" 5%Z Examples.twoLines eq_refl ltac:(discriminate)).
Defined.

(** X6: The discount stored on the cart after [applyCoupon] is computed by
    [calculateTotals] from the coupon's type and value alone: for a percentage
    coupon it is subtotal x discountValue / 100, whatever [maximumDiscount]
    says.  So when a whole-cent cap is under that amount, the reply quotes the
    cap and the cart stores more. *)
Theorem stored_discount_ignores_cap (db db' : DB) (userId : ObjectId)
    (code : string) (now : Z) (saved : Cart.t) (quoted : Q) :
  CartController.applyCoupon db userId code now
  = (db', ok (text "Coupon applied successfully") (saved, quoted)) ->
  exists (cart : Cart.t) (coupon : Coupon.t),
    carts db !! userId = Some cart /\
    coupons db !! JS.toUpperCase code = Some coupon /\
    Cart.subtotal saved = Cart.sumItems (Cart.items cart) /\
    (Coupon.code coupon <> ""%string ->
     Cart.discount saved
     = match Coupon.discountType coupon with
       | percentage => Cart.subtotal saved * Coupon.discountValue coupon / 100
       | fixed => Coupon.discountValue coupon
       end) /\
    (forall (m : Q) (cents : Z),
        Coupon.code coupon <> ""%string ->
        Coupon.discountType coupon = percentage ->
        Coupon.maximumDiscount coupon = Some m -> ~ m == 0 ->
        m == inject_Z cents / 100 ->
        Cart.subtotal cart = Cart.sumItems (Cart.items cart) ->
        m < Cart.subtotal cart * Coupon.discountValue coupon / 100 ->
        quoted <= m /\ m < Cart.discount saved).
Proof.
  unfold CartController.applyCoupon.
  destruct (carts db !! userId) as [cart|]; [|discriminate].
  destruct (length (Cart.items cart) =? 0)%nat; [discriminate|].
  destruct (coupons db !! JS.toUpperCase code) as [coupon|]; [|discriminate].
  destruct (Coupon.isValid coupon now); [|discriminate].
  destruct (Coupon.canUserUse coupon userId); [|discriminate].
  destruct (Coupon.calculateDiscount coupon (Cart.subtotal cart)
              (map Cart.product (Cart.items cart)) []) as [d f|] eqn:Hd;
    [|discriminate].
  intros H. injection H as <- <- <-.
  exists cart, coupon. split; [reflexivity|]. split; [reflexivity|].
  split; [reflexivity|].
  assert (Hstored : Coupon.code coupon <> ""%string ->
            Cart.discount
              (Cart.save
                 (Cart.set_coupon
                    (CartCoupon.mk (Some (Coupon.code coupon))
                       (Coupon.discountValue coupon) (Coupon.discountType coupon))
                    cart) now)
            = match Coupon.discountType coupon with
              | percentage =>
                  Cart.sumItems (Cart.items cart) * Coupon.discountValue coupon / 100
              | fixed => Coupon.discountValue coupon
              end).
  { intros Hcode. unfold Cart.save, Cart.calculateTotals; simpl.
    destruct (Coupon.code coupon); [contradiction|]. reflexivity. }
  split; [exact Hstored|].
  intros m cents Hcode Hty Hm Hnz Hcents Hfresh Hbind.
  split.
  - apply calculateDiscount_applicable in Hd as (_ & -> & _).
    apply (rounded_within_whole_cent_cap _ m cents Hcents).
    apply rawDiscount_within_cap; assumption.
  - rewrite (Hstored Hcode), Hty, <- Hfresh. exact Hbind.
Qed.

Lemma stored_discount_ignores_cap_witness :
  exists (saved : Cart.t) (quoted : Q),
    snd (CartController.applyCoupon Samples.bulkShop "dana" "welcome20" 5)
    = ok (text "Coupon applied successfully") (saved, quoted) /\
    quoted <= 100 /\ 100 < Cart.discount saved.
Proof.
  assert (E : exists db' saved quoted,
             CartController.applyCoupon Samples.bulkShop "dana" "welcome20" 5
             = (db', ok (text "Coupon applied successfully") (saved, quoted))).
  { eexists _, _, _. vm_compute. reflexivity. }
  destruct E as (db' & saved & quoted & E).
  exists saved, quoted. split; [rewrite E; reflexivity|].
  destruct (stored_discount_ignores_cap _ _ _ _ _ _ _ E)
    as (cart & coupon & Hcart & Hcoupon & _ & _ & Hgap).
  vm_compute in Hcart. injection Hcart as <-.
  vm_compute in Hcoupon. injection Hcoupon as <-.
  apply (Hgap 100 10000%Z); try reflexivity; try discriminate.
Defined.

(** ** The guest cart *)

(** X7: On a cart without a coupon code the totals the browser computes for a
    guest ([calculateCartTotals]) are the totals the server computes
    ([calculateTotals]); with a coupon code the guest totals still carry no
    discount. *)
Theorem guest_totals_agree_without_coupon (cart : Cart.t) :
  let guest := GuestCart.calculateCartTotals cart in
  let server := Cart.calculateTotals cart in
  Cart.items guest = Cart.items server /\
  Cart.subtotal guest = Cart.subtotal server /\
  Cart.shipping guest = Cart.shipping server /\
  Cart.discount guest = 0 /\
  Cart.tax guest == Cart.subtotal guest * 0.08 /\
  Cart.total guest == Cart.subtotal guest + Cart.tax guest + Cart.shipping guest /\
  (JS.truthyString (CartCoupon.code (Cart.coupon cart)) = false ->
   Cart.discount guest = Cart.discount server /\
   Cart.tax guest == Cart.tax server /\
   Cart.total guest == Cart.total server).
Proof.
  cbv zeta. unfold GuestCart.calculateCartTotals, Cart.calculateTotals; simpl.
  repeat split; try reflexivity; try ring.
  all: rewrite H; try reflexivity; ring.
Qed.

Lemma guest_totals_agree_without_coupon_witness :
  Cart.total (GuestCart.calculateCartTotals Examples.twoLines)
  == Cart.total (Cart.calculateTotals Examples.twoLines).
Proof.
  destruct (guest_totals_agree_without_coupon Examples.twoLines)
    as (_ & _ & _ & _ & _ & _ & Hsame).
  destruct (Hsame eq_refl) as (_ & _ & Htotal). exact Htotal.
Defined.

(** ** The markdown percentage of a product *)

(** X8: [getDiscountPercentage] is a whole number between 0 and 100 when the price
    is not negative, and 0 when the compare price is not above the price. *)
Theorem getDiscountPercentage_range (comparePrice price : Q) :
  0 <= price ->
  (exists n : Z,
      ProductPrice.getDiscountPercentage comparePrice price = inject_Z n) /\
  0 <= ProductPrice.getDiscountPercentage comparePrice price <= 100 /\
  (comparePrice <= price ->
   ProductPrice.getDiscountPercentage comparePrice price = 0).
Proof.
  intros Hprice. unfold ProductPrice.getDiscountPercentage, JS.gt.
  destruct (Qle_bool comparePrice price) eqn:E; simpl.
  - split; [exists 0%Z; reflexivity|]. split; [split; [apply Qle_refl|]|reflexivity].
    vm_compute. discriminate.
  - assert (Hlt : price < comparePrice).
    { apply Qnot_le_lt. intros H. apply Qle_bool_iff in H. congruence. }
    assert (Hpos : 0 < comparePrice) by lra.
    set (ratio := (comparePrice - price) / comparePrice).
    assert (H0 : 0 <= ratio).
    { apply Qle_shift_div_l; [exact Hpos | lra]. }
    assert (H1 : ratio <= 1).
    { apply Qle_shift_div_r; [exact Hpos | lra]. }
    split; [eexists; reflexivity|]. split; [split|].
    + apply Math_round_nonneg. lra.
    + apply Qle_trans with (JS.Math_round (inject_Z 100)).
      * apply Math_round_le. change (inject_Z 100) with 100. lra.
      * rewrite Math_round_integer. apply Qle_refl.
    + intros Hle. apply Qle_bool_iff in Hle. congruence.
Qed.

Lemma getDiscountPercentage_range_witness :
  0 <= ProductPrice.getDiscountPercentage 80 60 <= 100.
Proof.
  refine (proj1 (proj2 (getDiscountPercentage_range 80 60 _))).
  vm_compute. discriminate.
Defined.

(** The same half-way case in the markdown: from 10 to 5.45 the exact
    percentage is 45.5, which rounds to 46, while on binary64 numbers the
    quotient times 100 is under 45.5 and the percentage is 45. *)
Example binary64_markdown_half_way :
  ProductPrice.getDiscountPercentage 10 5.45 == 46 /\
  (exists q, Binary64.value Binary64.markdownTo545 = Some q /\ q == 45).
Proof.
  split; [reflexivity|].
  eexists. split; [vm_compute; reflexivity | reflexivity].
Qed.

(** ** Synchronising the cart *)

Lemma omap_length_le {A B : Type} (f : A -> option B) (l : list A) :
  (length (omap f l) <= length l)%nat.
Proof.
  induction l as [|x l IH]; [reflexivity|].
  change (omap f (x :: l))
    with (match f x with Some y => y :: omap f l | None => omap f l end).
  destruct (f x); simpl; lia.
Qed.

Lemma syncEntry_line (ps : gmap ObjectId Product.t) (now : Z)
    (e : CartSync.Entry) (item : Cart.CartItem) :
  CartSync.syncEntry ps now e = Some item ->
  exists product i inv,
    ps !! Cart.product item = Some product /\
    Product.isActive product = true /\
    Product.findSku (Cart.sku item) (Product.inventory product) = Some (i, inv) /\
    0 < Product.quantity inv /\
    Cart.product item = CartSync.productId e /\
    Cart.sku item = CartSync.sku e /\
    Cart.quantity item <= CartSync.quantity e /\
    Cart.quantity item <= Product.quantity inv /\
    (Cart.quantity item = CartSync.quantity e \/
     Cart.quantity item = Product.quantity inv) /\
    Cart.price item = Product.price product.
Proof.
  unfold CartSync.syncEntry.
  destruct (ps !! CartSync.productId e) as [product|] eqn:Hp; [|discriminate].
  destruct (Product.isActive product) eqn:Ha; [|discriminate].
  destruct (Product.findSku (CartSync.sku e) (Product.inventory product))
    as [[i inv]|] eqn:Hf; [|discriminate].
  destruct (JS.gt (Product.quantity inv) 0) eqn:Hq; [|discriminate].
  intros H. injection H as <-. simpl.
  exists product, i, inv.
  destruct (Math_min_spec (CartSync.quantity e) (Product.quantity inv))
    as (H1 & H2 & H3).
  repeat split; try assumption; try reflexivity.
  unfold JS.gt in Hq. apply negb_true_iff in Hq.
  apply Qnot_le_lt. intros H. apply Qle_bool_iff in H. congruence.
Qed.

Lemma syncEntry_made (ps : gmap ObjectId Product.t) (now : Z)
    (e : CartSync.Entry) (product : Product.t) (i : nat)
    (inv : Product.InventoryRecord) :
  ps !! CartSync.productId e = Some product ->
  Product.isActive product = true ->
  Product.findSku (CartSync.sku e) (Product.inventory product) = Some (i, inv) ->
  0 < Product.quantity inv ->
  exists item,
    CartSync.syncEntry ps now e = Some item /\
    Cart.product item = CartSync.productId e /\
    Cart.sku item = CartSync.sku e /\
    Cart.quantity item
    = JS.Math_min (CartSync.quantity e) (Product.quantity inv) /\
    Cart.price item = Product.price product.
Proof.
  intros Hp Ha Hf Hq. unfold CartSync.syncEntry. rewrite Hp, Ha, Hf.
  rewrite (proj2 (JS_gt_true _ _) Hq).
  eexists. split; [reflexivity|]. repeat split.
Qed.

Lemma validItem_false (item : Cart.CartItem) :
  CartSync.validItem item = false <->
  Cart.quantity item < 1 \/ Cart.price item < 0.
Proof.
  unfold CartSync.validItem, JS.ge. rewrite andb_false_iff. split.
  - intros [H|H]; [left|right]; apply Qnot_le_lt; intros Hle;
      apply Qle_bool_iff in Hle; congruence.
  - intros [H|H]; [left|right];
      (destruct (Qle_bool _ _) eqn:E; [|reflexivity]);
      apply Qle_bool_iff in E; exfalso; lra.
Qed.

(** X9: [syncCart] makes a line from every entry of the request whose product
    is active and whose SKU has a positive stock: the line holds the smaller
    of the requested quantity and the stock, at the current price of the
    product.  When one of these lines breaks a validator of the cart item (a
    requested quantity or a stock under 1, a negative price), the save fails:
    the handler throws and writes nothing.  Otherwise the lines replace the
    lines of the cart: every stored line comes from such an entry, every such
    entry has its line, the quantities are at least 1 and within the request
    and the stock, the coupon stays and the totals are recomputed. *)
Theorem syncCart_lines (db : DB) (userId : ObjectId)
    (entries : list CartSync.Entry) (now : Z) :
  let result := CartSync.syncCart db userId entries now in
  let qualifies (e : CartSync.Entry) (product : Product.t)
      (inv : Product.InventoryRecord) :=
    In e entries /\
    products db !! CartSync.productId e = Some product /\
    Product.isActive product = true /\
    (exists i, Product.findSku (CartSync.sku e) (Product.inventory product)
               = Some (i, inv)) /\
    0 < Product.quantity inv in
  let breaks (e : CartSync.Entry) (product : Product.t)
      (inv : Product.InventoryRecord) :=
    CartSync.quantity e < 1 \/ Product.quantity inv < 1 \/
    Product.price product < 0 in
  ((exists e product inv, qualifies e product inv /\ breaks e product inv) ->
   result = (db, Thrown)) /\
  ((forall e product inv, qualifies e product inv -> ~ breaks e product inv) ->
   exists saved,
     result = (set_carts (<[userId := saved]> (carts db)) db,
               ok (text "Cart synced") saved) /\
     Cart.coupon saved
     = Cart.coupon (default (Cart.new userId now) (carts db !! userId)) /\
     (length (Cart.items saved) <= length entries)%nat /\
     Cart.calculateTotals saved = saved /\
     (forall e product inv,
         qualifies e product inv ->
         exists item,
           In item (Cart.items saved) /\
           Cart.product item = CartSync.productId e /\
           Cart.sku item = CartSync.sku e /\
           Cart.quantity item
           = JS.Math_min (CartSync.quantity e) (Product.quantity inv) /\
           Cart.price item = Product.price product) /\
     Forall
       (fun item =>
          exists e product i inv,
            In e entries /\
            Cart.product item = CartSync.productId e /\
            Cart.sku item = CartSync.sku e /\
            products db !! Cart.product item = Some product /\
            Product.isActive product = true /\
            Product.findSku (Cart.sku item) (Product.inventory product)
            = Some (i, inv) /\
            1 <= Cart.quantity item /\
            Cart.quantity item <= CartSync.quantity e /\
            Cart.quantity item <= Product.quantity inv /\
            Cart.price item = Product.price product)
       (Cart.items saved)).
Proof.
  cbv zeta. unfold CartSync.syncCart.
  destruct (forallb CartSync.validItem
              (omap (CartSync.syncEntry (products db) now) entries)) eqn:Hv.
  - split.
    + intros (e & product & inv & (He & Hp & Ha & (i & Hf) & Hq) & Hbad).
      exfalso.
      destruct (syncEntry_made (products db) now e product i inv Hp Ha Hf Hq)
        as (item & Hsync & _ & _ & Hqty & Hprice).
      assert (Hin : item ∈ omap (CartSync.syncEntry (products db) now) entries).
      { apply list_elem_of_omap. exists e. split; [|exact Hsync].
        apply list_elem_of_In. exact He. }
      rewrite forallb_forall in Hv.
      assert (Hok := Hv item (proj1 (list_elem_of_In _ _) Hin)).
      assert (Hno : CartSync.validItem item = false).
      { apply validItem_false. rewrite Hqty, Hprice.
        destruct (Math_min_spec (CartSync.quantity e) (Product.quantity inv))
          as (H1 & H2 & _).
        destruct Hbad as [H|[H|H]]; [left; lra | left; lra | right; exact H]. }
      congruence.
    + intros _. eexists. split; [reflexivity|]. split; [reflexivity|].
      split; [apply omap_length_le|]. split; [reflexivity|]. simpl. split.
      * intros e product inv (He & Hp & Ha & (i & Hf) & Hq).
        destruct (syncEntry_made (products db) now e product i inv Hp Ha Hf Hq)
          as (item & Hsync & H1 & H2 & H3 & H4).
        exists item. split; [|auto].
        apply list_elem_of_In. apply list_elem_of_omap.
        exists e. split; [apply list_elem_of_In; exact He | exact Hsync].
      * apply Forall_forall. intros item Hin.
        assert (Hvalid : CartSync.validItem item = true).
        { rewrite forallb_forall in Hv. apply Hv. apply list_elem_of_In. exact Hin. }
        apply list_elem_of_omap in Hin as (e & He & Hsync).
        destruct (syncEntry_line _ _ _ _ Hsync)
          as (product & i & inv & Hp & Ha & Hf & _ & Hpid & Hsku & Hq1 & Hq2 & _
              & Hprice).
        exists e, product, i, inv.
        unfold CartSync.validItem in Hvalid.
        apply andb_true_iff in Hvalid as [Hone _]. apply JS_ge_true in Hone.
        repeat split; try assumption. apply list_elem_of_In. exact He.
  - split; [intros _; reflexivity|].
    intros Hnone. exfalso.
    assert (Hex : exists item,
               In item (omap (CartSync.syncEntry (products db) now) entries) /\
               CartSync.validItem item = false).
    { clear Hnone.
      induction (omap (CartSync.syncEntry (products db) now) entries)
        as [|x l IH]; [discriminate|].
      simpl in Hv. apply andb_false_iff in Hv as [Hx|Hl].
      - exists x. split; [left; reflexivity | exact Hx].
      - destruct (IH Hl) as (item & Hin & Hitem).
        exists item. split; [right; exact Hin | exact Hitem]. }
    destruct Hex as (item & Hin & Hbad).
    apply list_elem_of_In in Hin.
    apply list_elem_of_omap in Hin as (e & He & Hsync).
    destruct (syncEntry_line _ _ _ _ Hsync)
      as (product & i & inv & Hp & Ha & Hf & Hq & Hpid & Hsku & _ & _ & Hmin
          & Hprice).
    apply validItem_false in Hbad.
    apply (Hnone e product inv).
    + split; [apply list_elem_of_In; exact He|].
      rewrite <- Hpid, <- Hsku. split; [exact Hp|]. split; [exact Ha|].
      split; [eauto | exact Hq].
    + rewrite <- Hprice. destruct Hbad as [Hbad|Hbad]; [|tauto].
      destruct Hmin as [Hm|Hm]; rewrite Hm in Hbad; tauto.
Qed.

Lemma syncCart_lines_witness :
  exists saved item,
    CartSync.syncCart Examples.shop "bob"
      [CartSync.mkEntry "p-mug" "MUG-1" 9 None "s1";
       CartSync.mkEntry "p-gone" "X" 1 None "s2"] 7
    = (set_carts (<["bob"%string := saved]> (carts Examples.shop)) Examples.shop,
       ok (text "Cart synced") saved) /\
    Cart.items saved = [item] /\
    Cart.sku item = "MUG-1"%string /\ Cart.quantity item == 4.
Proof.
  destruct (proj2 (syncCart_lines Examples.shop "bob"
                     [CartSync.mkEntry "p-mug" "MUG-1" 9 None "s1";
                      CartSync.mkEntry "p-gone" "X" 1 None "s2"] 7%Z))
    as (saved & Hres & _).
  - intros e product inv (He & Hp & _ & (i & Hf) & _) Hbad.
    destruct He as [<-|[<-|[]]]; vm_compute in Hp; [|discriminate].
    injection Hp as <-. vm_compute in Hf. injection Hf as _ <-.
    destruct Hbad as [H|[H|H]]; vm_compute in H; discriminate.
  - exists saved. eexists.
    split; [exact Hres|].
    assert (E : saved
                = snd (match snd (CartSync.syncCart Examples.shop "bob"
                         [CartSync.mkEntry "p-mug" "MUG-1" 9 None "s1";
                          CartSync.mkEntry "p-gone" "X" 1 None "s2"] 7) with
                       | Json _ _ _ (Some c) => (tt, c)
                       | _ => (tt, saved)
                       end)).
    { rewrite Hres. reflexivity. }
    rewrite E. split; [vm_compute; reflexivity|].
    split; reflexivity.
Defined.

(** ** Sums under a write and an append *)

Section ReduceSum.
Context {A : Type} (f : A -> Q).

Let total (l : list A) : Q := fold_left (fun sum x => sum + f x) l 0.

Lemma reduce_cons (x : A) (l : list A) : total (x :: l) == f x + total l.
Proof.
  unfold total. simpl. rewrite (fold_left_Qplus_shift f l (0 + f x)). ring.
Qed.

Lemma reduce_app (l1 l2 : list A) : total (l1 ++ l2) == total l1 + total l2.
Proof.
  induction l1 as [|x l1 IH]; simpl.
  - unfold total at 2. simpl. ring.
  - change (total (x :: l1 ++ l2) == total (x :: l1) + total l2).
    rewrite !reduce_cons, IH. ring.
Qed.

Lemma reduce_insert (l : list A) (i : nat) (x y : A) :
  l !! i = Some x -> total (<[i := y]> l) == total l - f x + f y.
Proof.
  revert i. induction l as [|a l IH]; intros i Hi; [discriminate|].
  destruct i as [|i]; simpl in Hi.
  - injection Hi as ->. change (<[0%nat := y]> (x :: l)) with (y :: l).
    rewrite !reduce_cons. ring.
  - change (<[S i := y]> (a :: l)) with (a :: <[i := y]> l).
    rewrite !reduce_cons, (IH i Hi). ring.
Qed.

Lemma reduce_nonneg (l : list A) : Forall (fun x => 0 <= f x) l -> 0 <= total l.
Proof.
  intros H. unfold total. apply fold_left_Qplus_nonneg; [apply Qle_refl | exact H].
Qed.

Lemma reduce_member_le (l : list A) (i : nat) (x : A) :
  Forall (fun z => 0 <= f z) l -> l !! i = Some x -> f x <= total l.
Proof.
  revert i. induction l as [|a l IH]; intros i Hall Hi; [discriminate|].
  inversion Hall as [|? ? Ha Hl]; subst. rewrite reduce_cons.
  destruct i as [|i]; simpl in Hi.
  - injection Hi as ->. pose proof (reduce_nonneg l Hl). lra.
  - pose proof (IH i Hl Hi). lra.
Qed.

Lemma reduce_positive_member (l : list A) :
  0 < total l -> exists i x, l !! i = Some x /\ 0 < f x.
Proof.
  induction l as [|a l IH]; intros H.
  - unfold total in H. simpl in H. exfalso. exact (Qlt_irrefl 0 H).
  - rewrite reduce_cons in H.
    destruct (Qlt_le_dec 0 (f a)) as [Ha|Ha].
    + exists 0%nat, a. split; [reflexivity | exact Ha].
    + destruct IH as (i & x & Hi & Hx); [lra|].
      exists (S i), x. split; [exact Hi | exact Hx].
Qed.

End ReduceSum.

(** ** Adding to the cart *)

(** X10: [Cart.addItem] raises the item count by the quantity added.  When the
    cart already holds a line for the product and SKU, that line absorbs the
    quantity and keeps its own price, whatever the product costs now, and no
    line is added; otherwise one line is appended at the product's price.  The
    subtotal grows by that price times the quantity. *)
Theorem addItem_merges_and_keeps_price (c : Cart.t) (p : Product.t) (s : string)
    (qty : Q) (details : option (gmap string string)) (freshId : ObjectId)
    (now : Z) :
  let c' := Cart.addItem c p s qty details freshId now in
  Cart.getItemCount c' == Cart.getItemCount c + qty /\
  match list_find
          (fun item => Cart.product item = Product._id p /\ Cart.sku item = s)
          (Cart.items c) with
  | Some (i, line) =>
      length (Cart.items c') = length (Cart.items c) /\
      (exists line',
          Cart.items c' !! i = Some line' /\
          Cart.price line' = Cart.price line /\
          Cart.quantity line' = Cart.quantity line + qty) /\
      (forall j, j <> i -> Cart.items c' !! j = Cart.items c !! j) /\
      Cart.subtotal c' == Cart.sumItems (Cart.items c) + Cart.price line * qty
  | None =>
      (exists line',
          Cart.items c' = Cart.items c ++ [line'] /\
          Cart._id line' = freshId /\
          Cart.price line' = Product.price p /\
          Cart.quantity line' = qty) /\
      Cart.subtotal c' == Cart.sumItems (Cart.items c) + Product.price p * qty
  end.
Proof.
  cbv zeta. unfold Cart.addItem, Cart.getItemCount.
  destruct (list_find _ (Cart.items c)) as [[i line]|] eqn:Hf.
  - pose proof Hf as Hf'. apply list_find_Some in Hf' as (Hi & _ & _).
    simpl. split.
    { rewrite (reduce_insert Cart.quantity _ i line _ Hi). simpl. ring. }
    split; [apply length_insert|]. split.
    { exists (Cart.set_itemQuantity (Cart.quantity line + qty) line).
      split; [|split; reflexivity].
      apply list_lookup_insert_eq. eapply lookup_lt_Some; exact Hi. }
    split.
    { intros j Hj. apply list_lookup_insert_ne. congruence. }
    unfold Cart.sumItems.
    rewrite (reduce_insert (fun item => Cart.price item * Cart.quantity item)
               _ i line _ Hi).
    simpl. ring.
  - simpl. split.
    { rewrite (reduce_app Cart.quantity). simpl. ring. }
    split.
    { eexists. split; [reflexivity|]. repeat split. }
    unfold Cart.sumItems.
    rewrite (reduce_app (fun item => Cart.price item * Cart.quantity item)).
    simpl. ring.
Qed.

Lemma addItem_merges_and_keeps_price_witness :
  Cart.getItemCount
    (Cart.addItem Examples.twoLines Examples.mug "MUG-1" 2 None "i3" 9)
  == Cart.getItemCount Examples.twoLines + 2.
Proof.
  exact (proj1 (addItem_merges_and_keeps_price Examples.twoLines Examples.mug
                  "MUG-1" 2 None "i3" 9%Z)).
Defined.

(** X11: The handler [addItem] never stores more of a SKU than is in stock: after a
    successful request the cart's line for the product and SKU holds at most
    the inventory quantity of that SKU, the product is active, and the
    products are untouched.  Every refusal leaves the collections as they
    were. *)
Theorem addItem_never_exceeds_stock (db : DB) (userId productId : ObjectId)
    (s : string) (qty : Q) (details : option (gmap string string))
    (freshId : ObjectId) (now : Z) :
  let result :=
    CartController.addItem db userId productId s qty details freshId now in
  match snd result with
  | Json _ true _ (Some saved) =>
      products (fst result) = products db /\
      carts (fst result) !! userId = Some saved /\
      exists product i inv j line,
        products db !! productId = Some product /\
        Product.isActive product = true /\
        Product.findSku s (Product.inventory product) = Some (i, inv) /\
        list_find
          (fun item => Cart.product item = productId /\ Cart.sku item = s)
          (Cart.items saved) = Some (j, line) /\
        Cart.quantity line <= Product.quantity inv
  | _ => fst result = db
  end.
Proof.
  cbv zeta. unfold CartController.addItem.
  destruct (products db !! productId) as [product|] eqn:Hp; [|reflexivity].
  destruct (Product.isActive product) eqn:Ha; [|reflexivity]. simpl.
  destruct (Product.findSku s (Product.inventory product)) as [[i inv]|] eqn:Hinv;
    [|reflexivity].
  destruct (JS.lt (Product.quantity inv) qty) eqn:Hq; [reflexivity|].
  apply JS_lt_false in Hq.
  set (cart := default (Cart.new userId now) (carts db !! userId)).
  destruct (list_find _ (Cart.items cart)) as [[k item]|] eqn:Hf.
  - destruct (JS.lt (Product.quantity inv) (Cart.quantity item + qty)) eqn:Hq2;
      [reflexivity|].
    apply JS_lt_false in Hq2. simpl.
    split; [reflexivity|]. split; [apply lookup_insert_eq|].
    apply list_find_Some in Hf as (Hk & Hmatch & Hbefore).
    exists product, i, inv, k,
      (Cart.set_itemQuantity (Cart.quantity item + qty) item).
    repeat split; try assumption; try reflexivity.
    apply list_find_Some. split; [|split].
    + apply list_lookup_insert_eq. eapply lookup_lt_Some; exact Hk.
    + exact Hmatch.
    + intros j y Hj Hlt. rewrite list_lookup_insert_ne in Hj by lia.
      eapply Hbefore; eassumption.
  - simpl. split; [reflexivity|]. split; [apply lookup_insert_eq|].
    apply list_find_None in Hf.
    eexists product, i, inv, (length (Cart.items cart)), _.
    repeat split; try assumption; try reflexivity.
    + apply list_find_Some. split; [|split].
      * rewrite lookup_app_r by lia. rewrite Nat.sub_diag. reflexivity.
      * split; reflexivity.
      * intros j y Hj Hlt. rewrite lookup_app_l in Hj by exact Hlt.
        rewrite Forall_forall in Hf. apply Hf.
        eapply list_elem_of_lookup_2; exact Hj.
    + exact Hq.
Qed.

(** ** Removing a line *)





(** ** Changing the quantity of a line *)

(** X13: [updateItemQuantity] on a stored line whose product exists with
    non-negative stock.  A quantity that is not positive removes the line: the
    collections end up as [removeItem] leaves them.  A positive quantity over
    the stock of the line's SKU is refused and nothing is written; a positive
    quantity within the stock (or for a SKU the product no longer carries) is
    written to the line and to no other (the schema asks for a quantity of at
    least 1). *)
Theorem updateItemQuantity_cases (db : DB) (userId itemId : ObjectId) (qty : Q)
    (now : Z) (cart : Cart.t) (i : nat) (line : Cart.CartItem)
    (product : Product.t) :
  carts db !! userId = Some cart ->
  Cart.itemById itemId (Cart.items cart) = Some (i, line) ->
  products db !! Cart.product line = Some product ->
  Forall (fun inv => 0 <= Product.quantity inv) (Product.inventory product) ->
  let result := CartController.updateItemQuantity db userId itemId qty now in
  (qty <= 0 ->
   fst result = fst (CartController.removeItem db userId itemId now)) /\
  (forall j inv,
      Product.findSku (Cart.sku line) (Product.inventory product) = Some (j, inv) ->
      Product.quantity inv < qty ->
      result = (db, fail 400 (CartController.onlyInStock (Product.quantity inv)))) /\
  (1 <= qty ->
   (forall j inv,
       Product.findSku (Cart.sku line) (Product.inventory product) = Some (j, inv) ->
       qty <= Product.quantity inv) ->
   exists saved,
     result = (set_carts (<[userId := saved]> (carts db)) db,
               ok (text "Cart updated") saved) /\
     Cart.items saved = <[i := Cart.set_itemQuantity qty line]> (Cart.items cart) /\
     Cart.items saved !! i = Some (Cart.set_itemQuantity qty line)).
Proof.
  intros Hcart Hitem Hprod Hstock. cbv zeta.
  unfold CartController.updateItemQuantity, CartController.removeItem.
  rewrite Hcart, Hitem, Hprod.
  split; [|split].
  - intros Hq.
    assert (Hpass : match Product.findSku (Cart.sku line) (Product.inventory product) with
                    | Some (_, inv) =>
                        if JS.lt (Product.quantity inv) qty
                        then Some (CartController.onlyInStock (Product.quantity inv))
                        else None
                    | None => None
                    end = None).
    { destruct (Product.findSku _ _) as [[j inv]|] eqn:Hf; [|reflexivity].
      apply list_find_Some in Hf as (Hj & _ & _).
      rewrite Forall_forall in Hstock.
      assert (H0 : 0 <= Product.quantity inv)
        by (apply Hstock; eapply list_elem_of_lookup_2; exact Hj).
      assert (E : JS.lt (Product.quantity inv) qty = false)
        by (apply JS_lt_false; lra).
      rewrite E. reflexivity. }
    rewrite Hpass.
    assert (E : JS.le qty 0 = true) by (apply Qle_bool_iff; exact Hq).
    rewrite E. reflexivity.
  - intros j inv Hf Hlt. rewrite Hf.
    assert (E : JS.lt (Product.quantity inv) qty = true) by (apply JS_lt_true; exact Hlt).
    rewrite E. reflexivity.
  - intros Hpos Hfit.
    assert (Hpass : match Product.findSku (Cart.sku line) (Product.inventory product) with
                    | Some (_, inv) =>
                        if JS.lt (Product.quantity inv) qty
                        then Some (CartController.onlyInStock (Product.quantity inv))
                        else None
                    | None => None
                    end = None).
    { destruct (Product.findSku _ _) as [[j inv]|] eqn:Hf; [|reflexivity].
      assert (E : JS.lt (Product.quantity inv) qty = false)
        by (apply JS_lt_false; eapply Hfit; reflexivity).
      rewrite E. reflexivity. }
    rewrite Hpass.
    assert (E : JS.le qty 0 = false).
    { unfold JS.le. destruct (Qle_bool qty 0) eqn:E0; [|reflexivity].
      apply Qle_bool_iff in E0. exfalso. lra. }
    rewrite E. eexists. split; [reflexivity|]. split; [reflexivity|].
    simpl. apply list_lookup_insert_eq.
    apply list_find_Some in Hitem as (Hi & _). eapply lookup_lt_Some; exact Hi.
Qed.

Lemma updateItemQuantity_cases_witness :
  fst (CartController.updateItemQuantity Examples.shop "bob" "i1" 0 9)
  = fst (CartController.removeItem Examples.shop "bob" "i1" 9).
Proof.
  refine (proj1 (updateItemQuantity_cases Examples.shop "bob" "i1" 0 9%Z
                   (Cart.addItem (Cart.new "bob" 0) Examples.pen "PEN-B" 1 None "i1" 1)
                   0%nat _ Examples.pen eq_refl eq_refl eq_refl _) _).
  - repeat constructor. vm_compute. discriminate.
  - apply Qle_refl.
Defined.

(** ** Applying and removing a coupon *)

(** X14: [removeCoupon] undoes [applyCoupon]: a stored cart with fresh totals and no
    coupon is, after a successful [applyCoupon] followed by [removeCoupon],
    the cart it was, apart from the time stamp. *)
Theorem removeCoupon_undoes_applyCoupon (db db1 : DB) (userId : ObjectId)
    (code : string) (now now' : Z) (cart saved : Cart.t) (quoted : Q) :
  carts db !! userId = Some cart ->
  Cart.coupon cart = Cart.noCoupon ->
  Cart.calculateTotals cart = cart ->
  CartController.applyCoupon db userId code now
  = (db1, ok (text "Coupon applied successfully") (saved, quoted)) ->
  carts (fst (CartController.removeCoupon db1 userId now')) !! userId
  = Some (Cart.set_lastUpdated now' cart).
Proof.
  intros Hcart Hnone Hfresh. unfold CartController.applyCoupon. rewrite Hcart.
  destruct (length (Cart.items cart) =? 0)%nat; [discriminate|].
  destruct (coupons db !! JS.toUpperCase code) as [coupon|]; [|discriminate].
  destruct (Coupon.isValid coupon now); [|discriminate].
  destruct (Coupon.canUserUse coupon userId); [|discriminate].
  destruct (Coupon.calculateDiscount _ _ _ _); [|discriminate].
  intros H. injection H as <- <- _.
  unfold CartController.removeCoupon. simpl. rewrite lookup_insert_eq. simpl.
  rewrite lookup_insert_eq. f_equal.
  rewrite <- Hfresh at 2.
  destruct cart as [u items coupon0 sub disc tax ship tot upd].
  simpl in Hnone. subst coupon0. reflexivity.
Qed.

Lemma removeCoupon_undoes_applyCoupon_witness :
  exists back,
    carts (fst (CartController.removeCoupon
                  (fst (CartController.applyCoupon Examples.welcomeShop
                          "alice" "welcome20" 5)) "alice" 6)) !! "alice"
    = Some back /\
    Cart.total back = Cart.total Examples.twoLines.
Proof.
  assert (E : exists db1 saved quoted,
             CartController.applyCoupon Examples.welcomeShop "alice" "welcome20" 5
             = (db1, ok (text "Coupon applied successfully") (saved, quoted))).
  { eexists _, _, _. vm_compute. reflexivity. }
  destruct E as (db1 & saved & quoted & E).
  exists (Cart.set_lastUpdated 6 Examples.twoLines). split; [|reflexivity].
  rewrite E. simpl.
  exact (removeCoupon_undoes_applyCoupon Examples.welcomeShop db1 "alice"
           "welcome20" 5%Z 6%Z Examples.twoLines saved quoted
           eq_refl eq_refl eq_refl E).
Defined.

(** ** The stock flags of a product *)

(** X15: On a product whose cached total is the sum of its non-negative inventory
    quantities, the two stock flags agree: a SKU in stock puts the product in
    stock, and, when no SKU occurs twice, a product in stock has a SKU in
    stock. *)
Theorem stock_flags_agree (p : Product.t) :
  Product.totalConsistent p ->
  Forall (fun inv => 0 <= Product.quantity inv) (Product.inventory p) ->
  (forall s, Product.isVariantInStock p s = true -> Product.isInStock p = true) /\
  (NoDup (map Product.sku (Product.inventory p)) ->
   Product.isInStock p = true ->
   exists s, Product.isVariantInStock p s = true).
Proof.
  intros Htotal Hall. unfold Product.isInStock, Product.isVariantInStock.
  rewrite Htotal. unfold Product.sumQuantity. split.
  - intros s H.
    destruct (Product.findSku s (Product.inventory p)) as [[i r]|] eqn:Hf;
      [|discriminate].
    apply list_find_Some in Hf as (Hi & _). apply JS_gt_true in H.
    apply JS_gt_true.
    pose proof (reduce_member_le Product.quantity _ i r Hall Hi) as Hle.
    cbv beta zeta in Hle. lra.
  - intros Hnodup H. apply JS_gt_true in H.
    destruct (reduce_positive_member Product.quantity _ H) as (i & r & Hi & Hr).
    exists (Product.sku r).
    assert (Hf : Product.findSku (Product.sku r) (Product.inventory p)
                 = Some (i, r)).
    { apply list_find_Some. split; [exact Hi|]. split; [reflexivity|].
      intros j y Hj Hlt Heq.
      assert (j = i); [|lia].
      apply (NoDup_lookup _ j i (Product.sku r) Hnodup).
      - rewrite list_lookup_fmap, Hj. simpl. rewrite Heq. reflexivity.
      - rewrite list_lookup_fmap, Hi. reflexivity. }
    rewrite Hf. apply JS_gt_true. exact Hr.
Qed.

Lemma stock_flags_agree_witness :
  Product.isInStock Examples.mug = true.
Proof.
  refine (proj1 (stock_flags_agree Examples.mug eq_refl _) "MUG-1"%string eq_refl).
  repeat constructor. vm_compute. discriminate.
Defined.

(** ** The admin routes of an order *)

Lemma findOrder_saveOrder_same (b : Backend) (id : ObjectId)
    (doc : Order.t * OrderDetails.t) :
  findOrder (saveOrder b id doc) id = Some doc.
Proof.
  unfold findOrder, saveOrder. simpl. rewrite !lookup_insert_eq.
  destruct doc. reflexivity.
Qed.

Lemma findOrder_saveOrder_other (b : Backend) (id other : ObjectId)
    (doc : Order.t * OrderDetails.t) :
  other <> id -> findOrder (saveOrder b id doc) other = findOrder b other.
Proof.
  intros Hne. unfold findOrder, saveOrder. simpl.
  rewrite !lookup_insert_ne by congruence. reflexivity.
Qed.

(** X16: [updateOrderStatus] checks no transition: a stored order takes whatever
    status the admin names, from whatever status it has, and gains one
    timeline entry carrying that status.  Products, carts and coupons are not
    touched, so a cancellation through this route restores no stock. *)
Theorem updateOrderStatus_checks_no_transition (b : Backend) (id : ObjectId)
    (status : Order.Status) (description : option string) (adminId : ObjectId)
    (now : Z) (order : Order.t) (details : OrderDetails.t) :
  findOrder b id = Some (order, details) ->
  let result := OrderAdmin.updateOrderStatus b id status description adminId now in
  exists order' entry,
    snd result = ok (text "Order status updated") (order', details) /\
    findOrder (fst result) id = Some (order', details) /\
    Order.status order' = status /\
    Order.timeline order' = Order.timeline order ++ [entry] /\
    TimelineEvent.status entry = Order.statusName status /\
    TimelineEvent.updatedBy entry = Some adminId /\
    Order.items order' = Order.items order /\
    products (store (fst result)) = products (store b) /\
    carts (store (fst result)) = carts (store b) /\
    coupons (store (fst result)) = coupons (store b).
Proof.
  intros Hfind. cbv zeta. unfold OrderAdmin.updateOrderStatus. rewrite Hfind.
  simpl. eexists _, _. split; [reflexivity|].
  split; [apply findOrder_saveOrder_same|]. repeat split.
Qed.

Lemma updateOrderStatus_checks_no_transition_witness :
  exists order' entry,
    snd (OrderAdmin.updateOrderStatus Samples.office "o2" Order.pending None
           "admin" 30)
    = ok (text "Order status updated") (order', Samples.paidDetails) /\
    Order.status order' = Order.pending /\
    TimelineEvent.status entry = "pending"%string.
Proof.
  destruct (updateOrderStatus_checks_no_transition Samples.office "o2"
              Order.pending None "admin" 30%Z
              (Order.mk "o2" "bob" [] Order.delivered [] 10)
              Samples.paidDetails eq_refl)
    as (order' & entry & Hres & _ & Hst & _ & Hentry & _).
  exists order', entry. split; [exact Hres|]. split; [exact Hst | exact Hentry].
Defined.

(** X17: [processRefund] on a stored order.  An amount over the order total is
    refused and nothing is written.  Otherwise the amount and the time are
    stamped on the payment; an amount equal to the total marks payment and
    order as refunded, a smaller one marks the payment as partially refunded
    and leaves the order status alone.  Either way the timeline gains one
    entry with status "refunded", and pricing, items and products are as
    before: a refund restores no stock. *)
Theorem processRefund_cases (b : Backend) (id : ObjectId) (amount : Q)
    (reason : string) (now : Z) (order : Order.t) (details : OrderDetails.t) :
  findOrder b id = Some (order, details) ->
  let total := Pricing.total (OrderDetails.pricing details) in
  let result := OrderAdmin.processRefund b id amount reason now in
  (total < amount ->
   result = (b, fail 400 (text "Refund amount cannot exceed order total"))) /\
  (amount <= total ->
   exists order' details' entry,
     snd result = ok (text "Refund processed successfully") (order', details') /\
     findOrder (fst result) id = Some (order', details') /\
     Payment.refundAmount (OrderDetails.payment details') = amount /\
     Payment.refundedAt (OrderDetails.payment details') = Some now /\
     (amount == total ->
      Payment.status (OrderDetails.payment details') = Payment.refunded /\
      Order.status order' = Order.refunded) /\
     (amount < total ->
      Payment.status (OrderDetails.payment details') = Payment.partially_refunded /\
      Order.status order' = Order.status order) /\
     Order.timeline order' = Order.timeline order ++ [entry] /\
     TimelineEvent.status entry = "refunded"%string /\
     OrderDetails.pricing details' = OrderDetails.pricing details /\
     Order.items order' = Order.items order /\
     products (store (fst result)) = products (store b)).
Proof.
  intros Hfind. cbv zeta. unfold OrderAdmin.processRefund. rewrite Hfind.
  split.
  - intros Hlt.
    assert (E : JS.gt amount (Pricing.total (OrderDetails.pricing details)) = true)
      by (apply JS_gt_true; exact Hlt).
    rewrite E. reflexivity.
  - intros Hle.
    assert (E : JS.gt amount (Pricing.total (OrderDetails.pricing details)) = false).
    { destruct (JS.gt amount _) eqn:E0; [|reflexivity].
      apply JS_gt_true in E0. exfalso. exact (Qlt_not_le _ _ E0 Hle). }
    rewrite E. simpl.
    eexists _, _, _. split; [reflexivity|].
    split; [apply findOrder_saveOrder_same|].
    split; [reflexivity|]. split; [reflexivity|]. split; [|split].
    + intros Heq.
      assert (Ege : JS.ge amount (Pricing.total (OrderDetails.pricing details)) = true)
        by (apply JS_ge_true; rewrite Heq; apply Qle_refl).
      simpl. rewrite Ege. split; reflexivity.
    + intros Hlt.
      assert (Ege : JS.ge amount (Pricing.total (OrderDetails.pricing details)) = false).
      { destruct (JS.ge amount _) eqn:E0; [|reflexivity].
        apply JS_ge_true in E0. exfalso. exact (Qlt_not_le _ _ Hlt E0). }
      simpl. rewrite Ege. split; reflexivity.
    + repeat split.
Qed.

Lemma processRefund_cases_witness :
  exists order' details',
    snd (OrderAdmin.processRefund Samples.office "o2" 10 "damaged" 40)
    = ok (text "Refund processed successfully") (order', details') /\
    Payment.status (OrderDetails.payment details') = Payment.partially_refunded /\
    Order.status order' = Order.delivered.
Proof.
  destruct (proj2 (processRefund_cases Samples.office "o2" 10 "damaged" 40%Z
                     (Order.mk "o2" "bob" [] Order.delivered [] 10)
                     Samples.paidDetails eq_refl))
    as (order' & details' & entry & Hres & _ & _ & _ & _ & Hpart & _).
  - vm_compute. discriminate.
  - exists order', details'. split; [exact Hres|].
    apply Hpart. vm_compute. reflexivity.
Defined.

(** ** What no route does to an order *)

Lemma orderExtends_refl (doc : Order.t * OrderDetails.t) : orderExtends doc doc.
Proof.
  unfold orderExtends. split; [reflexivity|]. split; [lia|]. auto.
Qed.

Lemma orderExtends_push (order order' : Order.t) (details details' : OrderDetails.t)
    (entry : TimelineEvent.t) :
  Order.timeline order' = Order.timeline order ++ [entry] ->
  Order.items order' = Order.items order ->
  Order.user order' = Order.user order ->
  OrderDetails.pricing details' = OrderDetails.pricing details ->
  orderExtends (order, details) (order', details').
Proof.
  intros Ht Hi Hu Hp. unfold orderExtends; simpl. rewrite Ht.
  split; [apply prefix_app_r; reflexivity|].
  split; [rewrite length_app; simpl; lia|]. auto.
Qed.

Lemma findOrder_after_save (b : Backend) (id oid : ObjectId)
    (old doc found : Order.t * OrderDetails.t) :
  findOrder b id = Some old ->
  findOrder b oid = Some found ->
  orderExtends old doc ->
  exists doc', findOrder (saveOrder b id doc) oid = Some doc' /\
               orderExtends found doc'.
Proof.
  intros Hid Hoid Hext. destruct (decide (oid = id)) as [->|Hne].
  - rewrite Hid in Hoid. injection Hoid as <-.
    exists doc. split; [apply findOrder_saveOrder_same | exact Hext].
  - exists found. split; [|apply orderExtends_refl].
    rewrite findOrder_saveOrder_other by exact Hne. exact Hoid.
Qed.

(** X18: The order history is append-only and the snapshot is frozen: whatever the
    request (status update, refund, payment update, cancellation) and
    whichever order it names, every stored order is still stored afterwards,
    its timeline is the old one with at most one entry added at the end, and
    its items, owner and pricing are unchanged. *)
Theorem order_history_is_append_only (req : OrderAdmin.Request)
    (actor id : ObjectId) (now : Z) (b : Backend) (oid : ObjectId)
    (order : Order.t) (details : OrderDetails.t) :
  findOrder b oid = Some (order, details) ->
  exists order' details',
    findOrder (OrderAdmin.handle req actor id now b) oid = Some (order', details') /\
    Order.timeline order `prefix_of` Order.timeline order' /\
    (length (Order.timeline order') <= S (length (Order.timeline order)))%nat /\
    Order.items order' = Order.items order /\
    Order.user order' = Order.user order /\
    OrderDetails.pricing details' = OrderDetails.pricing details.
Proof.
  intros Hoid.
  assert (Hgoal : exists doc',
             findOrder (OrderAdmin.handle req actor id now b) oid = Some doc' /\
             orderExtends (order, details) doc').
  { assert (Hsame : exists doc', findOrder b oid = Some doc' /\
                                 orderExtends (order, details) doc')
      by (exists (order, details); split; [exact Hoid | apply orderExtends_refl]).
    destruct req as [status description|amount reason|status tx|reason]; simpl.
    - unfold OrderAdmin.updateOrderStatus.
      destruct (findOrder b id) as [[o d]|] eqn:Hid; [|exact Hsame]. simpl.
      apply (findOrder_after_save b id oid (o, d) _ _ Hid Hoid).
      eapply orderExtends_push; reflexivity.
    - unfold OrderAdmin.processRefund.
      destruct (findOrder b id) as [[o d]|] eqn:Hid; [|exact Hsame].
      destruct (JS.gt amount _); [exact Hsame|]. simpl.
      apply (findOrder_after_save b id oid (o, d) _ _ Hid Hoid).
      eapply orderExtends_push; reflexivity.
    - unfold OrderAdmin.updatePaymentStatus.
      destruct (findOrder b id) as [[o d]|] eqn:Hid; [|exact Hsame].
      destruct (Payment.parseStatus status); [|exact Hsame]. simpl.
      apply (findOrder_after_save b id oid (o, d) _ _ Hid Hoid).
      unfold orderExtends; simpl. split; [reflexivity|]. split; [lia|]. auto.
    - unfold findOrder in *. simpl.
      unfold OrderController.cancelOrder.
      destruct (orders (store b) !! id) as [o|] eqn:Hid; [|exact Hsame].
      destruct (negb (bool_decide (Order.user o = actor))); [exact Hsame|].
      destruct (negb (OrderController.cancellable (Order.status o)));
        [exact Hsame|].
      simpl. destruct (decide (oid = id)) as [->|Hne].
      + rewrite lookup_insert_eq. rewrite Hid in Hoid.
        destruct (orderDetails b !! id) as [d|]; [|discriminate].
        injection Hoid as <- <-. eexists. split; [reflexivity|].
        eapply orderExtends_push; reflexivity.
      + rewrite lookup_insert_ne by congruence. exact Hsame. }
  destruct Hgoal as ([order' details'] & Hf & Hp & Hl & Hi & Hu & Hpr).
  exists order', details'. simpl in *. auto 10.
Qed.

Lemma order_history_is_append_only_witness :
  exists order' details',
    findOrder (OrderAdmin.handle (OrderAdmin.CancelOrder None) "bob" "o1" 50
                 Samples.office) "o1" = Some (order', details') /\
    Order.items order' = Order.items Examples.bobsOrder /\
    OrderDetails.pricing details' = OrderDetails.pricing Samples.paidDetails.
Proof.
  destruct (order_history_is_append_only (OrderAdmin.CancelOrder None) "bob" "o1"
              50%Z Samples.office "o1" Examples.bobsOrder Samples.paidDetails
              eq_refl)
    as (order' & details' & Hf & _ & _ & Hi & _ & Hp).
  exists order', details'. auto.
Defined.

(** X19: [updatePaymentStatus] on a stored order: a status outside the payment
    enum makes the handler throw and nothing is written; otherwise the payment
    takes the status, [paidAt] is stamped exactly when the status is
    "completed", the transaction id is replaced only by a non-empty one, and
    the order's own status and timeline are left alone. *)
Theorem updatePaymentStatus_cases (b : Backend) (id : ObjectId) (status : string)
    (transactionId : option string) (now : Z) (order : Order.t)
    (details : OrderDetails.t) :
  findOrder b id = Some (order, details) ->
  let result := OrderAdmin.updatePaymentStatus b id status transactionId now in
  ((forall s, Payment.statusName s <> status) -> result = (b, Thrown)) /\
  (forall s,
      Payment.statusName s = status ->
      exists order' details',
        snd result = ok (text "Payment status updated") (order', details') /\
        findOrder (fst result) id = Some (order', details') /\
        Payment.status (OrderDetails.payment details') = s /\
        Payment.paidAt (OrderDetails.payment details')
        = match s with
          | Payment.completed => Some now
          | _ => Payment.paidAt (OrderDetails.payment details)
          end /\
        (JS.truthyString transactionId = false ->
         Payment.transactionId (OrderDetails.payment details')
         = Payment.transactionId (OrderDetails.payment details)) /\
        Payment.refundAmount (OrderDetails.payment details')
        = Payment.refundAmount (OrderDetails.payment details) /\
        Order.status order' = Order.status order /\
        Order.timeline order' = Order.timeline order).
Proof.
  intros Hfind. cbv zeta. unfold OrderAdmin.updatePaymentStatus. rewrite Hfind.
  split.
  - intros Hnone.
    assert (E : Payment.parseStatus status = None).
    { unfold Payment.parseStatus.
      repeat (case_bool_decide;
              [exfalso; subst status;
               first [ exact (Hnone Payment.pending eq_refl)
                     | exact (Hnone Payment.completed eq_refl)
                     | exact (Hnone Payment.failed eq_refl)
                     | exact (Hnone Payment.refunded eq_refl)
                     | exact (Hnone Payment.partially_refunded eq_refl) ]|]).
      reflexivity. }
    rewrite E. reflexivity.
  - intros s Hs. subst status.
    assert (E : Payment.parseStatus (Payment.statusName s) = Some s)
      by (destruct s; reflexivity).
    rewrite E. simpl.
    eexists _, _. split; [reflexivity|].
    split; [apply findOrder_saveOrder_same|]. simpl.
    split; [reflexivity|]. split.
    { destruct s; reflexivity. }
    split.
    { intros Htx. rewrite Htx. reflexivity. }
    repeat split.
Qed.

Lemma updatePaymentStatus_cases_witness :
  OrderAdmin.updatePaymentStatus Samples.office "o2" "paid" None 60
  = (Samples.office, Thrown).
Proof.
  refine (proj1 (updatePaymentStatus_cases Samples.office "o2" "paid" None 60%Z
                   (Order.mk "o2" "bob" [] Order.delivered [] 10)
                   Samples.paidDetails eq_refl) _).
  intros s. destruct s; discriminate.
Defined.

(** ** Placing an order *)

Section PlacingAnOrder.
Variable productName : Product.t -> string.




End PlacingAnOrder.

(** The loop under "Update product stock" runs to its end exactly when
    [OrderController.updateProductStocks] returns the products. *)
Lemma takeStock_updateProductStocks (ps : gmap ObjectId Product.t)
    (items : list Cart.CartItem) :
  OrderController.updateProductStocks ps items
  = (if snd (Checkout.takeStock ps items)
     then Some (fst (Checkout.takeStock ps items)) else None).
Proof.
  revert ps. induction items as [|item rest IH]; intros ps; [reflexivity|].
  simpl. destruct (OrderController.updateProductStock ps item) as [ps'|];
    [apply IH | reflexivity].
Qed.



(** ** The admin stock update *)

(** X23: The admin [updateStock] on a product that carries the SKU writes the given
    quantity (not negative, as the schema asks) to that SKU and to no other, reports it together with a total
    that is the old sum of the quantities minus the old quantity plus the new
    one, and leaves [salesCount] alone; a product or SKU that does not exist
    gives a 404 and nothing is written. *)
Theorem admin_updateStock_sets_quantity (db : DB) (id : ObjectId) (s : string)
    (qty : Q) :
  0 <= qty ->
  let result := ProductController.updateStock db id s qty in
  match products db !! id with
  | None => result = (db, fail 404 (text "Product not found"))
  | Some product =>
      match Product.stockOf product s with
      | None => result = (db, fail 404 (text "Inventory item not found"))
      | Some old =>
          exists product' total,
            snd result = ok (text "Stock updated successfully") (s, qty, total) /\
            products (fst result) !! id = Some product' /\
            Product.stockOf product' s = Some qty /\
            (forall other, other <> s ->
                           Product.stockOf product' other
                           = Product.stockOf product other) /\
            Product.totalQuantity product' = total /\
            total == Product.sumQuantity (Product.inventory product) - old + qty /\
            Product.salesCount product' = Product.salesCount product
      end
  end.
Proof.
  intros _. cbv zeta. unfold ProductController.updateStock, Product.stockOf.
  destruct (products db !! id) as [product|] eqn:Hp; [|reflexivity].
  destruct (Product.findSku s (Product.inventory product)) as [[i r]|] eqn:Hf;
    [|reflexivity].
  pose proof Hf as Hf'. apply list_find_Some in Hf' as (Hi & Hr & _).
  simpl. eexists _, _. split; [reflexivity|].
  split; [apply lookup_insert_eq|]. simpl. unfold Product.findSku in *.
  split.
  { rewrite (find_insert_same Product.sku _ s i r (Product.set_quantity qty r)
               Hf Hr). reflexivity. }
  split.
  { intros other Hne.
    rewrite (find_insert_other Product.sku _ other i r _ Hi);
      [reflexivity|congruence|simpl; congruence]. }
  split; [reflexivity|]. split; [|reflexivity].
  unfold Product.sumQuantity.
  rewrite (reduce_insert Product.quantity _ i r _ Hi). simpl. ring.
Qed.

Lemma admin_updateStock_sets_quantity_witness :
  exists product' total,
    snd (ProductController.updateStock Examples.shop "p-mug" "MUG-1" 9)
    = ok (text "Stock updated successfully") ("MUG-1"%string, 9, total) /\
    Product.stockOf product' "MUG-1" = Some 9.
Proof.
  pose proof (admin_updateStock_sets_quantity Examples.shop "p-mug" "MUG-1" 9) as H.
  assert (H9 : 0 <= 9) by (vm_compute; discriminate).
  specialize (H H9). cbv zeta in H.
  change (products Examples.shop !! "p-mug"%string) with (Some Examples.mug) in H.
  change (Product.stockOf Examples.mug "MUG-1") with (Some 4) in H.
  destruct H as (product' & total & Hres & _ & Hst & _).
  exists product', total. split; [exact Hres | exact Hst].
Defined.
